(** * Verification of the home-services pricing engine ([main.py])

    The engine computes with Python [float]s, that is IEEE 754 binary64
    numbers.  A finite float is modelled by the rational number it
    denotes; every arithmetic operation computes the exact rational
    result and rounds it to the nearest binary64 value (ties to even),
    overflowing to an infinity, as the hardware does.  Signed zeros are
    identified: the engine never inspects the sign of a zero.  The
    theorems quantify over every rational under [Fin], of which the
    floats are some; the requests of the examples are built from literals
    and hold floats only.

    A [str] is modelled by the bytes of its UTF-8 encoding, with the case
    mappings of Unicode.  A number of the request is an [int] or a
    [float]: [read_request] holds the two conversions of the first lines
    of [calculate_pricing], and the body proper,
    [calculate_pricing_locals], starts where the numbers are floats. *)

From Stdlib Require Import ZArith QArith Qround Qabs Qpower Qreduction.
From Stdlib Require Import Lqa Lia List String Ascii Bool Permutation Sorted.
From Stdlib Require Import SpecFloat.
Import ListNotations.

Local Open Scope Q_scope.

(** ** Binary64 arithmetic *)

Module Binary64.

Definition pow2 (e : Z) : Q := 2 ^ e.

(** Nearest integer, ties to the even one. *)
Definition rne (x : Q) : Z :=
  let f := Qfloor x in
  match Qcompare (x - inject_Z f) (1 # 2) with
  | Lt => f
  | Gt => (f + 1)%Z
  | Eq => if Z.even f then f else (f + 1)%Z
  end.

(** [ilog2 x] is the integer [k] with [2^k <= x < 2^(k+1)], for [0 < x]. *)
Definition ilog2 (x : Q) : Z :=
  let k := (Z.log2 (Qnum x) - Z.log2 (Zpos (Qden x)))%Z in
  if Qle_bool (pow2 k) x then k else (k - 1)%Z.

(** Exponent of the last mantissa bit: 53 bits of precision, and the
    subnormal floor [2^-1074]. *)
Definition fexp (x : Q) : Z := Z.max (ilog2 (Qabs x) - 52) (-1074).

(** Rounding of a rational to the binary64 grid, exponent unbounded above. *)
Definition rnd (x : Q) : Q :=
  inject_Z (rne (x * pow2 (- fexp x))) * pow2 (fexp x).

Inductive float : Type :=
| Fin (q : Q)
| PInf
| NInf
| NaN.

(** The float nearest to a rational; magnitudes that round to [2^1024]
    or more overflow. *)
Definition b64 (x : Q) : float :=
  let r := Qred (rnd x) in
  if Qle_bool (pow2 1024) r then PInf
  else if Qle_bool r (- pow2 1024) then NInf
  else Fin r.

(** Python's [float(n)] for an integer, and the value of a decimal
    literal such as [0.27]: both are correctly rounded. *)
Definition of_Z (n : Z) : float := b64 (inject_Z n).
Definition lit (x : Q) : float := b64 x.

(** Python's [+], [-] and [*] on floats. *)
Definition fadd (a b : float) : float :=
  match a, b with
  | NaN, _ | _, NaN => NaN
  | PInf, NInf | NInf, PInf => NaN
  | PInf, _ | _, PInf => PInf
  | NInf, _ | _, NInf => NInf
  | Fin x, Fin y => b64 (x + y)
  end.

Definition fsub (a b : float) : float :=
  match a, b with
  | NaN, _ | _, NaN => NaN
  | PInf, PInf | NInf, NInf => NaN
  | PInf, _ | _, NInf => PInf
  | NInf, _ | _, PInf => NInf
  | Fin x, Fin y => b64 (x - y)
  end.

(** An infinity times the finite [x], or divided by it. *)
Definition scale_inf (positive : bool) (x : Q) : float :=
  match Qcompare x 0 with
  | Eq => NaN
  | Gt => if positive then PInf else NInf
  | Lt => if positive then NInf else PInf
  end.

Definition fmul (a b : float) : float :=
  match a, b with
  | NaN, _ | _, NaN => NaN
  | PInf, PInf | NInf, NInf => PInf
  | PInf, NInf | NInf, PInf => NInf
  | PInf, Fin x | Fin x, PInf => scale_inf true x
  | NInf, Fin x | Fin x, NInf => scale_inf false x
  | Fin x, Fin y => b64 (x * y)
  end.

(** Python's comparisons; every comparison with [NaN] is [False]. *)
Definition flt (a b : float) : bool :=
  match a, b with
  | NaN, _ | _, NaN => false
  | _, NInf | PInf, _ => false
  | NInf, _ | _, PInf => true
  | Fin x, Fin y => negb (Qle_bool y x)
  end.

Definition fgt (a b : float) : bool := flt b a.

Definition fle (a b : float) : bool :=
  match a, b with
  | NaN, _ | _, NaN => false
  | NInf, _ | _, PInf => true
  | _, NInf | PInf, _ => false
  | Fin x, Fin y => Qle_bool x y
  end.

Definition feq (a b : float) : bool :=
  match a, b with
  | Fin x, Fin y => Qeq_bool x y
  | PInf, PInf | NInf, NInf => true
  | _, _ => false
  end.

Definition is_finite (a : float) : bool :=
  match a with Fin _ => true | _ => false end.

(** Python's [round(x, 2)]: the exact value of [x] is rounded to two
    decimals, ties to even, and the decimal result converted back to the
    nearest float; infinities and [NaN] are returned unchanged. *)
Definition round2 (a : float) : float :=
  match a with
  | Fin x => b64 (inject_Z (rne (x * 100)) / 100)
  | _ => a
  end.

End Binary64.

Export Binary64.

(** ** Exceptions

    [calculate_pricing] wraps its body in [try ... except Exception as e:
    return None, str(e)]; a computation either yields a value or the
    message of the exception it raised. *)

Inductive result (A : Type) : Type :=
| Ok (a : A)
| Err (msg : string).

Arguments Ok {A} a.
Arguments Err {A} msg.

Definition bind {A B : Type} (c : result A) (k : A -> result B) : result B :=
  match c with
  | Ok a => k a
  | Err msg => Err msg
  end.

Notation "x <- c ;; k" := (bind c (fun x => k))
  (at level 61, c at next level, right associativity).

Definition is_ok {A : Type} (c : result A) : bool :=
  match c with Ok _ => true | Err _ => false end.

Local Open Scope string_scope.

(** Python's [/] on floats raises [ZeroDivisionError] on a zero divisor,
    whatever the dividend. *)
Definition fdiv (a b : float) : result float :=
  match a, b with
  | _, Fin y =>
      if Qeq_bool y 0 then Err "float division by zero"
      else match a with
           | Fin x => Ok (b64 (x / y))
           | PInf => Ok (scale_inf true y)
           | NInf => Ok (scale_inf false y)
           | NaN => Ok NaN
           end
  | NaN, _ | _, NaN => Ok NaN
  | Fin _, _ => Ok (Fin 0)
  | _, _ => Ok NaN
  end.

(** Python's one-argument [round(x)], which returns an [int]. *)
Definition round0 (a : float) : result Z :=
  match a with
  | Fin x => Ok (rne x)
  | PInf | NInf => Err "cannot convert float infinity to integer"
  | NaN => Err "cannot convert float NaN to integer"
  end.

(** ** Strings

    A Python [str] is a sequence of Unicode code points.  It is
    represented by the bytes of its UTF-8 encoding, a surrogate being
    encoded like any other code point, so that the ASCII text of the
    tables and of the messages reads as in the source.  Bytes that are
    no encoding stand for no [str]; the functions leave them alone. *)

(** The case mappings of ASCII letters. *)
Definition upper_ascii (c : ascii) : ascii :=
  let n := N_of_ascii c in
  if ((97 <=? n) && (n <=? 122))%N then ascii_of_N (n - 32) else c.

Definition lower_ascii (c : ascii) : ascii :=
  let n := N_of_ascii c in
  if ((65 <=? n) && (n <=? 90))%N then ascii_of_N (n + 32) else c.

(** The case mappings of the Unicode Character Database, in the version
    14.0 that CPython 3.11 contains: the full mappings that [str.upper]
    and [str.lower] apply, and the two properties that [str.lower]
    consults at a capital sigma. *)
Module Unicode.

(** A rule [(first, last, step, delta)]: each of the code points
    [first], [first + step], ..., [last] maps to itself plus [delta]. *)
Definition upper_rules : list (N * N * N * Z) :=
  [
    (0x61, 0x7A, 1, (-32)%Z); (0xB5, 0xB5, 1, (743)%Z);
    (0xE0, 0xF6, 1, (-32)%Z); (0xF8, 0xFE, 1, (-32)%Z);
    (0xFF, 0xFF, 1, (121)%Z); (0x101, 0x12F, 2, (-1)%Z);
    (0x131, 0x131, 1, (-232)%Z); (0x133, 0x137, 2, (-1)%Z);
    (0x13A, 0x148, 2, (-1)%Z); (0x14B, 0x177, 2, (-1)%Z);
    (0x17A, 0x17E, 2, (-1)%Z); (0x17F, 0x17F, 1, (-300)%Z);
    (0x180, 0x180, 1, (195)%Z); (0x183, 0x185, 2, (-1)%Z);
    (0x188, 0x188, 1, (-1)%Z); (0x18C, 0x18C, 1, (-1)%Z);
    (0x192, 0x192, 1, (-1)%Z); (0x195, 0x195, 1, (97)%Z);
    (0x199, 0x199, 1, (-1)%Z); (0x19A, 0x19A, 1, (163)%Z);
    (0x19E, 0x19E, 1, (130)%Z); (0x1A1, 0x1A5, 2, (-1)%Z);
    (0x1A8, 0x1A8, 1, (-1)%Z); (0x1AD, 0x1AD, 1, (-1)%Z);
    (0x1B0, 0x1B0, 1, (-1)%Z); (0x1B4, 0x1B6, 2, (-1)%Z);
    (0x1B9, 0x1B9, 1, (-1)%Z); (0x1BD, 0x1BD, 1, (-1)%Z);
    (0x1BF, 0x1BF, 1, (56)%Z); (0x1C5, 0x1C5, 1, (-1)%Z);
    (0x1C6, 0x1C6, 1, (-2)%Z); (0x1C8, 0x1C8, 1, (-1)%Z);
    (0x1C9, 0x1C9, 1, (-2)%Z); (0x1CB, 0x1CB, 1, (-1)%Z);
    (0x1CC, 0x1CC, 1, (-2)%Z); (0x1CE, 0x1DC, 2, (-1)%Z);
    (0x1DD, 0x1DD, 1, (-79)%Z); (0x1DF, 0x1EF, 2, (-1)%Z);
    (0x1F2, 0x1F2, 1, (-1)%Z); (0x1F3, 0x1F3, 1, (-2)%Z);
    (0x1F5, 0x1F5, 1, (-1)%Z); (0x1F9, 0x21F, 2, (-1)%Z);
    (0x223, 0x233, 2, (-1)%Z); (0x23C, 0x23C, 1, (-1)%Z);
    (0x23F, 0x240, 1, (10815)%Z); (0x242, 0x242, 1, (-1)%Z);
    (0x247, 0x24F, 2, (-1)%Z); (0x250, 0x250, 1, (10783)%Z);
    (0x251, 0x251, 1, (10780)%Z); (0x252, 0x252, 1, (10782)%Z);
    (0x253, 0x253, 1, (-210)%Z); (0x254, 0x254, 1, (-206)%Z);
    (0x256, 0x257, 1, (-205)%Z); (0x259, 0x259, 1, (-202)%Z);
    (0x25B, 0x25B, 1, (-203)%Z); (0x25C, 0x25C, 1, (42319)%Z);
    (0x260, 0x260, 1, (-205)%Z); (0x261, 0x261, 1, (42315)%Z);
    (0x263, 0x263, 1, (-207)%Z); (0x265, 0x265, 1, (42280)%Z);
    (0x266, 0x266, 1, (42308)%Z); (0x268, 0x268, 1, (-209)%Z);
    (0x269, 0x269, 1, (-211)%Z); (0x26A, 0x26A, 1, (42308)%Z);
    (0x26B, 0x26B, 1, (10743)%Z); (0x26C, 0x26C, 1, (42305)%Z);
    (0x26F, 0x26F, 1, (-211)%Z); (0x271, 0x271, 1, (10749)%Z);
    (0x272, 0x272, 1, (-213)%Z); (0x275, 0x275, 1, (-214)%Z);
    (0x27D, 0x27D, 1, (10727)%Z); (0x280, 0x280, 1, (-218)%Z);
    (0x282, 0x282, 1, (42307)%Z); (0x283, 0x283, 1, (-218)%Z);
    (0x287, 0x287, 1, (42282)%Z); (0x288, 0x288, 1, (-218)%Z);
    (0x289, 0x289, 1, (-69)%Z); (0x28A, 0x28B, 1, (-217)%Z);
    (0x28C, 0x28C, 1, (-71)%Z); (0x292, 0x292, 1, (-219)%Z);
    (0x29D, 0x29D, 1, (42261)%Z); (0x29E, 0x29E, 1, (42258)%Z);
    (0x345, 0x345, 1, (84)%Z); (0x371, 0x373, 2, (-1)%Z);
    (0x377, 0x377, 1, (-1)%Z); (0x37B, 0x37D, 1, (130)%Z);
    (0x3AC, 0x3AC, 1, (-38)%Z); (0x3AD, 0x3AF, 1, (-37)%Z);
    (0x3B1, 0x3C1, 1, (-32)%Z); (0x3C2, 0x3C2, 1, (-31)%Z);
    (0x3C3, 0x3CB, 1, (-32)%Z); (0x3CC, 0x3CC, 1, (-64)%Z);
    (0x3CD, 0x3CE, 1, (-63)%Z); (0x3D0, 0x3D0, 1, (-62)%Z);
    (0x3D1, 0x3D1, 1, (-57)%Z); (0x3D5, 0x3D5, 1, (-47)%Z);
    (0x3D6, 0x3D6, 1, (-54)%Z); (0x3D7, 0x3D7, 1, (-8)%Z);
    (0x3D9, 0x3EF, 2, (-1)%Z); (0x3F0, 0x3F0, 1, (-86)%Z);
    (0x3F1, 0x3F1, 1, (-80)%Z); (0x3F2, 0x3F2, 1, (7)%Z);
    (0x3F3, 0x3F3, 1, (-116)%Z); (0x3F5, 0x3F5, 1, (-96)%Z);
    (0x3F8, 0x3F8, 1, (-1)%Z); (0x3FB, 0x3FB, 1, (-1)%Z);
    (0x430, 0x44F, 1, (-32)%Z); (0x450, 0x45F, 1, (-80)%Z);
    (0x461, 0x481, 2, (-1)%Z); (0x48B, 0x4BF, 2, (-1)%Z);
    (0x4C2, 0x4CE, 2, (-1)%Z); (0x4CF, 0x4CF, 1, (-15)%Z);
    (0x4D1, 0x52F, 2, (-1)%Z); (0x561, 0x586, 1, (-48)%Z);
    (0x10D0, 0x10FA, 1, (3008)%Z); (0x10FD, 0x10FF, 1, (3008)%Z);
    (0x13F8, 0x13FD, 1, (-8)%Z); (0x1C80, 0x1C80, 1, (-6254)%Z);
    (0x1C81, 0x1C81, 1, (-6253)%Z); (0x1C82, 0x1C82, 1, (-6244)%Z);
    (0x1C83, 0x1C84, 1, (-6242)%Z); (0x1C85, 0x1C85, 1, (-6243)%Z);
    (0x1C86, 0x1C86, 1, (-6236)%Z); (0x1C87, 0x1C87, 1, (-6181)%Z);
    (0x1C88, 0x1C88, 1, (35266)%Z); (0x1D79, 0x1D79, 1, (35332)%Z);
    (0x1D7D, 0x1D7D, 1, (3814)%Z); (0x1D8E, 0x1D8E, 1, (35384)%Z);
    (0x1E01, 0x1E95, 2, (-1)%Z); (0x1E9B, 0x1E9B, 1, (-59)%Z);
    (0x1EA1, 0x1EFF, 2, (-1)%Z); (0x1F00, 0x1F07, 1, (8)%Z);
    (0x1F10, 0x1F15, 1, (8)%Z); (0x1F20, 0x1F27, 1, (8)%Z);
    (0x1F30, 0x1F37, 1, (8)%Z); (0x1F40, 0x1F45, 1, (8)%Z);
    (0x1F51, 0x1F57, 2, (8)%Z); (0x1F60, 0x1F67, 1, (8)%Z);
    (0x1F70, 0x1F71, 1, (74)%Z); (0x1F72, 0x1F75, 1, (86)%Z);
    (0x1F76, 0x1F77, 1, (100)%Z); (0x1F78, 0x1F79, 1, (128)%Z);
    (0x1F7A, 0x1F7B, 1, (112)%Z); (0x1F7C, 0x1F7D, 1, (126)%Z);
    (0x1FB0, 0x1FB1, 1, (8)%Z); (0x1FBE, 0x1FBE, 1, (-7205)%Z);
    (0x1FD0, 0x1FD1, 1, (8)%Z); (0x1FE0, 0x1FE1, 1, (8)%Z);
    (0x1FE5, 0x1FE5, 1, (7)%Z); (0x214E, 0x214E, 1, (-28)%Z);
    (0x2170, 0x217F, 1, (-16)%Z); (0x2184, 0x2184, 1, (-1)%Z);
    (0x24D0, 0x24E9, 1, (-26)%Z); (0x2C30, 0x2C5F, 1, (-48)%Z);
    (0x2C61, 0x2C61, 1, (-1)%Z); (0x2C65, 0x2C65, 1, (-10795)%Z);
    (0x2C66, 0x2C66, 1, (-10792)%Z); (0x2C68, 0x2C6C, 2, (-1)%Z);
    (0x2C73, 0x2C73, 1, (-1)%Z); (0x2C76, 0x2C76, 1, (-1)%Z);
    (0x2C81, 0x2CE3, 2, (-1)%Z); (0x2CEC, 0x2CEE, 2, (-1)%Z);
    (0x2CF3, 0x2CF3, 1, (-1)%Z); (0x2D00, 0x2D25, 1, (-7264)%Z);
    (0x2D27, 0x2D27, 1, (-7264)%Z); (0x2D2D, 0x2D2D, 1, (-7264)%Z);
    (0xA641, 0xA66D, 2, (-1)%Z); (0xA681, 0xA69B, 2, (-1)%Z);
    (0xA723, 0xA72F, 2, (-1)%Z); (0xA733, 0xA76F, 2, (-1)%Z);
    (0xA77A, 0xA77C, 2, (-1)%Z); (0xA77F, 0xA787, 2, (-1)%Z);
    (0xA78C, 0xA78C, 1, (-1)%Z); (0xA791, 0xA793, 2, (-1)%Z);
    (0xA794, 0xA794, 1, (48)%Z); (0xA797, 0xA7A9, 2, (-1)%Z);
    (0xA7B5, 0xA7C3, 2, (-1)%Z); (0xA7C8, 0xA7CA, 2, (-1)%Z);
    (0xA7D1, 0xA7D1, 1, (-1)%Z); (0xA7D7, 0xA7D9, 2, (-1)%Z);
    (0xA7F6, 0xA7F6, 1, (-1)%Z); (0xAB53, 0xAB53, 1, (-928)%Z);
    (0xAB70, 0xABBF, 1, (-38864)%Z); (0xFF41, 0xFF5A, 1, (-32)%Z);
    (0x10428, 0x1044F, 1, (-40)%Z); (0x104D8, 0x104FB, 1, (-40)%Z);
    (0x10597, 0x105BB, 2, (-39)%Z); (0x10598, 0x105A0, 2, (-39)%Z);
    (0x105A4, 0x105B0, 2, (-39)%Z); (0x105B4, 0x105B8, 2, (-39)%Z);
    (0x105BC, 0x105BC, 1, (-39)%Z); (0x10CC0, 0x10CF2, 1, (-64)%Z);
    (0x118C0, 0x118DF, 1, (-32)%Z); (0x16E60, 0x16E7F, 1, (-32)%Z);
    (0x1E922, 0x1E943, 1, (-34)%Z)
  ]%N.

(** The code points whose upper case is more than one code point. *)
Definition upper_special : list (N * list N) :=
  [
    (0xDF, [0x53; 0x53]); (0x149, [0x2BC; 0x4E]); (0x1F0, [0x4A; 0x30C]);
    (0x390, [0x399; 0x308; 0x301]); (0x3B0, [0x3A5; 0x308; 0x301]);
    (0x587, [0x535; 0x552]); (0x1E96, [0x48; 0x331]);
    (0x1E97, [0x54; 0x308]); (0x1E98, [0x57; 0x30A]);
    (0x1E99, [0x59; 0x30A]); (0x1E9A, [0x41; 0x2BE]);
    (0x1F50, [0x3A5; 0x313]); (0x1F52, [0x3A5; 0x313; 0x300]);
    (0x1F54, [0x3A5; 0x313; 0x301]); (0x1F56, [0x3A5; 0x313; 0x342]);
    (0x1F80, [0x1F08; 0x399]); (0x1F81, [0x1F09; 0x399]);
    (0x1F82, [0x1F0A; 0x399]); (0x1F83, [0x1F0B; 0x399]);
    (0x1F84, [0x1F0C; 0x399]); (0x1F85, [0x1F0D; 0x399]);
    (0x1F86, [0x1F0E; 0x399]); (0x1F87, [0x1F0F; 0x399]);
    (0x1F88, [0x1F08; 0x399]); (0x1F89, [0x1F09; 0x399]);
    (0x1F8A, [0x1F0A; 0x399]); (0x1F8B, [0x1F0B; 0x399]);
    (0x1F8C, [0x1F0C; 0x399]); (0x1F8D, [0x1F0D; 0x399]);
    (0x1F8E, [0x1F0E; 0x399]); (0x1F8F, [0x1F0F; 0x399]);
    (0x1F90, [0x1F28; 0x399]); (0x1F91, [0x1F29; 0x399]);
    (0x1F92, [0x1F2A; 0x399]); (0x1F93, [0x1F2B; 0x399]);
    (0x1F94, [0x1F2C; 0x399]); (0x1F95, [0x1F2D; 0x399]);
    (0x1F96, [0x1F2E; 0x399]); (0x1F97, [0x1F2F; 0x399]);
    (0x1F98, [0x1F28; 0x399]); (0x1F99, [0x1F29; 0x399]);
    (0x1F9A, [0x1F2A; 0x399]); (0x1F9B, [0x1F2B; 0x399]);
    (0x1F9C, [0x1F2C; 0x399]); (0x1F9D, [0x1F2D; 0x399]);
    (0x1F9E, [0x1F2E; 0x399]); (0x1F9F, [0x1F2F; 0x399]);
    (0x1FA0, [0x1F68; 0x399]); (0x1FA1, [0x1F69; 0x399]);
    (0x1FA2, [0x1F6A; 0x399]); (0x1FA3, [0x1F6B; 0x399]);
    (0x1FA4, [0x1F6C; 0x399]); (0x1FA5, [0x1F6D; 0x399]);
    (0x1FA6, [0x1F6E; 0x399]); (0x1FA7, [0x1F6F; 0x399]);
    (0x1FA8, [0x1F68; 0x399]); (0x1FA9, [0x1F69; 0x399]);
    (0x1FAA, [0x1F6A; 0x399]); (0x1FAB, [0x1F6B; 0x399]);
    (0x1FAC, [0x1F6C; 0x399]); (0x1FAD, [0x1F6D; 0x399]);
    (0x1FAE, [0x1F6E; 0x399]); (0x1FAF, [0x1F6F; 0x399]);
    (0x1FB2, [0x1FBA; 0x399]); (0x1FB3, [0x391; 0x399]);
    (0x1FB4, [0x386; 0x399]); (0x1FB6, [0x391; 0x342]);
    (0x1FB7, [0x391; 0x342; 0x399]); (0x1FBC, [0x391; 0x399]);
    (0x1FC2, [0x1FCA; 0x399]); (0x1FC3, [0x397; 0x399]);
    (0x1FC4, [0x389; 0x399]); (0x1FC6, [0x397; 0x342]);
    (0x1FC7, [0x397; 0x342; 0x399]); (0x1FCC, [0x397; 0x399]);
    (0x1FD2, [0x399; 0x308; 0x300]); (0x1FD3, [0x399; 0x308; 0x301]);
    (0x1FD6, [0x399; 0x342]); (0x1FD7, [0x399; 0x308; 0x342]);
    (0x1FE2, [0x3A5; 0x308; 0x300]); (0x1FE3, [0x3A5; 0x308; 0x301]);
    (0x1FE4, [0x3A1; 0x313]); (0x1FE6, [0x3A5; 0x342]);
    (0x1FE7, [0x3A5; 0x308; 0x342]); (0x1FF2, [0x1FFA; 0x399]);
    (0x1FF3, [0x3A9; 0x399]); (0x1FF4, [0x38F; 0x399]);
    (0x1FF6, [0x3A9; 0x342]); (0x1FF7, [0x3A9; 0x342; 0x399]);
    (0x1FFC, [0x3A9; 0x399]); (0xFB00, [0x46; 0x46]);
    (0xFB01, [0x46; 0x49]); (0xFB02, [0x46; 0x4C]);
    (0xFB03, [0x46; 0x46; 0x49]); (0xFB04, [0x46; 0x46; 0x4C]);
    (0xFB05, [0x53; 0x54]); (0xFB06, [0x53; 0x54]);
    (0xFB13, [0x544; 0x546]); (0xFB14, [0x544; 0x535]);
    (0xFB15, [0x544; 0x53B]); (0xFB16, [0x54E; 0x546]);
    (0xFB17, [0x544; 0x53D])
  ]%N.

Definition lower_rules : list (N * N * N * Z) :=
  [
    (0x41, 0x5A, 1, (32)%Z); (0xC0, 0xD6, 1, (32)%Z);
    (0xD8, 0xDE, 1, (32)%Z); (0x100, 0x12E, 2, (1)%Z);
    (0x132, 0x136, 2, (1)%Z); (0x139, 0x147, 2, (1)%Z);
    (0x14A, 0x176, 2, (1)%Z); (0x178, 0x178, 1, (-121)%Z);
    (0x179, 0x17D, 2, (1)%Z); (0x181, 0x181, 1, (210)%Z);
    (0x182, 0x184, 2, (1)%Z); (0x186, 0x186, 1, (206)%Z);
    (0x187, 0x187, 1, (1)%Z); (0x189, 0x18A, 1, (205)%Z);
    (0x18B, 0x18B, 1, (1)%Z); (0x18E, 0x18E, 1, (79)%Z);
    (0x18F, 0x18F, 1, (202)%Z); (0x190, 0x190, 1, (203)%Z);
    (0x191, 0x191, 1, (1)%Z); (0x193, 0x193, 1, (205)%Z);
    (0x194, 0x194, 1, (207)%Z); (0x196, 0x196, 1, (211)%Z);
    (0x197, 0x197, 1, (209)%Z); (0x198, 0x198, 1, (1)%Z);
    (0x19C, 0x19C, 1, (211)%Z); (0x19D, 0x19D, 1, (213)%Z);
    (0x19F, 0x19F, 1, (214)%Z); (0x1A0, 0x1A4, 2, (1)%Z);
    (0x1A6, 0x1A6, 1, (218)%Z); (0x1A7, 0x1A7, 1, (1)%Z);
    (0x1A9, 0x1A9, 1, (218)%Z); (0x1AC, 0x1AC, 1, (1)%Z);
    (0x1AE, 0x1AE, 1, (218)%Z); (0x1AF, 0x1AF, 1, (1)%Z);
    (0x1B1, 0x1B2, 1, (217)%Z); (0x1B3, 0x1B5, 2, (1)%Z);
    (0x1B7, 0x1B7, 1, (219)%Z); (0x1B8, 0x1B8, 1, (1)%Z);
    (0x1BC, 0x1BC, 1, (1)%Z); (0x1C4, 0x1C4, 1, (2)%Z);
    (0x1C5, 0x1C5, 1, (1)%Z); (0x1C7, 0x1C7, 1, (2)%Z);
    (0x1C8, 0x1C8, 1, (1)%Z); (0x1CA, 0x1CA, 1, (2)%Z);
    (0x1CB, 0x1DB, 2, (1)%Z); (0x1DE, 0x1EE, 2, (1)%Z);
    (0x1F1, 0x1F1, 1, (2)%Z); (0x1F2, 0x1F4, 2, (1)%Z);
    (0x1F6, 0x1F6, 1, (-97)%Z); (0x1F7, 0x1F7, 1, (-56)%Z);
    (0x1F8, 0x21E, 2, (1)%Z); (0x220, 0x220, 1, (-130)%Z);
    (0x222, 0x232, 2, (1)%Z); (0x23A, 0x23A, 1, (10795)%Z);
    (0x23B, 0x23B, 1, (1)%Z); (0x23D, 0x23D, 1, (-163)%Z);
    (0x23E, 0x23E, 1, (10792)%Z); (0x241, 0x241, 1, (1)%Z);
    (0x243, 0x243, 1, (-195)%Z); (0x244, 0x244, 1, (69)%Z);
    (0x245, 0x245, 1, (71)%Z); (0x246, 0x24E, 2, (1)%Z);
    (0x370, 0x372, 2, (1)%Z); (0x376, 0x376, 1, (1)%Z);
    (0x37F, 0x37F, 1, (116)%Z); (0x386, 0x386, 1, (38)%Z);
    (0x388, 0x38A, 1, (37)%Z); (0x38C, 0x38C, 1, (64)%Z);
    (0x38E, 0x38F, 1, (63)%Z); (0x391, 0x3A1, 1, (32)%Z);
    (0x3A3, 0x3AB, 1, (32)%Z); (0x3CF, 0x3CF, 1, (8)%Z);
    (0x3D8, 0x3EE, 2, (1)%Z); (0x3F4, 0x3F4, 1, (-60)%Z);
    (0x3F7, 0x3F7, 1, (1)%Z); (0x3F9, 0x3F9, 1, (-7)%Z);
    (0x3FA, 0x3FA, 1, (1)%Z); (0x3FD, 0x3FF, 1, (-130)%Z);
    (0x400, 0x40F, 1, (80)%Z); (0x410, 0x42F, 1, (32)%Z);
    (0x460, 0x480, 2, (1)%Z); (0x48A, 0x4BE, 2, (1)%Z);
    (0x4C0, 0x4C0, 1, (15)%Z); (0x4C1, 0x4CD, 2, (1)%Z);
    (0x4D0, 0x52E, 2, (1)%Z); (0x531, 0x556, 1, (48)%Z);
    (0x10A0, 0x10C5, 1, (7264)%Z); (0x10C7, 0x10C7, 1, (7264)%Z);
    (0x10CD, 0x10CD, 1, (7264)%Z); (0x13A0, 0x13EF, 1, (38864)%Z);
    (0x13F0, 0x13F5, 1, (8)%Z); (0x1C90, 0x1CBA, 1, (-3008)%Z);
    (0x1CBD, 0x1CBF, 1, (-3008)%Z); (0x1E00, 0x1E94, 2, (1)%Z);
    (0x1E9E, 0x1E9E, 1, (-7615)%Z); (0x1EA0, 0x1EFE, 2, (1)%Z);
    (0x1F08, 0x1F0F, 1, (-8)%Z); (0x1F18, 0x1F1D, 1, (-8)%Z);
    (0x1F28, 0x1F2F, 1, (-8)%Z); (0x1F38, 0x1F3F, 1, (-8)%Z);
    (0x1F48, 0x1F4D, 1, (-8)%Z); (0x1F59, 0x1F5F, 2, (-8)%Z);
    (0x1F68, 0x1F6F, 1, (-8)%Z); (0x1F88, 0x1F8F, 1, (-8)%Z);
    (0x1F98, 0x1F9F, 1, (-8)%Z); (0x1FA8, 0x1FAF, 1, (-8)%Z);
    (0x1FB8, 0x1FB9, 1, (-8)%Z); (0x1FBA, 0x1FBB, 1, (-74)%Z);
    (0x1FBC, 0x1FBC, 1, (-9)%Z); (0x1FC8, 0x1FCB, 1, (-86)%Z);
    (0x1FCC, 0x1FCC, 1, (-9)%Z); (0x1FD8, 0x1FD9, 1, (-8)%Z);
    (0x1FDA, 0x1FDB, 1, (-100)%Z); (0x1FE8, 0x1FE9, 1, (-8)%Z);
    (0x1FEA, 0x1FEB, 1, (-112)%Z); (0x1FEC, 0x1FEC, 1, (-7)%Z);
    (0x1FF8, 0x1FF9, 1, (-128)%Z); (0x1FFA, 0x1FFB, 1, (-126)%Z);
    (0x1FFC, 0x1FFC, 1, (-9)%Z); (0x2126, 0x2126, 1, (-7517)%Z);
    (0x212A, 0x212A, 1, (-8383)%Z); (0x212B, 0x212B, 1, (-8262)%Z);
    (0x2132, 0x2132, 1, (28)%Z); (0x2160, 0x216F, 1, (16)%Z);
    (0x2183, 0x2183, 1, (1)%Z); (0x24B6, 0x24CF, 1, (26)%Z);
    (0x2C00, 0x2C2F, 1, (48)%Z); (0x2C60, 0x2C60, 1, (1)%Z);
    (0x2C62, 0x2C62, 1, (-10743)%Z); (0x2C63, 0x2C63, 1, (-3814)%Z);
    (0x2C64, 0x2C64, 1, (-10727)%Z); (0x2C67, 0x2C6B, 2, (1)%Z);
    (0x2C6D, 0x2C6D, 1, (-10780)%Z); (0x2C6E, 0x2C6E, 1, (-10749)%Z);
    (0x2C6F, 0x2C6F, 1, (-10783)%Z); (0x2C70, 0x2C70, 1, (-10782)%Z);
    (0x2C72, 0x2C72, 1, (1)%Z); (0x2C75, 0x2C75, 1, (1)%Z);
    (0x2C7E, 0x2C7F, 1, (-10815)%Z); (0x2C80, 0x2CE2, 2, (1)%Z);
    (0x2CEB, 0x2CED, 2, (1)%Z); (0x2CF2, 0x2CF2, 1, (1)%Z);
    (0xA640, 0xA66C, 2, (1)%Z); (0xA680, 0xA69A, 2, (1)%Z);
    (0xA722, 0xA72E, 2, (1)%Z); (0xA732, 0xA76E, 2, (1)%Z);
    (0xA779, 0xA77B, 2, (1)%Z); (0xA77D, 0xA77D, 1, (-35332)%Z);
    (0xA77E, 0xA786, 2, (1)%Z); (0xA78B, 0xA78B, 1, (1)%Z);
    (0xA78D, 0xA78D, 1, (-42280)%Z); (0xA790, 0xA792, 2, (1)%Z);
    (0xA796, 0xA7A8, 2, (1)%Z); (0xA7AA, 0xA7AA, 1, (-42308)%Z);
    (0xA7AB, 0xA7AB, 1, (-42319)%Z); (0xA7AC, 0xA7AC, 1, (-42315)%Z);
    (0xA7AD, 0xA7AD, 1, (-42305)%Z); (0xA7AE, 0xA7AE, 1, (-42308)%Z);
    (0xA7B0, 0xA7B0, 1, (-42258)%Z); (0xA7B1, 0xA7B1, 1, (-42282)%Z);
    (0xA7B2, 0xA7B2, 1, (-42261)%Z); (0xA7B3, 0xA7B3, 1, (928)%Z);
    (0xA7B4, 0xA7C2, 2, (1)%Z); (0xA7C4, 0xA7C4, 1, (-48)%Z);
    (0xA7C5, 0xA7C5, 1, (-42307)%Z); (0xA7C6, 0xA7C6, 1, (-35384)%Z);
    (0xA7C7, 0xA7C9, 2, (1)%Z); (0xA7D0, 0xA7D0, 1, (1)%Z);
    (0xA7D6, 0xA7D8, 2, (1)%Z); (0xA7F5, 0xA7F5, 1, (1)%Z);
    (0xFF21, 0xFF3A, 1, (32)%Z); (0x10400, 0x10427, 1, (40)%Z);
    (0x104B0, 0x104D3, 1, (40)%Z); (0x10570, 0x10594, 2, (39)%Z);
    (0x10571, 0x10579, 2, (39)%Z); (0x1057D, 0x10589, 2, (39)%Z);
    (0x1058D, 0x10591, 2, (39)%Z); (0x10595, 0x10595, 1, (39)%Z);
    (0x10C80, 0x10CB2, 1, (64)%Z); (0x118A0, 0x118BF, 1, (32)%Z);
    (0x16E40, 0x16E5F, 1, (32)%Z); (0x1E900, 0x1E921, 1, (34)%Z)
  ]%N.

Definition lower_special : list (N * list N) :=
  [
    (0x130, [0x69; 0x307])
  ]%N.

(** The property Case_Ignorable, as ranges [(first, last)]. *)
Definition Case_Ignorable : list (N * N) :=
  [
    (0x27, 0x27); (0x2E, 0x2E); (0x3A, 0x3A); (0x5E, 0x5E); (0x60, 0x60);
    (0xA8, 0xA8); (0xAD, 0xAD); (0xAF, 0xAF); (0xB4, 0xB4); (0xB7, 0xB8);
    (0x2B0, 0x36F); (0x374, 0x375); (0x37A, 0x37A); (0x384, 0x385);
    (0x387, 0x387); (0x483, 0x489); (0x559, 0x559); (0x55F, 0x55F);
    (0x591, 0x5BD); (0x5BF, 0x5BF); (0x5C1, 0x5C2); (0x5C4, 0x5C5);
    (0x5C7, 0x5C7); (0x5F4, 0x5F4); (0x600, 0x605); (0x610, 0x61A);
    (0x61C, 0x61C); (0x640, 0x640); (0x64B, 0x65F); (0x670, 0x670);
    (0x6D6, 0x6DD); (0x6DF, 0x6E8); (0x6EA, 0x6ED); (0x70F, 0x70F);
    (0x711, 0x711); (0x730, 0x74A); (0x7A6, 0x7B0); (0x7EB, 0x7F5);
    (0x7FA, 0x7FA); (0x7FD, 0x7FD); (0x816, 0x82D); (0x859, 0x85B);
    (0x888, 0x888); (0x890, 0x891); (0x898, 0x89F); (0x8C9, 0x902);
    (0x93A, 0x93A); (0x93C, 0x93C); (0x941, 0x948); (0x94D, 0x94D);
    (0x951, 0x957); (0x962, 0x963); (0x971, 0x971); (0x981, 0x981);
    (0x9BC, 0x9BC); (0x9C1, 0x9C4); (0x9CD, 0x9CD); (0x9E2, 0x9E3);
    (0x9FE, 0x9FE); (0xA01, 0xA02); (0xA3C, 0xA3C); (0xA41, 0xA42);
    (0xA47, 0xA48); (0xA4B, 0xA4D); (0xA51, 0xA51); (0xA70, 0xA71);
    (0xA75, 0xA75); (0xA81, 0xA82); (0xABC, 0xABC); (0xAC1, 0xAC5);
    (0xAC7, 0xAC8); (0xACD, 0xACD); (0xAE2, 0xAE3); (0xAFA, 0xAFF);
    (0xB01, 0xB01); (0xB3C, 0xB3C); (0xB3F, 0xB3F); (0xB41, 0xB44);
    (0xB4D, 0xB4D); (0xB55, 0xB56); (0xB62, 0xB63); (0xB82, 0xB82);
    (0xBC0, 0xBC0); (0xBCD, 0xBCD); (0xC00, 0xC00); (0xC04, 0xC04);
    (0xC3C, 0xC3C); (0xC3E, 0xC40); (0xC46, 0xC48); (0xC4A, 0xC4D);
    (0xC55, 0xC56); (0xC62, 0xC63); (0xC81, 0xC81); (0xCBC, 0xCBC);
    (0xCBF, 0xCBF); (0xCC6, 0xCC6); (0xCCC, 0xCCD); (0xCE2, 0xCE3);
    (0xD00, 0xD01); (0xD3B, 0xD3C); (0xD41, 0xD44); (0xD4D, 0xD4D);
    (0xD62, 0xD63); (0xD81, 0xD81); (0xDCA, 0xDCA); (0xDD2, 0xDD4);
    (0xDD6, 0xDD6); (0xE31, 0xE31); (0xE34, 0xE3A); (0xE46, 0xE4E);
    (0xEB1, 0xEB1); (0xEB4, 0xEBC); (0xEC6, 0xEC6); (0xEC8, 0xECD);
    (0xF18, 0xF19); (0xF35, 0xF35); (0xF37, 0xF37); (0xF39, 0xF39);
    (0xF71, 0xF7E); (0xF80, 0xF84); (0xF86, 0xF87); (0xF8D, 0xF97);
    (0xF99, 0xFBC); (0xFC6, 0xFC6); (0x102D, 0x1030); (0x1032, 0x1037);
    (0x1039, 0x103A); (0x103D, 0x103E); (0x1058, 0x1059); (0x105E, 0x1060);
    (0x1071, 0x1074); (0x1082, 0x1082); (0x1085, 0x1086); (0x108D, 0x108D);
    (0x109D, 0x109D); (0x10FC, 0x10FC); (0x135D, 0x135F); (0x1712, 0x1714);
    (0x1732, 0x1733); (0x1752, 0x1753); (0x1772, 0x1773); (0x17B4, 0x17B5);
    (0x17B7, 0x17BD); (0x17C6, 0x17C6); (0x17C9, 0x17D3); (0x17D7, 0x17D7);
    (0x17DD, 0x17DD); (0x180B, 0x180F); (0x1843, 0x1843); (0x1885, 0x1886);
    (0x18A9, 0x18A9); (0x1920, 0x1922); (0x1927, 0x1928); (0x1932, 0x1932);
    (0x1939, 0x193B); (0x1A17, 0x1A18); (0x1A1B, 0x1A1B); (0x1A56, 0x1A56);
    (0x1A58, 0x1A5E); (0x1A60, 0x1A60); (0x1A62, 0x1A62); (0x1A65, 0x1A6C);
    (0x1A73, 0x1A7C); (0x1A7F, 0x1A7F); (0x1AA7, 0x1AA7); (0x1AB0, 0x1ACE);
    (0x1B00, 0x1B03); (0x1B34, 0x1B34); (0x1B36, 0x1B3A); (0x1B3C, 0x1B3C);
    (0x1B42, 0x1B42); (0x1B6B, 0x1B73); (0x1B80, 0x1B81); (0x1BA2, 0x1BA5);
    (0x1BA8, 0x1BA9); (0x1BAB, 0x1BAD); (0x1BE6, 0x1BE6); (0x1BE8, 0x1BE9);
    (0x1BED, 0x1BED); (0x1BEF, 0x1BF1); (0x1C2C, 0x1C33); (0x1C36, 0x1C37);
    (0x1C78, 0x1C7D); (0x1CD0, 0x1CD2); (0x1CD4, 0x1CE0); (0x1CE2, 0x1CE8);
    (0x1CED, 0x1CED); (0x1CF4, 0x1CF4); (0x1CF8, 0x1CF9); (0x1D2C, 0x1D6A);
    (0x1D78, 0x1D78); (0x1D9B, 0x1DFF); (0x1FBD, 0x1FBD); (0x1FBF, 0x1FC1);
    (0x1FCD, 0x1FCF); (0x1FDD, 0x1FDF); (0x1FED, 0x1FEF); (0x1FFD, 0x1FFE);
    (0x200B, 0x200F); (0x2018, 0x2019); (0x2024, 0x2024); (0x2027, 0x2027);
    (0x202A, 0x202E); (0x2060, 0x2064); (0x2066, 0x206F); (0x2071, 0x2071);
    (0x207F, 0x207F); (0x2090, 0x209C); (0x20D0, 0x20F0); (0x2C7C, 0x2C7D);
    (0x2CEF, 0x2CF1); (0x2D6F, 0x2D6F); (0x2D7F, 0x2D7F); (0x2DE0, 0x2DFF);
    (0x2E2F, 0x2E2F); (0x3005, 0x3005); (0x302A, 0x302D); (0x3031, 0x3035);
    (0x303B, 0x303B); (0x3099, 0x309E); (0x30FC, 0x30FE); (0xA015, 0xA015);
    (0xA4F8, 0xA4FD); (0xA60C, 0xA60C); (0xA66F, 0xA672); (0xA674, 0xA67D);
    (0xA67F, 0xA67F); (0xA69C, 0xA69F); (0xA6F0, 0xA6F1); (0xA700, 0xA721);
    (0xA770, 0xA770); (0xA788, 0xA78A); (0xA7F2, 0xA7F4); (0xA7F8, 0xA7F9);
    (0xA802, 0xA802); (0xA806, 0xA806); (0xA80B, 0xA80B); (0xA825, 0xA826);
    (0xA82C, 0xA82C); (0xA8C4, 0xA8C5); (0xA8E0, 0xA8F1); (0xA8FF, 0xA8FF);
    (0xA926, 0xA92D); (0xA947, 0xA951); (0xA980, 0xA982); (0xA9B3, 0xA9B3);
    (0xA9B6, 0xA9B9); (0xA9BC, 0xA9BD); (0xA9CF, 0xA9CF); (0xA9E5, 0xA9E6);
    (0xAA29, 0xAA2E); (0xAA31, 0xAA32); (0xAA35, 0xAA36); (0xAA43, 0xAA43);
    (0xAA4C, 0xAA4C); (0xAA70, 0xAA70); (0xAA7C, 0xAA7C); (0xAAB0, 0xAAB0);
    (0xAAB2, 0xAAB4); (0xAAB7, 0xAAB8); (0xAABE, 0xAABF); (0xAAC1, 0xAAC1);
    (0xAADD, 0xAADD); (0xAAEC, 0xAAED); (0xAAF3, 0xAAF4); (0xAAF6, 0xAAF6);
    (0xAB5B, 0xAB5F); (0xAB69, 0xAB6B); (0xABE5, 0xABE5); (0xABE8, 0xABE8);
    (0xABED, 0xABED); (0xFB1E, 0xFB1E); (0xFBB2, 0xFBC2); (0xFE00, 0xFE0F);
    (0xFE13, 0xFE13); (0xFE20, 0xFE2F); (0xFE52, 0xFE52); (0xFE55, 0xFE55);
    (0xFEFF, 0xFEFF); (0xFF07, 0xFF07); (0xFF0E, 0xFF0E); (0xFF1A, 0xFF1A);
    (0xFF3E, 0xFF3E); (0xFF40, 0xFF40); (0xFF70, 0xFF70); (0xFF9E, 0xFF9F);
    (0xFFE3, 0xFFE3); (0xFFF9, 0xFFFB); (0x101FD, 0x101FD);
    (0x102E0, 0x102E0); (0x10376, 0x1037A); (0x10780, 0x10785);
    (0x10787, 0x107B0); (0x107B2, 0x107BA); (0x10A01, 0x10A03);
    (0x10A05, 0x10A06); (0x10A0C, 0x10A0F); (0x10A38, 0x10A3A);
    (0x10A3F, 0x10A3F); (0x10AE5, 0x10AE6); (0x10D24, 0x10D27);
    (0x10EAB, 0x10EAC); (0x10F46, 0x10F50); (0x10F82, 0x10F85);
    (0x11001, 0x11001); (0x11038, 0x11046); (0x11070, 0x11070);
    (0x11073, 0x11074); (0x1107F, 0x11081); (0x110B3, 0x110B6);
    (0x110B9, 0x110BA); (0x110BD, 0x110BD); (0x110C2, 0x110C2);
    (0x110CD, 0x110CD); (0x11100, 0x11102); (0x11127, 0x1112B);
    (0x1112D, 0x11134); (0x11173, 0x11173); (0x11180, 0x11181);
    (0x111B6, 0x111BE); (0x111C9, 0x111CC); (0x111CF, 0x111CF);
    (0x1122F, 0x11231); (0x11234, 0x11234); (0x11236, 0x11237);
    (0x1123E, 0x1123E); (0x112DF, 0x112DF); (0x112E3, 0x112EA);
    (0x11300, 0x11301); (0x1133B, 0x1133C); (0x11340, 0x11340);
    (0x11366, 0x1136C); (0x11370, 0x11374); (0x11438, 0x1143F);
    (0x11442, 0x11444); (0x11446, 0x11446); (0x1145E, 0x1145E);
    (0x114B3, 0x114B8); (0x114BA, 0x114BA); (0x114BF, 0x114C0);
    (0x114C2, 0x114C3); (0x115B2, 0x115B5); (0x115BC, 0x115BD);
    (0x115BF, 0x115C0); (0x115DC, 0x115DD); (0x11633, 0x1163A);
    (0x1163D, 0x1163D); (0x1163F, 0x11640); (0x116AB, 0x116AB);
    (0x116AD, 0x116AD); (0x116B0, 0x116B5); (0x116B7, 0x116B7);
    (0x1171D, 0x1171F); (0x11722, 0x11725); (0x11727, 0x1172B);
    (0x1182F, 0x11837); (0x11839, 0x1183A); (0x1193B, 0x1193C);
    (0x1193E, 0x1193E); (0x11943, 0x11943); (0x119D4, 0x119D7);
    (0x119DA, 0x119DB); (0x119E0, 0x119E0); (0x11A01, 0x11A0A);
    (0x11A33, 0x11A38); (0x11A3B, 0x11A3E); (0x11A47, 0x11A47);
    (0x11A51, 0x11A56); (0x11A59, 0x11A5B); (0x11A8A, 0x11A96);
    (0x11A98, 0x11A99); (0x11C30, 0x11C36); (0x11C38, 0x11C3D);
    (0x11C3F, 0x11C3F); (0x11C92, 0x11CA7); (0x11CAA, 0x11CB0);
    (0x11CB2, 0x11CB3); (0x11CB5, 0x11CB6); (0x11D31, 0x11D36);
    (0x11D3A, 0x11D3A); (0x11D3C, 0x11D3D); (0x11D3F, 0x11D45);
    (0x11D47, 0x11D47); (0x11D90, 0x11D91); (0x11D95, 0x11D95);
    (0x11D97, 0x11D97); (0x11EF3, 0x11EF4); (0x13430, 0x13438);
    (0x16AF0, 0x16AF4); (0x16B30, 0x16B36); (0x16B40, 0x16B43);
    (0x16F4F, 0x16F4F); (0x16F8F, 0x16F9F); (0x16FE0, 0x16FE1);
    (0x16FE3, 0x16FE4); (0x1AFF0, 0x1AFF3); (0x1AFF5, 0x1AFFB);
    (0x1AFFD, 0x1AFFE); (0x1BC9D, 0x1BC9E); (0x1BCA0, 0x1BCA3);
    (0x1CF00, 0x1CF2D); (0x1CF30, 0x1CF46); (0x1D167, 0x1D169);
    (0x1D173, 0x1D182); (0x1D185, 0x1D18B); (0x1D1AA, 0x1D1AD);
    (0x1D242, 0x1D244); (0x1DA00, 0x1DA36); (0x1DA3B, 0x1DA6C);
    (0x1DA75, 0x1DA75); (0x1DA84, 0x1DA84); (0x1DA9B, 0x1DA9F);
    (0x1DAA1, 0x1DAAF); (0x1E000, 0x1E006); (0x1E008, 0x1E018);
    (0x1E01B, 0x1E021); (0x1E023, 0x1E024); (0x1E026, 0x1E02A);
    (0x1E130, 0x1E13D); (0x1E2AE, 0x1E2AE); (0x1E2EC, 0x1E2EF);
    (0x1E8D0, 0x1E8D6); (0x1E944, 0x1E94B); (0x1F3FB, 0x1F3FF);
    (0xE0001, 0xE0001); (0xE0020, 0xE007F); (0xE0100, 0xE01EF)
  ]%N.

(** The property Cased, on the code points that are not Case_Ignorable;
    it is consulted on those only. *)
Definition Cased : list (N * N) :=
  [
    (0x41, 0x5A); (0x61, 0x7A); (0xAA, 0xAA); (0xB5, 0xB5); (0xBA, 0xBA);
    (0xC0, 0xD6); (0xD8, 0xF6); (0xF8, 0x1BA); (0x1BC, 0x1BF);
    (0x1C4, 0x293); (0x295, 0x2AF); (0x370, 0x373); (0x376, 0x377);
    (0x37B, 0x37D); (0x37F, 0x37F); (0x386, 0x386); (0x388, 0x38A);
    (0x38C, 0x38C); (0x38E, 0x3A1); (0x3A3, 0x3F5); (0x3F7, 0x481);
    (0x48A, 0x52F); (0x531, 0x556); (0x560, 0x588); (0x10A0, 0x10C5);
    (0x10C7, 0x10C7); (0x10CD, 0x10CD); (0x10D0, 0x10FA); (0x10FD, 0x10FF);
    (0x13A0, 0x13F5); (0x13F8, 0x13FD); (0x1C80, 0x1C88); (0x1C90, 0x1CBA);
    (0x1CBD, 0x1CBF); (0x1D00, 0x1D2B); (0x1D6B, 0x1D77); (0x1D79, 0x1D9A);
    (0x1E00, 0x1F15); (0x1F18, 0x1F1D); (0x1F20, 0x1F45); (0x1F48, 0x1F4D);
    (0x1F50, 0x1F57); (0x1F59, 0x1F59); (0x1F5B, 0x1F5B); (0x1F5D, 0x1F5D);
    (0x1F5F, 0x1F7D); (0x1F80, 0x1FB4); (0x1FB6, 0x1FBC); (0x1FBE, 0x1FBE);
    (0x1FC2, 0x1FC4); (0x1FC6, 0x1FCC); (0x1FD0, 0x1FD3); (0x1FD6, 0x1FDB);
    (0x1FE0, 0x1FEC); (0x1FF2, 0x1FF4); (0x1FF6, 0x1FFC); (0x2102, 0x2102);
    (0x2107, 0x2107); (0x210A, 0x2113); (0x2115, 0x2115); (0x2119, 0x211D);
    (0x2124, 0x2124); (0x2126, 0x2126); (0x2128, 0x2128); (0x212A, 0x212D);
    (0x212F, 0x2134); (0x2139, 0x2139); (0x213C, 0x213F); (0x2145, 0x2149);
    (0x214E, 0x214E); (0x2160, 0x217F); (0x2183, 0x2184); (0x24B6, 0x24E9);
    (0x2C00, 0x2C7B); (0x2C7E, 0x2CE4); (0x2CEB, 0x2CEE); (0x2CF2, 0x2CF3);
    (0x2D00, 0x2D25); (0x2D27, 0x2D27); (0x2D2D, 0x2D2D); (0xA640, 0xA66D);
    (0xA680, 0xA69B); (0xA722, 0xA76F); (0xA771, 0xA787); (0xA78B, 0xA78E);
    (0xA790, 0xA7CA); (0xA7D0, 0xA7D1); (0xA7D3, 0xA7D3); (0xA7D5, 0xA7D9);
    (0xA7F5, 0xA7F6); (0xA7FA, 0xA7FA); (0xAB30, 0xAB5A); (0xAB60, 0xAB68);
    (0xAB70, 0xABBF); (0xFB00, 0xFB06); (0xFB13, 0xFB17); (0xFF21, 0xFF3A);
    (0xFF41, 0xFF5A); (0x10400, 0x1044F); (0x104B0, 0x104D3);
    (0x104D8, 0x104FB); (0x10570, 0x1057A); (0x1057C, 0x1058A);
    (0x1058C, 0x10592); (0x10594, 0x10595); (0x10597, 0x105A1);
    (0x105A3, 0x105B1); (0x105B3, 0x105B9); (0x105BB, 0x105BC);
    (0x10C80, 0x10CB2); (0x10CC0, 0x10CF2); (0x118A0, 0x118DF);
    (0x16E40, 0x16E7F); (0x1D400, 0x1D454); (0x1D456, 0x1D49C);
    (0x1D49E, 0x1D49F); (0x1D4A2, 0x1D4A2); (0x1D4A5, 0x1D4A6);
    (0x1D4A9, 0x1D4AC); (0x1D4AE, 0x1D4B9); (0x1D4BB, 0x1D4BB);
    (0x1D4BD, 0x1D4C3); (0x1D4C5, 0x1D505); (0x1D507, 0x1D50A);
    (0x1D50D, 0x1D514); (0x1D516, 0x1D51C); (0x1D51E, 0x1D539);
    (0x1D53B, 0x1D53E); (0x1D540, 0x1D544); (0x1D546, 0x1D546);
    (0x1D54A, 0x1D550); (0x1D552, 0x1D6A5); (0x1D6A8, 0x1D6C0);
    (0x1D6C2, 0x1D6DA); (0x1D6DC, 0x1D6FA); (0x1D6FC, 0x1D714);
    (0x1D716, 0x1D734); (0x1D736, 0x1D74E); (0x1D750, 0x1D76E);
    (0x1D770, 0x1D788); (0x1D78A, 0x1D7A8); (0x1D7AA, 0x1D7C2);
    (0x1D7C4, 0x1D7CB); (0x1DF00, 0x1DF09); (0x1DF0B, 0x1DF1E);
    (0x1E900, 0x1E943); (0x1F130, 0x1F149); (0x1F150, 0x1F169);
    (0x1F170, 0x1F189)
  ]%N.

Fixpoint find_rule (c : N) (rules : list (N * N * N * Z)) : option N :=
  match rules with
  | [] => None
  | (first, last, step, delta) :: rest =>
      if ((first <=? c) && (c <=? last) && ((c - first) mod step =? 0))%N
      then Some (Z.to_N (Z.of_N c + delta))
      else find_rule c rest
  end.

Fixpoint find_special (c : N) (special : list (N * list N))
  : option (list N) :=
  match special with
  | [] => None
  | (c', l) :: rest => if (c =? c')%N then Some l else find_special c rest
  end.

Fixpoint in_ranges (c : N) (ranges : list (N * N)) : bool :=
  match ranges with
  | [] => false
  | (first, last) :: rest =>
      ((first <=? c) && (c <=? last))%N || in_ranges c rest
  end.

(** The mapping of a code point, [None] when it maps to itself. *)
Definition mapping (rules : list (N * N * N * Z))
  (special : list (N * list N)) (c : N) : option (list N) :=
  match find_rule c rules with
  | Some c' => Some [c']
  | None => find_special c special
  end.

Definition to_upper : N -> option (list N) := mapping upper_rules upper_special.
Definition to_lower : N -> option (list N) := mapping lower_rules lower_special.

End Unicode.

(** UTF-8: a code point below 0x80 is one byte; the others are a lead
    byte and one to three continuation bytes of six bits each. *)
Definition continuation (b : ascii) : bool :=
  let n := N_of_ascii b in ((0x80 <=? n) && (n <? 0xC0))%N.

Definition bits (b : ascii) : N := (N_of_ascii b mod 64)%N.

Definition encode_code_point (c : N) : string :=
  (if c <? 0x80 then String (ascii_of_N c) ""
   else if c <? 0x800 then
     String (ascii_of_N (0xC0 + c / 64))
       (String (ascii_of_N (0x80 + c mod 64)) "")
   else if c <? 0x10000 then
     String (ascii_of_N (0xE0 + c / 4096))
       (String (ascii_of_N (0x80 + (c / 64) mod 64))
          (String (ascii_of_N (0x80 + c mod 64)) ""))
   else
     String (ascii_of_N (0xF0 + c / 262144))
       (String (ascii_of_N (0x80 + (c / 4096) mod 64))
          (String (ascii_of_N (0x80 + (c / 64) mod 64))
             (String (ascii_of_N (0x80 + c mod 64)) ""))))%N.

Definition encode (l : list N) : string :=
  String.concat "" (map encode_code_point l).

(** The code points of a string, each with the bytes it was read from;
    a byte that starts no encoding stands alone, without a code point. *)
Fixpoint decode (s : string) : list (option N * string) :=
  match s with
  | EmptyString => []
  | String b0 s1 =>
      let n0 := N_of_ascii b0 in
      let alone := (None, String b0 "") :: decode s1 in
      if (n0 <? 0x80)%N then (Some n0, String b0 "") :: decode s1
      else
        match s1 with
        | String b1 s2 =>
            if negb (continuation b1) then alone
            else if ((0xC0 <=? n0) && (n0 <? 0xE0))%N then
              (Some ((n0 - 0xC0) * 64 + bits b1)%N,
               String b0 (String b1 "")) :: decode s2
            else
              match s2 with
              | String b2 s3 =>
                  if negb (continuation b2) then alone
                  else if ((0xE0 <=? n0) && (n0 <? 0xF0))%N then
                    (Some (((n0 - 0xE0) * 64 + bits b1) * 64 + bits b2)%N,
                     String b0 (String b1 (String b2 ""))) :: decode s3
                  else
                    match s3 with
                    | String b3 s4 =>
                        if continuation b3
                           && ((0xF0 <=? n0) && (n0 <? 0xF8))%N
                        then
                          (Some ((((n0 - 0xF0) * 64 + bits b1) * 64
                                  + bits b2) * 64 + bits b3)%N,
                           String b0 (String b1 (String b2 (String b3 ""))))
                          :: decode s4
                        else alone
                    | EmptyString => alone
                    end
              | EmptyString => alone
              end
        | EmptyString => alone
        end
  end.

(** [str.upper]: every code point is replaced by its full upper case. *)
Definition upper_item (item : option N * string) : string :=
  match item with
  | (Some c, bytes) =>
      match Unicode.to_upper c with
      | Some l => encode l
      | None => bytes
      end
  | (None, bytes) => bytes
  end.

Definition upper (s : string) : string :=
  String.concat "" (map upper_item (decode s)).

(** [str.lower]: every code point is replaced by its full lower case,
    but a capital sigma (U+03A3) by the final sigma (U+03C2) when it
    ends a word and by the small sigma (U+03C3) otherwise.  It ends a
    word when a cased letter precedes it and none follows, code points
    that are Case_Ignorable being skipped on both sides. *)
Definition cased (item : option N * string) : bool :=
  match fst item with
  | Some c => Unicode.in_ranges c Unicode.Cased
  | None => false
  end.

Definition case_ignorable (item : option N * string) : bool :=
  match fst item with
  | Some c => Unicode.in_ranges c Unicode.Case_Ignorable
  | None => false
  end.

Fixpoint cased_follows (l : list (option N * string)) : bool :=
  match l with
  | [] => false
  | item :: rest =>
      if case_ignorable item then cased_follows rest else cased item
  end.

Definition lower_item (cased_before cased_after : bool)
  (item : option N * string) : string :=
  match item with
  | (Some c, bytes) =>
      if (c =? 0x3A3)%N then
        if cased_before && negb cased_after then encode [0x3C2%N]
        else encode [0x3C3%N]
      else
        match Unicode.to_lower c with
        | Some l => encode l
        | None => bytes
        end
  | (None, bytes) => bytes
  end.

Fixpoint lower_items (cased_before : bool) (l : list (option N * string))
  : string :=
  match l with
  | [] => ""
  | item :: rest =>
      lower_item cased_before (cased_follows rest) item
      ++ lower_items
           (if case_ignorable item then cased_before else cased item) rest
  end.

Definition lower (s : string) : string := lower_items false (decode s).

(** ** Tables *)

(** A [dict] with string keys, in insertion order. *)
Definition dict (V : Type) : Type := list (string * V).

Fixpoint lookup {V : Type} (k : string) (d : dict V) : option V :=
  match d with
  | [] => None
  | (k', v) :: t => if String.eqb k k' then Some v else lookup k t
  end.

(** [k in d] and [d.get(k, default)]. *)
Definition mem {V : Type} (k : string) (d : dict V) : bool :=
  match lookup k d with Some _ => true | None => false end.

Definition get {V : Type} (d : dict V) (k : string) (default : V) : V :=
  match lookup k d with Some v => v | None => default end.

Definition STATE_LABOR_RATES : dict Z :=
  [ ("AL", 28); ("AK", 35); ("AZ", 32); ("AR", 26); ("CA", 38); ("CO", 34);
    ("CT", 40); ("DE", 33); ("FL", 30); ("GA", 29); ("HI", 42); ("ID", 28);
    ("IL", 36); ("IN", 29); ("IA", 27); ("KS", 26); ("KY", 27); ("LA", 27);
    ("ME", 31); ("MD", 34); ("MA", 41); ("MI", 32); ("MN", 33); ("MS", 25);
    ("MO", 28); ("MT", 29); ("NE", 27); ("NV", 34); ("NH", 32); ("NJ", 38);
    ("NM", 27); ("NY", 39); ("NC", 28); ("ND", 26); ("OH", 30); ("OK", 26);
    ("OR", 33); ("PA", 35); ("RI", 36); ("SC", 27); ("SD", 25); ("TN", 28);
    ("TX", 29); ("UT", 30); ("VT", 32); ("VA", 31); ("WA", 36); ("WV", 27);
    ("WI", 31); ("WY", 27) ]%Z.

Definition JOB_TYPE_MULTIPLIERS : dict float :=
  [ ("plumbing", lit 1.2); ("electrical", lit 1.3); ("hvac", lit 1.25);
    ("roofing", lit 1.4); ("carpentry", lit 1.15); ("painting", lit 1.0);
    ("flooring", lit 1.1); ("drywall", lit 1.05);
    ("general_repair", lit 1.0); ("landscaping", lit 0.9);
    ("window_replacement", lit 1.15); ("insulation", lit 1.0);
    ("siding", lit 1.2); ("bathroom_remodel", lit 1.3);
    ("kitchen_remodel", lit 1.4) ].

Definition URGENCY_MULTIPLIERS : dict float :=
  [ ("normal", lit 1.0); ("same_day", lit 1.25); ("emergency", lit 1.5) ].

Definition LOGISTICS_RATE_PER_KM : float := lit 0.50.

(** ** The helpers *)

Definition calculate_logistics_cost (distance_km : float) : float :=
  let base_cost := of_Z 50 in
  let distance_cost := fmul distance_km LOGISTICS_RATE_PER_KM in
  round2 (fadd base_cost distance_cost).

(** [sorted(items, key=lambda x: x[1])]: a stable sort on the price,
    comparing with [<] only.  Every stable sort returns the same list
    when [<] orders the keys; the insertion sort below is also what
    Python does on two entries when a key is [NaN].  With a [NaN] among
    three or more keys the list that Python returns depends on the steps
    of its own algorithm, which is not modelled. *)
Fixpoint insert_by_price (x : string * float) (l : list (string * float))
  : list (string * float) :=
  match l with
  | [] => [x]
  | y :: t => if flt (snd y) (snd x) then y :: insert_by_price x t
              else x :: y :: t
  end.

Fixpoint sorted (l : list (string * float)) : list (string * float) :=
  match l with
  | [] => []
  | x :: t => insert_by_price x (sorted t)
  end.

(** The pair [(None, 0)] is the sentinel for "no supplier". *)
Definition select_supplier (material_prices : dict float)
  : option string * float :=
  match material_prices with
  | [] => (None, of_Z 0)
  | _ =>
      match sorted material_prices with
      | (name, price) :: _ => (Some name, price)
      | [] => (None, of_Z 0)
      end
  end.

(** ** The pricing engine *)

(** The request once [float(...)] has converted labor_hours and
    distance_km (see [read_request] below); a field is [None] when its
    key is absent.  [material_prices] maps supplier names to floats, in
    the order of the object. *)
Record job_data : Type := {
  job_type : option string;
  job_description : option string;
  urgency : option string;
  labor_hours : option float;
  state : option string;
  distance_km : option float;
  material_prices : option (dict float)
}.

(** [job_data.get(key, default)] on a field of the request. *)
Definition key_or {A : Type} (field : option A) (default : A) : A :=
  match field with Some v => v | None => default end.

(** Which arm of the margin adjustment ran. *)
Inductive margin_adjustment : Type :=
| Unadjusted
| Increased
| Decreased.

(** The local variables of [calculate_pricing] when it reaches
    "Build response".  Two fields are not variables of the source:
    [target_price] keeps the value [client_price] had before "Adjust if
    needed", and [adjustment] the arm that ran. *)
Module Locals.
Record t : Type := {
  urgency : string;
  state_labor_rate : Z;
  job_multiplier : float;
  urgency_multiplier : float;
  labor_cost : float;
  material_source : string;
  material_cost : float;
  logistics_cost : float;
  subtotal : float;
  technician_payout : float;
  target_price : float;
  actual_margin_percent : float;
  adjustment : margin_adjustment;
  client_price : float;
  platform_margin : float;
  pricing_confidence : string;
  approval_required : bool
}.
End Locals.

(** The response dictionary. *)
Module Response.
Record t : Type := {
  client_price : Z;
  technician_payout : Z;
  material_source : string;
  material_cost : Z;
  labor_cost : Z;
  logistics_cost : Z;
  platform_margin : Z;
  pricing_confidence : string;
  approval_required : bool
}.
End Response.

(** "Calculate platform margin" to "Adjust if needed" in
    [calculate_pricing], which read and assign [subtotal],
    [client_price], [platform_margin] and [actual_margin_percent] only.
    The result is the price at the target margin, the margin share of
    it, the arm taken, and the final [client_price] and
    [platform_margin]. *)
Definition bounded_margin (subtotal : float)
  : result (float * float * margin_adjustment * float * float) :=
  let target_margin_percent := lit 0.27 in
  quotient <- fdiv subtotal (fsub (of_Z 1) target_margin_percent) ;;
  let client_price := round2 quotient in
  let platform_margin := round2 (fsub client_price subtotal) in
  actual_margin_percent <-
    (if fgt client_price (of_Z 0) then fdiv platform_margin client_price
     else Ok (of_Z 0)) ;;
  if flt actual_margin_percent (lit 0.20) then
    quotient <- fdiv subtotal (lit 0.80) ;;
    let increased := round2 quotient in
    Ok (client_price, actual_margin_percent, Increased,
        increased, round2 (fsub increased subtotal))
  else if fgt actual_margin_percent (lit 0.35) then
    quotient <- fdiv subtotal (lit 0.65) ;;
    let decreased := round2 quotient in
    Ok (client_price, actual_margin_percent, Decreased,
        decreased, round2 (fsub decreased subtotal))
  else
    Ok (client_price, actual_margin_percent, Unadjusted,
        client_price, platform_margin).

(** The body of [calculate_pricing] up to "Build response", from a
    request whose numbers are floats. *)
Definition calculate_pricing_locals (job_data : job_data) : result Locals.t :=
  let job_type := lower (key_or (job_type job_data) "") in
  let urgency := lower (key_or (urgency job_data) "normal") in
  let labor_hours := key_or (labor_hours job_data) (of_Z 2) in
  let state := upper (key_or (state job_data) "CA") in
  let distance_km := key_or (distance_km job_data) (of_Z 10) in
  let material_prices := key_or (material_prices job_data) [] in
  if negb (mem state STATE_LABOR_RATES) then Err "Invalid state code" else
  let urgency :=
    if negb (mem urgency URGENCY_MULTIPLIERS) then "normal" else urgency in
  if flt labor_hours (lit 0.5) || fgt labor_hours (of_Z 100)
  then Err "Labor hours must be between 0.5 and 100" else
  let state_labor_rate := get STATE_LABOR_RATES state 30%Z in
  let job_multiplier := get JOB_TYPE_MULTIPLIERS job_type (lit 1.0) in
  let urgency_multiplier := get URGENCY_MULTIPLIERS urgency (lit 1.0) in
  let base_hourly_rate := fmul (of_Z state_labor_rate) job_multiplier in
  let labor_cost := fmul (fmul base_hourly_rate labor_hours) urgency_multiplier in
  let labor_cost := round2 labor_cost in
  let '(material_source, material_cost) :=
    match select_supplier material_prices with
    | (None, _) => ("Standard Materials", of_Z 0)
    | (Some name, price) => (name, round2 price)
    end in
  let logistics_cost := calculate_logistics_cost distance_km in
  let subtotal := fadd (fadd labor_cost material_cost) logistics_cost in
  let technician_payout := round2 (fmul labor_cost (lit 0.68)) in
  margin <- bounded_margin subtotal ;;
  let '(target_price, actual_margin_percent, adjustment,
        client_price, platform_margin) := margin in
  let pricing_confidence := "high" in
  let pricing_confidence :=
    match material_prices with [] => "medium" | _ => pricing_confidence end in
  let pricing_confidence :=
    if fgt labor_hours (of_Z 50) || fgt client_price (of_Z 2000)
    then "medium" else pricing_confidence in
  let approval_required := false in
  let approval_required :=
    if String.eqb urgency "emergency" then true else approval_required in
  let approval_required :=
    if fgt client_price (of_Z 3000) then true else approval_required in
  let approval_required :=
    if String.eqb pricing_confidence "low" then true else approval_required in
  Ok {| Locals.urgency := urgency;
        Locals.state_labor_rate := state_labor_rate;
        Locals.job_multiplier := job_multiplier;
        Locals.urgency_multiplier := urgency_multiplier;
        Locals.labor_cost := labor_cost;
        Locals.material_source := material_source;
        Locals.material_cost := material_cost;
        Locals.logistics_cost := logistics_cost;
        Locals.subtotal := subtotal;
        Locals.technician_payout := technician_payout;
        Locals.target_price := target_price;
        Locals.actual_margin_percent := actual_margin_percent;
        Locals.adjustment := adjustment;
        Locals.client_price := client_price;
        Locals.platform_margin := platform_margin;
        Locals.pricing_confidence := pricing_confidence;
        Locals.approval_required := approval_required |}.

(** "Build response": the money fields are rounded to whole units, in the
    order of the dictionary display. *)
Definition build_response (v : Locals.t) : result Response.t :=
  client_price <- round0 (Locals.client_price v) ;;
  technician_payout <- round0 (Locals.technician_payout v) ;;
  material_cost <- round0 (Locals.material_cost v) ;;
  labor_cost <- round0 (Locals.labor_cost v) ;;
  logistics_cost <- round0 (Locals.logistics_cost v) ;;
  platform_margin <- round0 (Locals.platform_margin v) ;;
  Ok {| Response.client_price := client_price;
        Response.technician_payout := technician_payout;
        Response.material_source := Locals.material_source v;
        Response.material_cost := material_cost;
        Response.labor_cost := labor_cost;
        Response.logistics_cost := logistics_cost;
        Response.platform_margin := platform_margin;
        Response.pricing_confidence := Locals.pricing_confidence v;
        Response.approval_required := Locals.approval_required v |}.

(** [calculate_pricing] returns [(response, None)] or [(None, message)];
    here on a request whose numbers are floats, and from the request as
    parsed in [calculate_pricing_request] below. *)
Definition calculate_pricing (job_data : job_data) : result Response.t :=
  v <- calculate_pricing_locals job_data ;;
  build_response v.

(** ** The numbers of the request

    [json] parses a number without fraction or exponent to an [int], of
    any size, and every other number to a [float].  [calculate_pricing]
    passes labor_hours and distance_km through [float(...)], on lines 76
    and 79, before it validates anything. *)
Inductive number : Type :=
| Int (n : Z)
| Float (x : float).

(** [float(x)] on a number: an [int] is rounded to the nearest float,
    ties to even, and [OverflowError] is raised when that float would be
    an infinity. *)
Definition to_float (x : number) : result float :=
  match x with
  | Float x => Ok x
  | Int n =>
      match of_Z n with
      | Fin q => Ok (Fin q)
      | _ => Err "int too large to convert to float"
      end
  end.

(** The request as [json] parses it: job_type, job_description, urgency
    and state are strings, labor_hours and distance_km are numbers.  The
    material prices are floats: an integer price that a float represents
    exactly behaves as that float in every operation of the body, and
    the other integer prices are left out. *)
Module Request.

Record t : Type := {
  job_type : option string;
  job_description : option string;
  urgency : option string;
  labor_hours : option number;
  state : option string;
  distance_km : option number;
  material_prices : option (dict float)
}.

End Request.

(** [float(job_data.get(key, default))] on a key that is present; on an
    absent key the defaults 2 and 10 convert to the floats that
    [calculate_pricing_locals] takes. *)
Definition read_number (field : option number) : result (option float) :=
  match field with
  | None => Ok None
  | Some x => y <- to_float x ;; Ok (Some y)
  end.

(** "Extract input data": the two conversions, in the order of the
    source; [lower] and [upper] do not raise. *)
Definition read_request (r : Request.t) : result job_data :=
  labor_hours <- read_number (Request.labor_hours r) ;;
  distance_km <- read_number (Request.distance_km r) ;;
  Ok {| job_type := Request.job_type r;
        job_description := Request.job_description r;
        urgency := Request.urgency r;
        labor_hours := labor_hours;
        state := Request.state r;
        distance_km := distance_km;
        material_prices := Request.material_prices r |}.

(** [calculate_pricing] from its first line, on the request as parsed. *)
Definition calculate_pricing_request (r : Request.t) : result Response.t :=
  job_data <- read_request r ;;
  calculate_pricing job_data.

(** ** The JSON endpoints

    The three routes that answer with JSON; [calculate_quote] is
    modelled from the value that [request.get_json()] returns onwards.
    The last component of a result is the HTTP status. *)

(** What [request.get_json()] yields on a body that is [null] or an
    object; arrays, strings and numbers are left out.  An object holds
    the fields that [calculate_pricing] reads, its numbers being floats,
    and perhaps other keys. *)
Inductive json_body : Type :=
| JsonNull
| JsonObject (other_keys : bool) (data : job_data).

(** [o is None] on a field of the request. *)
Definition is_none {A : Type} (o : option A) : bool :=
  match o with None => true | Some _ => false end.

(** Python's [not data]: true on [None] and on the empty [dict]. *)
Definition not_data (body : json_body) : bool :=
  match body with
  | JsonNull => true
  | JsonObject other_keys data =>
      negb other_keys
      && is_none (job_type data) && is_none (job_description data)
      && is_none (urgency data) && is_none (labor_hours data)
      && is_none (state data) && is_none (distance_km data)
      && is_none (material_prices data)
  end.

(** The argument of [jsonify]. *)
Inductive json_reply : Type :=
| ErrorReply (error : string)
| QuoteReply (result : Response.t)
| NullReply.

(** [calculate_quote] once the body is parsed.  [if error:] is false on
    [None] and on the empty string. *)
Definition calculate_quote (body : json_body) : json_reply * Z :=
  if not_data body then (ErrorReply "No data provided", 400%Z)
  else
    match body with
    | JsonNull => (ErrorReply "No data provided", 400%Z)
    | JsonObject _ data =>
        match calculate_pricing data with
        | Err error =>
            if String.eqb error "" then (NullReply, 200%Z)
            else (ErrorReply error, 400%Z)
        | Ok result => (QuoteReply result, 200%Z)
        end
    end.

(** [sorted] on a list of strings: insertion into the sorted rest, in the
    order of the code points. *)
Fixpoint insert_string (x : string) (l : list string) : list string :=
  match l with
  | [] => [x]
  | y :: t => if String.ltb y x then y :: insert_string x t else x :: y :: t
  end.

Fixpoint sorted_strings (l : list string) : list string :=
  match l with
  | [] => []
  | x :: t => insert_string x (sorted_strings t)
  end.

(** [d.keys()], in insertion order. *)
Definition keys {V : Type} (d : dict V) : list string := map fst d.

(** [get_states] and [get_job_types]: the reply and the status. *)
Definition get_states : list string * dict Z * Z :=
  (sorted_strings (keys STATE_LABOR_RATES), STATE_LABOR_RATES, 200%Z).

Definition get_job_types : list string * Z :=
  (sorted_strings (keys JOB_TYPE_MULTIPLIERS), 200%Z).

(** * Vocabulary of the statements *)

(** ** The request as [calculate_pricing] reads it

    The values of the first assignments of [calculate_pricing]: defaults
    applied and case normalised. *)

Definition region (j : job_data) : string := upper (key_or (state j) "CA").

Definition hours (j : job_data) : float := key_or (labor_hours j) (of_Z 2).

Definition category (j : job_data) : string := lower (key_or (job_type j) "").

Definition level (j : job_data) : string :=
  let u := lower (key_or (urgency j) "normal") in
  if negb (mem u URGENCY_MULTIPLIERS) then "normal" else u.

Definition quotes (j : job_data) : dict float := key_or (material_prices j) [].

Definition distance (j : job_data) : float := key_or (distance_km j) (of_Z 10).

Definition out_of_range (h : float) : bool := flt h (lit 0.5) || fgt h (of_Z 100).

(** ** Requests *)

(** The example of the specification: plumbing in California, normal
    urgency, two hours, ten kilometres, no supplier quote. *)

Definition spec_example : job_data :=
  {| job_type := Some "plumbing";
     job_description := None;
     urgency := Some "normal";
     labor_hours := Some (of_Z 2);
     state := Some "CA";
     distance_km := Some (of_Z 10);
     material_prices := Some [] |}.

Definition with_job_type (t : string) (j : job_data) : job_data :=
  {| job_type := Some t; job_description := job_description j;
     urgency := urgency j; labor_hours := labor_hours j; state := state j;
     distance_km := distance_km j; material_prices := material_prices j |}.

Definition with_urgency (u : string) (j : job_data) : job_data :=
  {| job_type := job_type j; job_description := job_description j;
     urgency := Some u; labor_hours := labor_hours j; state := state j;
     distance_km := distance_km j; material_prices := material_prices j |}.

Definition with_labor_hours (h : float) (j : job_data) : job_data :=
  {| job_type := job_type j; job_description := job_description j;
     urgency := urgency j; labor_hours := Some h; state := state j;
     distance_km := distance_km j; material_prices := material_prices j |}.

Definition with_state (s : string) (j : job_data) : job_data :=
  {| job_type := job_type j; job_description := job_description j;
     urgency := urgency j; labor_hours := labor_hours j; state := Some s;
     distance_km := distance_km j; material_prices := material_prices j |}.

Definition with_material_prices (mp : dict float) (j : job_data) : job_data :=
  {| job_type := job_type j; job_description := job_description j;
     urgency := urgency j; labor_hours := labor_hours j; state := state j;
     distance_km := distance_km j; material_prices := Some mp |}.

(** A quote of -146.19 leaves a subtotal of one cent; a quote of -300
    makes it negative; a quote of 1.5e308 overflows the client price; a
    quote may be [NaN], which Python's [json] accepts. *)

Definition one_cent_job : job_data :=
  with_material_prices [("Acme", lit (-146.19))] spec_example.

Definition refund_job : job_data :=
  with_material_prices [("Acme", lit (-300))] spec_example.

Definition overflow_job : job_data :=
  with_material_prices [("Acme", lit 1.5e308)] spec_example.

Definition nan_quotes : dict float := [("A", NaN); ("B", of_Z 1)].

(** Requests and quotes on which the theorems are exercised. *)

Definition unknown_region_job : job_data := with_state "ZZ" spec_example.

Definition short_job : job_data := with_labor_hours (lit 0.1) spec_example.

Definition odd_job : job_data :=
  with_job_type "Chimney Sweep" (with_urgency "whenever" spec_example).

Definition three_quotes : dict float :=
  [("Acme", lit 12.5); ("Bolt", lit 9.99); ("Core", lit 9.99)].

Definition quoted_job : job_data := with_material_prices three_quotes spec_example.

Definition stateless_job : job_data :=
  {| job_type := Some "roofing"; job_description := None; urgency := None;
     labor_hours := None; state := None; distance_km := None;
     material_prices := None |}.

(** ** What the local variables hold

    [locals_spec j v]: the record [v] holds the values that the body of
    [calculate_pricing] assigns on the request [j]. *)

Record locals_spec (j : job_data) (v : Locals.t) : Prop := {
  ls_urgency : Locals.urgency v = level j;
  ls_rate : Locals.state_labor_rate v = get STATE_LABOR_RATES (region j) 30%Z;
  ls_job : Locals.job_multiplier v = get JOB_TYPE_MULTIPLIERS (category j) (lit 1.0);
  ls_urg : Locals.urgency_multiplier v = get URGENCY_MULTIPLIERS (level j) (lit 1.0);
  ls_labor : Locals.labor_cost v =
    round2 (fmul (fmul (fmul (of_Z (Locals.state_labor_rate v))
                             (Locals.job_multiplier v))
                       (hours j))
                 (Locals.urgency_multiplier v));
  ls_material : (Locals.material_source v, Locals.material_cost v) =
    match select_supplier (quotes j) with
    | (None, _) => ("Standard Materials", of_Z 0)
    | (Some name, price) => (name, round2 price)
    end;
  ls_logistics : Locals.logistics_cost v = calculate_logistics_cost (distance j);
  ls_subtotal : Locals.subtotal v =
    fadd (fadd (Locals.labor_cost v) (Locals.material_cost v))
         (Locals.logistics_cost v);
  ls_payout : Locals.technician_payout v =
    round2 (fmul (Locals.labor_cost v) (lit 0.68));
  ls_margin : bounded_margin (Locals.subtotal v) =
    Ok (Locals.target_price v, Locals.actual_margin_percent v,
        Locals.adjustment v, Locals.client_price v, Locals.platform_margin v);
  ls_confidence : Locals.pricing_confidence v =
    if fgt (hours j) (of_Z 50) || fgt (Locals.client_price v) (of_Z 2000)
    then "medium"
    else match quotes j with [] => "medium" | _ => "high" end;
  ls_approval : Locals.approval_required v =
    if String.eqb (Locals.pricing_confidence v) "low" then true
    else if fgt (Locals.client_price v) (of_Z 3000) then true
    else if String.eqb (Locals.urgency v) "emergency" then true
    else false
}.

(** ** Predicates on floats and quotes *)

(** [at_least c x]: [x] is a number not below [c], or plus infinity. *)

Definition at_least (c : Q) (x : float) : Prop :=
  match x with Fin q => c <= q | PInf => True | _ => False end.

Definition positive_finite (x : float) : Prop :=
  match x with Fin q => 0 < q | _ => False end.

Definition not_nan (x : float) : Prop := x <> NaN.

Definition nan_free (mp : dict float) : Prop := Forall (fun e => not_nan (snd e)) mp.

(** [first_cheapest mp name price]: the entry [(name, price)] occurs in
    [mp], every entry before it is strictly dearer and no entry after it
    is cheaper. *)

Definition first_cheapest (mp : dict float) (name : string) (price : float) : Prop :=
  exists before after,
    mp = (before ++ (name, price) :: after)%list /\
    (forall e, In e before -> flt price (snd e) = true) /\
    (forall e, In e after -> fle price (snd e) = true).

Definition cheapest_selected (mp : dict float) : Prop :=
  exists name price,
    select_supplier mp = (Some name, price) /\
    In (name, price) mp /\
    forall e, In e mp -> fle price (snd e) = true.

(** The six amounts that "Build response" rounds to whole units. *)

Definition amounts_finite (v : Locals.t) : bool :=
  is_finite (Locals.client_price v) && is_finite (Locals.technician_payout v)
  && is_finite (Locals.material_cost v) && is_finite (Locals.labor_cost v)
  && is_finite (Locals.logistics_cost v) && is_finite (Locals.platform_margin v).

Definition conversion_error (msg : string) : Prop :=
  msg = "cannot convert float infinity to integer" \/
  msg = "cannot convert float NaN to integer".

(** The margin share of the final price lies in [[0.20, 0.35]]; the
    final price covers the subtotal. *)

Definition margin_share_within_bounds (v : Locals.t) : Prop :=
  exists c p,
    Locals.client_price v = Fin c /\ Locals.platform_margin v = Fin p /\
    (1 # 5) <= p / c /\ p / c <= (7 # 20).


(** ** Further requests and predicates *)

(** The setters of the two keys that the requests above leave alone. *)

Definition with_distance_km (d : float) (j : job_data) : job_data :=
  {| job_type := job_type j; job_description := job_description j;
     urgency := urgency j; labor_hours := labor_hours j; state := state j;
     distance_km := Some d; material_prices := material_prices j |}.

Definition with_job_description (t : string) (j : job_data) : job_data :=
  {| job_type := job_type j; job_description := Some t;
     urgency := urgency j; labor_hours := labor_hours j; state := state j;
     distance_km := distance_km j; material_prices := material_prices j |}.

(** The request without any key, and what [calculate_pricing] returns
    on it: two hours of an unlisted job type in 'CA' at ten kilometres,
    without supplier quotes. *)
Definition empty_request : job_data :=
  {| job_type := None; job_description := None; urgency := None;
     labor_hours := None; state := None; distance_km := None;
     material_prices := None |}.

Definition default_quote : Response.t :=
  {| Response.client_price := 179;
     Response.technician_payout := 52;
     Response.material_source := "Standard Materials";
     Response.material_cost := 0;
     Response.labor_cost := 76;
     Response.logistics_cost := 55;
     Response.platform_margin := 48;
     Response.pricing_confidence := "medium";
     Response.approval_required := false |}.

(** [quoted_job] with fewer quotes, with more hours and a longer way,
    and the example with [NaN] hours. *)
Definition two_quotes : dict float :=
  [("Acme", lit 12.5); ("Bolt", lit 9.99)].

Definition fewer_quotes_job : job_data :=
  with_material_prices two_quotes spec_example.

Definition longer_job : job_data :=
  with_labor_hours (of_Z 8) (with_distance_km (of_Z 25) quoted_job).

Definition nan_hours_job : job_data := with_labor_hours NaN spec_example.

(** Every key present, with the default of the source where the
    request has none; the description is dropped. *)
Definition with_defaults (j : job_data) : job_data :=
  {| job_type := Some (key_or (job_type j) "");
     job_description := None;
     urgency := Some (key_or (urgency j) "normal");
     labor_hours := Some (key_or (labor_hours j) (of_Z 2));
     state := Some (key_or (state j) "CA");
     distance_km := Some (key_or (distance_km j) (of_Z 10));
     material_prices := Some (key_or (material_prices j) []) |}.

(** A number that is not negative; a number in [[lo, hi]]. *)
Definition nonneg_finite (x : float) : Prop :=
  match x with Fin q => 0 <= q | _ => False end.

Definition within (lo hi : Q) (x : float) : Prop :=
  match x with Fin q => lo <= q /\ q <= hi | _ => False end.

(** [n] is the integer nearest to [x], the even one on a tie. *)
Definition nearest_even (x : Q) (n : Z) : Prop :=
  Qabs (inject_Z n - x) < 1 # 2 \/
  (Qabs (inject_Z n - x) == 1 # 2 /\ Z.even n = true).

(** [x] is a number and the integer [n] is within one half of it. *)
Definition half_unit (x : float) (n : Z) : Prop :=
  exists q, x = Fin q /\ Qabs (inject_Z n - q) <= 1 # 2.

(** The labor cost as a function of its four factors. *)
Definition labor_of (rate : Z) (job_multiplier hours urgency_multiplier : float)
  : float :=
  round2 (fmul (fmul (fmul (of_Z rate) job_multiplier) hours)
               urgency_multiplier).

(** The divisor of the subtotal in the arm of the adjustment that ran. *)
Definition divisor (adjustment : margin_adjustment) : float :=
  match adjustment with
  | Unadjusted => fsub (of_Z 1) (lit 0.27)
  | Increased => lit 0.80
  | Decreased => lit 0.65
  end.

(** Every element is strictly below all the later ones. *)
Fixpoint ascending (l : list string) : bool :=
  match l with
  | [] => true
  | a :: t => forallb (String.ltb a) t && ascending t
  end.

(** ** Requests as parsed *)

(** A request whose numbers are floats, as [json] parses it. *)
Definition request_of (j : job_data) : Request.t :=
  {| Request.job_type := job_type j;
     Request.job_description := job_description j;
     Request.urgency := urgency j;
     Request.labor_hours := option_map Float (labor_hours j);
     Request.state := state j;
     Request.distance_km := option_map Float (distance_km j);
     Request.material_prices := material_prices j |}.

Definition request_with_job_type (t : string) (r : Request.t) : Request.t :=
  {| Request.job_type := Some t;
     Request.job_description := Request.job_description r;
     Request.urgency := Request.urgency r;
     Request.labor_hours := Request.labor_hours r;
     Request.state := Request.state r;
     Request.distance_km := Request.distance_km r;
     Request.material_prices := Request.material_prices r |}.

Definition request_with_urgency (u : string) (r : Request.t) : Request.t :=
  {| Request.job_type := Request.job_type r;
     Request.job_description := Request.job_description r;
     Request.urgency := Some u;
     Request.labor_hours := Request.labor_hours r;
     Request.state := Request.state r;
     Request.distance_km := Request.distance_km r;
     Request.material_prices := Request.material_prices r |}.


Definition request_with_labor_hours (h : number) (r : Request.t) : Request.t :=
  {| Request.job_type := Request.job_type r;
     Request.job_description := Request.job_description r;
     Request.urgency := Request.urgency r;
     Request.labor_hours := Some h;
     Request.state := Request.state r;
     Request.distance_km := Request.distance_km r;
     Request.material_prices := Request.material_prices r |}.

(** The state and the job type of the request, as [calculate_pricing]
    matches them against the tables. *)
Definition request_region (r : Request.t) : string :=
  upper (key_or (Request.state r) "CA").

Definition request_category (r : Request.t) : string :=
  lower (key_or (Request.job_type r) "").

(** The least magnitude of an [int] that [float(...)] refuses: half way
    between the greatest float and [2^1024]. *)
Definition int_limit : Z := (2 ^ 1024 - 2 ^ 970)%Z.

Definition too_large (field : option number) : bool :=
  match field with
  | Some (Int n) => (int_limit <=? Z.abs n)%Z
  | _ => false
  end.

(** The example of the specification with a region that is not listed
    and labor hours of [10 ** 400]. *)
Definition huge_hours_request : Request.t :=
  request_with_labor_hours (Int (10 ^ 400))
    (request_of unknown_region_job).

(** ** Strings on which the case mappings are exercised *)

(** [s.isascii()], and a function on ASCII characters applied to each
    byte. *)
Fixpoint ascii_only (s : string) : bool :=
  match s with
  | EmptyString => true
  | String b t => (N_of_ascii b <? 0x80)%N && ascii_only t
  end.

Fixpoint map_ascii (f : ascii -> ascii) (s : string) : string :=
  match s with
  | EmptyString => EmptyString
  | String b t => String (f b) (map_ascii f t)
  end.

(** The state [U+017F c], with a long s; the job type
    [U+212A itchen_remodel], with a Kelvin sign; the job type
    [plumb U+0131 ng], with a dotless i; the state [U+212A S]. *)
Definition long_s_state : string := encode [0x17F; 0x63]%N.

Definition kelvin_job_type : string :=
  encode [0x212A%N] ++ "itchen_remodel".

Definition dotless_job_type : string :=
  "plumb" ++ encode [0x131%N] ++ "ng".

Definition kelvin_state : string := encode [0x212A; 0x53]%N.

(** ** The standard library's binary64

    [SpecFloat] specifies the IEEE 754 operations on mantissa and
    exponent; [of_spec] reads its floats in the present model. *)

Definition of_spec (x : spec_float) : float :=
  match x with
  | S754_zero _ => Fin 0
  | S754_infinity false => PInf
  | S754_infinity true => NInf
  | S754_nan => NaN
  | S754_finite s m e =>
      Fin (Qred ((if s then - (1) else 1) * inject_Z (Zpos m) * pow2 e))
  end.

Definition same_float (a b : float) : bool :=
  match a, b with
  | NaN, NaN => true
  | _, _ => feq a b
  end.

(** The five operations of the engine agree on the operands [a] and
    [b], the divisor [b] not being zero. *)
Definition agree (a b : spec_float) : bool :=
  same_float (of_spec (SFadd 53 1024 a b)) (fadd (of_spec a) (of_spec b))
  && same_float (of_spec (SFsub 53 1024 a b)) (fsub (of_spec a) (of_spec b))
  && same_float (of_spec (SFmul 53 1024 a b)) (fmul (of_spec a) (of_spec b))
  && match fdiv (of_spec a) (of_spec b) with
     | Ok q => same_float (of_spec (SFdiv 53 1024 a b)) q
     | Err _ => false
     end
  && Bool.eqb (SFltb a b) (flt (of_spec a) (of_spec b)).

(** 0.1, 0.27, 0.73, 146.2, 200.27, -146.19, 1.5e308, the least
    subnormal, the greatest float, the least normal, 1/3, the
    infinities and [NaN]. *)
Definition samples : list spec_float :=
  [ S754_finite false 7205759403792794 (-56);
    S754_finite false 4863887597560136 (-54);
    S754_finite false 6575255455960924 (-53);
    S754_finite false 5143955199387238 (-45);
    S754_finite false 7046374198230385 (-45);
    S754_finite true 5143603355666350 (-45);
    S754_finite false 7515631350033648 971;
    S754_finite false 1 (-1074);
    S754_finite false 9007199254740991 971;
    S754_finite false 4503599627370496 (-1074);
    S754_finite false 6004799503160661 (-54);
    S754_infinity false; S754_infinity true; S754_nan ].

(** ** Constants of the analysis *)

(** Half the spacing of the floats around 1, the largest rounding error
    near zero, and the overflow threshold. *)
Definition eps : Q := 1 # 9007199254740992.
Definition eta : Q := pow2 (-1075).
Definition huge : Q := pow2 1024.

(** The floats [1 - 0.27], [0.20] and [0.35] of the margin step. *)
Definition c73 : Q := Eval vm_compute in
  match fsub (of_Z 1) (lit 0.27) with Fin q => q | _ => 0 end.
Definition c20 : Q := Eval vm_compute in
  match lit 0.20 with Fin q => q | _ => 0 end.
Definition c35 : Q := Eval vm_compute in
  match lit 0.35 with Fin q => q | _ => 0 end.

(** The floats [0.9] and [1.4], the least and the greatest job type
    multiplier, and the float [0.68] of the payout. *)
Definition c09 : Q := Eval vm_compute in
  match lit 0.9 with Fin q => q | _ => 0 end.

Definition c14 : Q := Eval vm_compute in
  match lit 1.4 with Fin q => q | _ => 0 end.

Definition c68 : Q := Eval vm_compute in
  match lit 0.68 with Fin q => q | _ => 0 end.

Arguments b64 : simpl never.
Arguments lit : simpl never.
Arguments of_Z : simpl never.

(** * Properties *)

(** ** The float model on known values

    The values are those of CPython: [0.1], a tie in the last bit of a
    subnormal, the overflow threshold, and [round(x, 2)] on ties that a
    float represents exactly and on one it does not. *)

Example b64_tenth : lit 0.1 = Fin (3602879701896397 # 36028797018963968).
Proof. vm_compute. reflexivity. Qed.

Example b64_subnormal_tie : b64 (pow2 (-1075)) = Fin 0.
Proof. vm_compute. reflexivity. Qed.

Example b64_overflow : b64 (pow2 1024 - pow2 970) = PInf.
Proof. vm_compute. reflexivity. Qed.

Example fadd_inexact : fadd (lit 0.1) (lit 0.2) <> lit 0.3.
Proof. vm_compute. discriminate. Qed.

Example round2_ties :
  round2 (lit 0.125) = lit 0.12 /\ round2 (lit 0.375) = lit 0.38 /\
  round2 (lit 2.675) = lit 2.67.
Proof. repeat split; vm_compute; reflexivity. Qed.

Example round0_ties :
  round0 (lit 0.5) = Ok 0%Z /\ round0 (lit 1.5) = Ok 2%Z /\
  round0 (lit 2.5) = Ok 2%Z.
Proof. repeat split; vm_compute; reflexivity. Qed.

(** On every pair of the samples the operations give what the standard
    library's specification of binary64 gives. *)
Example agree_on_samples :
  forallb (fun a => forallb (agree a) samples) samples = true.
Proof. vm_compute. reflexivity. Qed.

(** ** Rounding to an integer *)

Lemma rne_error (x : Q) : Qabs (inject_Z (rne x) - x) <= 1 # 2.
Proof.
  unfold rne.
  pose proof (Qfloor_le x) as Hlo.
  pose proof (Qlt_floor x) as Hhi.
  rewrite inject_Z_plus in Hhi.
  apply Qabs_Qle_condition.
  destruct (Qcompare (x - inject_Z (Qfloor x)) (1 # 2)) eqn:Hc;
    [ apply Qeq_alt in Hc; destruct (Z.even (Qfloor x))
    | apply Qlt_alt in Hc
    | apply Qgt_alt in Hc ];
    repeat rewrite inject_Z_plus;
    generalize dependent (inject_Z (Qfloor x)); intros f Hlo Hhi Hc;
    change (inject_Z 1) with 1 in *; lra.
Qed.

Lemma rne_nonneg (x : Q) : 0 <= x -> (0 <= rne x)%Z.
Proof.
  intros Hx. unfold rne.
  assert (0 <= Qfloor x)%Z as Hf.
  { change 0%Z with (Qfloor 0). now apply Qfloor_resp_le. }
  destruct (Qcompare _ _); [destruct (Z.even _) | |]; lia.
Qed.

Lemma rne_nonpos (x : Q) : x <= 0 -> (rne x <= 0)%Z.
Proof.
  intros Hx.
  pose proof (rne_error x) as He.
  apply Qabs_Qle_condition in He.
  assert (inject_Z (rne x) < inject_Z 1) as Hlt.
  { generalize dependent (inject_Z (rne x)). intros r He. change (inject_Z 1) with 1. lra. }
  rewrite <- Zlt_Qlt in Hlt. lia.
Qed.

(** ** Rounding to a float *)

Lemma frac_bounds (A B N D : Q) :
  0 < A -> 0 < B -> A <= N -> N < 2 * A -> B <= D -> D < 2 * B ->
  A / (2 * B) <= N / D /\ N / D < 2 * A / B.
Proof.
  intros HA HB H1 H2 H3 H4. split.
  - apply Qle_shift_div_l; [lra|].
    unfold Qdiv. rewrite <- Qmult_assoc, (Qmult_comm (/ _)).
    rewrite Qmult_assoc. apply Qle_shift_div_r; [lra|]. nra.
  - apply Qlt_shift_div_r; [lra|].
    unfold Qdiv. rewrite <- Qmult_assoc, (Qmult_comm (/ _)).
    rewrite Qmult_assoc. apply Qlt_shift_div_l; [lra|]. nra.
Qed.

Lemma pow2_pos e : 0 < pow2 e.
Proof. apply Qpower_0_lt. reflexivity. Qed.

Lemma pow2_add a b : pow2 (a + b) == pow2 a * pow2 b.
Proof. apply Qpower_plus. discriminate. Qed.

Lemma pow2_succ a : pow2 (a + 1) == 2 * pow2 a.
Proof. rewrite pow2_add. change (pow2 1) with 2. ring. Qed.

Lemma pow2_inject (a : Z) : (0 <= a)%Z -> inject_Z (2 ^ a) == pow2 a.
Proof. intros. now apply Zpower_Qpower. Qed.

Lemma ilog2_spec (x : Q) :
  0 < x -> pow2 (ilog2 x) <= x /\ x < pow2 (ilog2 x + 1).
Proof.
  intros Hx. unfold ilog2.
  destruct x as [n d]. cbn [Qnum Qden].
  assert (0 < n)%Z as Hn by (unfold Qlt in Hx; simpl in Hx; lia).
  set (a := Z.log2 n). set (b := Z.log2 (Zpos d)).
  assert (0 <= a)%Z as Ha by apply Z.log2_nonneg.
  assert (0 <= b)%Z as Hb by apply Z.log2_nonneg.
  destruct (Z.log2_spec n Hn) as [Hn1 Hn2].
  destruct (Z.log2_spec (Zpos d) eq_refl) as [Hd1 Hd2].
  fold a in Hn1, Hn2. fold b in Hd1, Hd2.
  rewrite Z.pow_succ_r in Hn2, Hd2 by assumption.
  assert (n # d == inject_Z n / inject_Z (Zpos d)) as Hq by apply Qmake_Qdiv.
  assert (pow2 (a - b) == pow2 a / pow2 b) as Hk.
  { apply Qpower_minus. discriminate. }
  assert (pow2 (a - b - 1) == pow2 a / (2 * pow2 b)) as Hk1.
  { assert (pow2 (a - b - 1 + 1) == 2 * pow2 (a - b - 1)) as E by apply pow2_succ.
    replace (a - b - 1 + 1)%Z with (a - b)%Z in E by lia.
    rewrite Hk in E. pose proof (pow2_pos b). 
    apply (Qmult_inj_l _ _ 2); [discriminate|]. rewrite <- E.
    field. lra. }
  assert (pow2 (a - b + 1) == 2 * pow2 a / pow2 b) as Hk2.
  { rewrite pow2_succ, Hk. unfold Qdiv. ring. }
  destruct (frac_bounds (pow2 a) (pow2 b) (inject_Z n) (inject_Z (Zpos d)))
    as [L U]; try apply pow2_pos.
  - rewrite <- pow2_inject by assumption. now rewrite <- Zle_Qle.
  - rewrite <- pow2_inject by assumption.
    change 2 with (inject_Z 2). rewrite <- inject_Z_mult, <- Zlt_Qlt. lia.
  - rewrite <- pow2_inject by assumption. now rewrite <- Zle_Qle.
  - rewrite <- pow2_inject by assumption.
    change 2 with (inject_Z 2). rewrite <- inject_Z_mult, <- Zlt_Qlt. lia.
  - destruct (Qle_bool (pow2 (a - b)) (n # d)) eqn:Hc.
    + apply Qle_bool_iff in Hc. split; [assumption|].
      rewrite Hk2, Hq. exact U.
    + assert (~ pow2 (a - b) <= n # d) as Hc'.
      { intros H. apply Qle_bool_iff in H. congruence. }
      apply Qnot_le_lt in Hc'. split.
      * rewrite Hk1, Hq. exact L.
      * now replace (a - b - 1 + 1)%Z with (a - b)%Z by lia.
Qed.

Lemma eps_pow2 : pow2 (-53) == eps.
Proof. reflexivity. Qed.

Lemma eta_small : 0 < eta /\ eta <= 1 # 1000000000000000000000000000000.
Proof. split; [apply pow2_pos | vm_compute; discriminate]. Qed.

Lemma huge_big : 1000000000000000000000000000000 <= huge.
Proof. vm_compute. discriminate. Qed.

Lemma pow2_cancel e : pow2 (- e) * pow2 e == 1.
Proof. rewrite <- pow2_add. now replace (- e + e)%Z with 0%Z by lia. Qed.

Lemma rnd_ulp (x : Q) : Qabs (rnd x - x) <= pow2 (fexp x - 1).
Proof.
  unfold rnd. generalize (fexp x). intros e.
  remember (x * pow2 (- e)) as y eqn:Hy.
  assert (x == y * pow2 e) as Hx.
  { subst y. rewrite <- Qmult_assoc, pow2_cancel. ring. }
  assert (inject_Z (rne y) * pow2 e - x == (inject_Z (rne y) - y) * pow2 e) as E.
  { rewrite Hx at 1. ring. }
  rewrite E, Qabs_Qmult, (Qabs_pos (pow2 e)) by (apply Qlt_le_weak, pow2_pos).
  assert (pow2 (e - 1) == (1 # 2) * pow2 e) as Hh.
  { replace (e - 1)%Z with (e + -1)%Z by lia.
    rewrite pow2_add. change (pow2 (-1)) with (1 # 2). ring. }
  rewrite Hh. apply Qmult_le_compat_r; [apply rne_error|].
  apply Qlt_le_weak, pow2_pos.
Qed.

Lemma rnd_zero (x : Q) : x == 0 -> rnd x == 0.
Proof.
  intros Hx. unfold rnd.
  remember (x * pow2 (- fexp x)) as y eqn:Ey.
  assert (y == 0) as Hy.
  { subst y. generalize (pow2 (- fexp x)). intros p. nra. }
  pose proof (rne_error y) as He. apply Qabs_Qle_condition in He.
  assert (rne y = 0)%Z as ->.
  { assert (inject_Z (-1) < inject_Z (rne y) < inject_Z 1) as [H1 H2].
    { generalize dependent (inject_Z (rne y)). intros r He.
      change (inject_Z (-1)) with (-1). change (inject_Z 1) with 1. lra. }
    rewrite <- Zlt_Qlt in H1, H2. lia. }
  ring.
Qed.

Lemma rnd_error (x : Q) : Qabs (rnd x - x) <= Qabs x * eps + eta.
Proof.
  pose proof (Qabs_nonneg x) as Hax.
  destruct (Qeq_dec x 0) as [Hz | Hnz].
  - assert (rnd x - x == 0) as -> by (rewrite (rnd_zero x Hz), Hz; ring).
    pose proof eta_small. change (Qabs 0) with 0. unfold eps. nra.
  - eapply Qle_trans; [apply rnd_ulp|].
    unfold fexp. destruct (Z.max_spec (ilog2 (Qabs x) - 52) (-1074)) as [[_ ->] | [_ ->]].
    + change (pow2 (-1074 - 1)) with eta. unfold eps. nra.
    + assert (0 < Qabs x) as Hpos.
      { destruct (Qlt_le_dec 0 (Qabs x)) as [H | H]; [exact H|].
        exfalso. apply Hnz. apply Qabs_Qle_condition in H. lra. }
      destruct (ilog2_spec _ Hpos) as [Hlo _].
      replace (ilog2 (Qabs x) - 52 - 1)%Z with (ilog2 (Qabs x) + -53)%Z by lia.
      rewrite pow2_add, eps_pow2.
      pose proof eta_small. unfold eps in *. nra.
Qed.

Lemma rnd_nonneg (x : Q) : 0 <= x -> 0 <= rnd x.
Proof.
  intros Hx. unfold rnd.
  apply Qmult_le_0_compat; [| apply Qlt_le_weak, pow2_pos].
  change 0 with (inject_Z 0). rewrite <- Zle_Qle. apply rne_nonneg.
  apply Qmult_le_0_compat; [assumption | apply Qlt_le_weak, pow2_pos].
Qed.

Lemma b64_nonneg (x : Q) :
  0 <= x ->
  match b64 x with
  | Fin r => 0 <= r /\ r < huge /\
             x * (1 - eps) - eta <= r /\ r <= x * (1 + eps) + eta
  | PInf => huge <= x * (1 + eps) + eta
  | _ => False
  end.
Proof.
  intros Hx. unfold b64.
  pose proof (rnd_error x) as He. pose proof (rnd_nonneg x Hx) as Hr.
  rewrite (Qabs_pos x Hx) in He. apply Qabs_Qle_condition in He.
  pose proof (Qred_correct (rnd x)) as Hred.
  pose proof (pow2_pos 1024) as Hh. fold huge in Hh. fold huge.
  generalize dependent (Qred (rnd x)). intros r Hred.
  destruct (Qle_bool huge r) eqn:Hc1.
  - apply Qle_bool_iff in Hc1. lra.
  - assert (r < huge) as Hlt.
    { apply Qnot_le_lt. intros H. apply Qle_bool_iff in H. congruence. }
    destruct (Qle_bool r (- huge)) eqn:Hc2.
    + apply Qle_bool_iff in Hc2. lra.
    + repeat split; lra.
Qed.

Lemma round2_nonneg (x : Q) :
  0 <= x ->
  match round2 (Fin x) with
  | Fin r => 0 <= r /\ r < huge /\
             (x - (1 # 200)) * (1 - eps) - eta <= r /\
             r <= (x + (1 # 200)) * (1 + eps) + eta
  | PInf => huge <= (x + (1 # 200)) * (1 + eps) + eta
  | _ => False
  end.
Proof.
  intros Hx. cbn [round2].
  pose proof (rne_error (x * 100)) as He. apply Qabs_Qle_condition in He.
  assert (0 <= rne (x * 100))%Z as Hn by (apply rne_nonneg; lra).
  rewrite Zle_Qle in Hn. change (inject_Z 0) with 0 in Hn.
  generalize dependent (inject_Z (rne (x * 100))). intros n He Hn.
  assert (0 <= n / 100) as Hy by (apply Qle_shift_div_l; lra).
  pose proof (b64_nonneg (n / 100) Hy) as Hb.
  assert (n / 100 * 100 == n) as Hdiv by (field).
  generalize dependent (n / 100). intros y Hy Hb Hdiv.
  unfold eps in *.
  destruct (b64 y) as [r | | |]; [repeat split | |..]; try lra; try exact Hb.
Qed.

Lemma target_share : fsub (of_Z 1) (lit 0.27) = Fin c73.
Proof. vm_compute. reflexivity. Qed.
Lemma lit_020 : lit 0.20 = Fin c20.
Proof. vm_compute. reflexivity. Qed.
Lemma lit_035 : lit 0.35 = Fin c35.
Proof. vm_compute. reflexivity. Qed.
Lemma of_Z_0 : of_Z 0 = Fin 0.
Proof. vm_compute. reflexivity. Qed.

Lemma fdiv_fin (x y : Q) : ~ y == 0 -> fdiv (Fin x) (Fin y) = Ok (b64 (x / y)).
Proof.
  intros Hy. unfold fdiv.
  destruct (Qeq_bool y 0) eqn:E; [| reflexivity].
  apply Qeq_bool_iff in E. contradiction.
Qed.

Lemma flt_fin (x y : Q) : y <= x -> flt (Fin x) (Fin y) = false.
Proof. intros H. cbn. apply Qle_bool_iff in H. now rewrite H. Qed.

Lemma fgt_fin_true (x y : Q) : y < x -> fgt (Fin x) (Fin y) = true.
Proof.
  intros H. cbn. destruct (Qle_bool x y) eqn:E; [| reflexivity].
  apply Qle_bool_iff in E. lra.
Qed.

Ltac flra := unfold eps, c73, c20, c35 in *; lra.

Lemma bounded_margin_regular (s : Q) :
  (1 # 10) <= s ->
  exists tp amp pm,
    bounded_margin (Fin s) = Ok (tp, amp, Unadjusted, tp, pm) /\
    flt amp (lit 0.20) = false /\ fgt amp (lit 0.35) = false /\
    ((tp = PInf /\ pm = PInf) \/
     exists c p, tp = Fin c /\ pm = Fin p /\
       s <= c /\ 0 <= p /\ (1 # 5) * c <= p /\ p <= (7 # 20) * c).
Proof.
  intros Hs. unfold bounded_margin.
  rewrite target_share, lit_020, lit_035, of_Z_0.
  rewrite fdiv_fin by discriminate. cbn [bind].
  assert (0 <= s / c73) as Hx by (apply Qle_shift_div_l; [reflexivity | flra]).
  assert (s / c73 * c73 == s) as Hxs by (field; discriminate).
  pose proof (b64_nonneg _ Hx) as Hq.
  generalize dependent (s / c73). intros x Hx Hxs Hq.
  pose proof eta_small as [He1 He2]. pose proof huge_big as Hh.
  destruct (b64 x) as [d | | |]; try contradiction.
  2:{ exists PInf, NaN, PInf. repeat split; try reflexivity. now left. }
  destruct Hq as (Hd0 & Hd1 & Hd2 & Hd3).
  pose proof (round2_nonneg d Hd0) as Hc.
  destruct (round2 (Fin d)) as [c | | |]; try contradiction.
  2:{ exists PInf, NaN, PInf. repeat split; try reflexivity. now left. }
  destruct Hc as (Hc0 & Hc1 & Hc2 & Hc3).
  cbn [fsub].
  assert (0 <= c - s) as Ht by flra.
  pose proof (b64_nonneg _ Ht) as Hu.
  destruct (b64 (c - s)) as [u | | |]; try contradiction; [| flra].
  destruct Hu as (Hu0 & Hu1 & Hu2 & Hu3).
  pose proof (round2_nonneg u Hu0) as Hp.
  destruct (round2 (Fin u)) as [p | | |]; try contradiction; [| flra].
  destruct Hp as (Hp0 & Hp1 & Hp2 & Hp3).
  assert (0 < c) as Hcpos by flra.
  rewrite fgt_fin_true by assumption.
  rewrite fdiv_fin by flra. cbn [bind].
  assert ((204 # 1000) <= p / c) as Hz1 by (apply Qle_shift_div_l; flra).
  assert (p / c <= (34 # 100)) as Hz2 by (apply Qle_shift_div_r; flra).
  assert (0 <= p / c) as Hz0 by flra.
  pose proof (b64_nonneg _ Hz0) as Ha.
  generalize dependent (p / c). intros z Hz1 Hz2 Hz0 Ha.
  destruct (b64 z) as [a | | |]; try contradiction; [| flra].
  destruct Ha as (Ha0 & Ha1 & Ha2 & Ha3).
  assert (flt (Fin a) (Fin c20) = false) as Hlow by (apply flt_fin; flra).
  assert (fgt (Fin a) (Fin c35) = false) as Hhigh by (apply flt_fin; flra).
  rewrite Hlow, Hhigh.
  exists (Fin c), (Fin a), (Fin p). repeat split; try reflexivity; try assumption.
  right. exists c, p. repeat split; flra.
Qed.

(** ** Divisions of the margin step *)

Lemma fdiv_by_nonzero (a : float) (y : Q) :
  ~ y == 0 -> exists q, fdiv a (Fin y) = Ok q.
Proof.
  intros Hy. unfold fdiv.
  destruct (Qeq_bool y 0) eqn:E.
  - apply Qeq_bool_iff in E. contradiction.
  - destruct a; eauto.
Qed.

Lemma fdiv_by_positive (a b : float) :
  fgt b (Fin 0) = true -> exists q, fdiv a b = Ok q.
Proof.
  destruct b as [y | | |]; intros H; try discriminate H.
  - apply fdiv_by_nonzero. intros E.
    cbn in H. destruct (Qle_bool y 0) eqn:L; [discriminate H|].
    assert (y <= 0) as Hle by lra.
    apply Qle_bool_iff in Hle. congruence.
  - destruct a; cbn; eauto.
Qed.

Lemma lit_080 : exists y, lit 0.80 = Fin y /\ ~ y == 0.
Proof. eexists. split; [vm_compute; reflexivity | discriminate]. Qed.

Lemma lit_065 : exists y, lit 0.65 = Fin y /\ ~ y == 0.
Proof. eexists. split; [vm_compute; reflexivity | discriminate]. Qed.

Lemma bounded_margin_total (s : float) : exists r, bounded_margin s = Ok r.
Proof.
  unfold bounded_margin. rewrite target_share, of_Z_0.
  destruct (fdiv_by_nonzero s c73) as [q ->]; [discriminate|]. cbn [bind].
  assert (exists a, (if fgt (round2 q) (Fin 0)
                     then fdiv (round2 (fsub (round2 q) s)) (round2 q)
                     else Ok (Fin 0)) = Ok a) as [a ->].
  { destruct (fgt (round2 q) (Fin 0)) eqn:E; [| eauto].
    now apply fdiv_by_positive. }
  cbn [bind].
  destruct lit_080 as (y8 & -> & H8). destruct lit_065 as (y6 & -> & H6).
  destruct (fdiv_by_nonzero s y8 H8) as [q8 ->].
  destruct (fdiv_by_nonzero s y6 H6) as [q6 ->].
  cbn [bind].
  destruct (flt a (lit 0.20)); [eauto|].
  destruct (fgt a (lit 0.35)); eauto.
Qed.

Lemma bounded_margin_overflow :
  bounded_margin PInf = Ok (PInf, NaN, Unadjusted, PInf, NaN).
Proof. vm_compute. reflexivity. Qed.

Lemma bounded_margin_guard (s : float) r :
  bounded_margin s = Ok r ->
  let '(tp, amp, adj, cp, pm) := r in
  exists q, fdiv s (fsub (of_Z 1) (lit 0.27)) = Ok q /\ tp = round2 q /\
  (fgt tp (of_Z 0) = false ->
   amp = of_Z 0 /\ adj = Increased /\
   exists q', fdiv s (lit 0.80) = Ok q' /\
              cp = round2 q' /\ pm = round2 (fsub cp s)).
Proof.
  unfold bounded_margin.
  destruct (fdiv s (fsub (of_Z 1) (lit 0.27))) as [q |]; [| discriminate].
  cbn [bind].
  destruct (fgt (round2 q) (of_Z 0)) eqn:G.
  - destruct (fdiv (round2 (fsub (round2 q) s)) (round2 q)) as [a |];
      [| discriminate].
    cbn [bind].
    destruct (flt a (lit 0.20)).
    + destruct (fdiv s (lit 0.80)) as [q' |]; [| discriminate]. cbn [bind].
      intros H. injection H as <-. exists q. repeat split; congruence.
    + destruct (fgt a (lit 0.35)).
      * destruct (fdiv s (lit 0.65)) as [q' |]; [| discriminate]. cbn [bind].
        intros H. injection H as <-. exists q. repeat split; congruence.
      * intros H. injection H as <-. exists q. repeat split; congruence.
  - cbn [bind].
    assert (flt (of_Z 0) (lit 0.20) = true) as -> by (vm_compute; reflexivity).
    destruct (fdiv s (lit 0.80)) as [q' |]; [| discriminate]. cbn [bind].
    intros H. injection H as <-. exists q. repeat split.
    exists q'. repeat split.
Qed.

(** ** Lower bounds through the operations *)

Lemma b64_at_least (c x : Q) :
  0 <= x -> c <= x * (1 - eps) - eta -> at_least c (b64 x).
Proof.
  intros Hx Hc. pose proof (b64_nonneg x Hx) as H.
  destruct (b64 x); cbn; try exact H; try exact I. lra.
Qed.

Lemma b64_at_least_0 (x : Q) : 0 <= x -> at_least 0 (b64 x).
Proof.
  intros Hx. pose proof (b64_nonneg x Hx) as H.
  destruct (b64 x); cbn; try exact H; try exact I. lra.
Qed.

Lemma round2_at_least_0 (a : float) : at_least 0 a -> at_least 0 (round2 a).
Proof.
  destruct a as [x | | |]; cbn [at_least]; try contradiction; [| intros; exact I].
  intros Hx. pose proof (round2_nonneg x Hx) as H.
  destruct (round2 (Fin x)); cbn; try exact H; try exact I. lra.
Qed.

Lemma round2_at_least (c c' : Q) (a : float) :
  0 <= c -> c' <= (c - (1 # 200)) * (1 - eps) - eta ->
  at_least c a -> at_least c' (round2 a).
Proof.
  intros Hc Hc'.
  destruct a as [x | | |]; cbn [at_least]; try contradiction; [| intros; exact I].
  intros Hx. assert (0 <= x) as Hx0 by lra.
  pose proof (round2_nonneg x Hx0) as H.
  destruct (round2 (Fin x)); cbn; try exact H; try exact I. flra.
Qed.

Lemma fmul_at_least_0 (a b : float) :
  at_least 0 a -> positive_finite b -> at_least 0 (fmul a b).
Proof.
  destruct b as [y | | |]; cbn [positive_finite]; try contradiction.
  destruct a as [x | | |]; cbn [at_least]; try contradiction; intros Hx Hy.
  - cbn [fmul]. apply b64_at_least_0. nra.
  - cbn [fmul]. unfold scale_inf.
    apply Qgt_alt in Hy. rewrite Hy. exact I.
Qed.

Lemma fadd_at_least (a b c : Q) (x y : float) :
  0 <= a -> 0 <= b -> c <= (a + b) * (1 - eps) - eta ->
  at_least a x -> at_least b y -> at_least c (fadd x y).
Proof.
  intros Ha Hb Hc.
  destruct x as [p | | |], y as [q | | |]; cbn [at_least fadd];
    try contradiction; try (intros; exact I).
  intros Hp Hq. apply b64_at_least; flra.
Qed.

Lemma fadd_at_least_0 (x y : float) :
  at_least 0 x -> at_least 0 y -> at_least 0 (fadd x y).
Proof.
  destruct x as [p | | |], y as [q | | |]; cbn [at_least fadd];
    try contradiction; try (intros; exact I).
  intros Hp Hq. apply b64_at_least_0. lra.
Qed.

Lemma of_Z_at_least_0 (n : Z) : (0 <= n)%Z -> at_least 0 (of_Z n).
Proof.
  intros Hn. apply b64_at_least_0.
  change 0 with (inject_Z 0). now rewrite <- Zle_Qle.
Qed.

(** ** The order on floats and the sort *)

Lemma Qle_bool_false (x y : Q) : Qle_bool x y = false -> y < x.
Proof.
  intros H. apply Qnot_le_lt. intros L. apply Qle_bool_iff in L. congruence.
Qed.

Lemma flt_false_fle (a b : float) :
  not_nan a -> not_nan b -> flt a b = false -> fle b a = true.
Proof.
  unfold not_nan.
  destruct a as [x | | |], b as [y | | |]; cbn; try congruence.
  intros _ _ H. destruct (Qle_bool y x); [reflexivity | discriminate].
Qed.

Lemma flt_fle (a b : float) : flt a b = true -> fle a b = true.
Proof.
  destruct a as [x | | |], b as [y | | |]; cbn; try congruence.
  intros H. destruct (Qle_bool y x) eqn:E; [discriminate|].
  apply Qle_bool_false in E. apply Qle_bool_iff. lra.
Qed.

Lemma fle_refl (a : float) : not_nan a -> fle a a = true.
Proof.
  unfold not_nan. destruct a as [x | | |]; cbn; try congruence.
  intros _. apply Qle_bool_iff. lra.
Qed.

Lemma fle_trans (a b c : float) :
  fle a b = true -> fle b c = true -> fle a c = true.
Proof.
  destruct a as [x | | |], b as [y | | |], c as [z | | |]; cbn;
    try congruence.
  intros H1 H2. apply Qle_bool_iff in H1, H2. apply Qle_bool_iff. lra.
Qed.

Lemma fle_antisym (a b : float) :
  fle a b = true -> fle b a = true -> feq a b = true.
Proof.
  destruct a as [x | | |], b as [y | | |]; cbn; try congruence.
  intros H1 H2. apply Qle_bool_iff in H1, H2. apply Qeq_bool_iff. lra.
Qed.

Lemma first_cheapest_In mp n p : first_cheapest mp n p -> In (n, p) mp.
Proof.
  intros (l1 & l2 & -> & _). apply in_or_app. right. now left.
Qed.

Lemma first_cheapest_min mp n p :
  nan_free mp -> first_cheapest mp n p ->
  forall e, In e mp -> fle p (snd e) = true.
Proof.
  intros Hn (l1 & l2 & -> & H1 & H2) e He.
  apply in_app_or in He. destruct He as [He | [<- | He]]; auto.
  - now apply flt_fle, H1.
  - apply fle_refl. unfold nan_free in Hn. rewrite Forall_forall in Hn.
    apply (Hn (n, p)). apply in_or_app. right. now left.
Qed.

Lemma sorted_head (mp : dict float) :
  nan_free mp -> mp <> [] ->
  exists n p t, sorted mp = (n, p) :: t /\ first_cheapest mp n p.
Proof.
  induction mp as [| [nx px] t IH]; intros Hn Hne; [congruence|].
  inversion Hn as [| ? ? Hx Ht]; subst. cbn in Hx.
  destruct t as [| y t'].
  - exists nx, px, []. split; [reflexivity|].
    exists [], []. repeat split; intros e [].
  - destruct (IH Ht) as (n & p & s & Hs & Hc); [discriminate|].
    cbn [sorted] in *. rewrite Hs. cbn [insert_by_price snd].
    destruct (flt p px) eqn:E.
    + exists n, p, (insert_by_price (nx, px) s). split; [reflexivity|].
      destruct Hc as (l1 & l2 & -> & H1 & H2).
      exists ((nx, px) :: l1), l2. repeat split; auto.
      intros e [<- | He]; auto.
    + exists nx, px, ((n, p) :: s). split; [reflexivity|].
      exists [], (y :: t'). repeat split; [intros e [] |].
      intros e He.
      assert (not_nan p) as Hp.
      { unfold nan_free in Ht. rewrite Forall_forall in Ht.
        apply (Ht (n, p)). now apply first_cheapest_In. }
      apply (fle_trans _ p).
      * now apply flt_false_fle.
      * now apply (first_cheapest_min (y :: t') n).
Qed.

Lemma select_supplier_first_cheapest (mp : dict float) :
  nan_free mp -> mp <> [] ->
  exists n p, select_supplier mp = (Some n, p) /\ first_cheapest mp n p.
Proof.
  intros Hn Hne. destruct (sorted_head mp Hn Hne) as (n & p & t & Hs & Hc).
  exists n, p. split; [| exact Hc].
  unfold select_supplier. destruct mp; [congruence|]. now rewrite Hs.
Qed.

Lemma In_insert_by_price x l e :
  In e (insert_by_price x l) -> e = x \/ In e l.
Proof.
  induction l as [| y t IH]; cbn.
  - intros [<- | []]. now left.
  - destruct (flt (snd y) (snd x)); cbn.
    + intros [<- | H]; [right; now left|].
      destruct (IH H); auto.
    + intros [<- | [<- | H]]; auto.
Qed.

Lemma In_sorted l e : In e (sorted l) -> In e l.
Proof.
  induction l as [| x t IH]; cbn; [auto|].
  intros H. apply In_insert_by_price in H. destruct H as [-> | H]; auto.
Qed.

Lemma select_supplier_In (mp : dict float) n p :
  select_supplier mp = (Some n, p) -> In (n, p) mp.
Proof.
  unfold select_supplier. destruct mp as [| x t]; [discriminate|].
  destruct (sorted (x :: t)) as [| [n' p'] s] eqn:E; [discriminate|].
  intros H. injection H as <- <-. apply In_sorted. rewrite E. now left.
Qed.

Lemma select_supplier_permutation (mp mp' : dict float) :
  nan_free mp -> mp <> [] -> Permutation mp mp' ->
  feq (snd (select_supplier mp)) (snd (select_supplier mp')) = true.
Proof.
  intros Hn Hne Hp.
  assert (nan_free mp') as Hn' by (eapply Permutation_Forall; eauto).
  assert (mp' <> []) as Hne'.
  { intros ->. apply Permutation_sym, Permutation_nil in Hp. congruence. }
  destruct (select_supplier_first_cheapest mp Hn Hne) as (n & p & -> & Hc).
  destruct (select_supplier_first_cheapest mp' Hn' Hne') as (n' & p' & -> & Hc').
  cbn [snd]. apply fle_antisym.
  - apply (first_cheapest_min mp n p Hn Hc (n', p')).
    eapply Permutation_in; [apply Permutation_sym; eauto|].
    now apply first_cheapest_In.
  - apply (first_cheapest_min mp' n' p' Hn' Hc' (n, p)).
    eapply Permutation_in; [eauto|]. now apply first_cheapest_In.
Qed.

(** ** Tables and strings *)

Lemma get_Forall {V : Type} (P : V -> Prop) (d : dict V) (k : string) (v : V) :
  Forall P (map snd d) -> P v -> P (get d k v).
Proof.
  intros Hd Hv. unfold get.
  induction d as [| [k' v'] d IH]; cbn; [exact Hv|].
  inversion Hd; subst. destruct (String.eqb k k'); auto.
Qed.

Lemma get_absent {V : Type} (d : dict V) (k : string) (v : V) :
  mem k d = false -> get d k v = v.
Proof. unfold mem, get. now destruct (lookup k d). Qed.

Lemma rates_nonneg (k : string) : (0 <= get STATE_LABOR_RATES k 30)%Z.
Proof.
  apply (get_Forall (fun r => 0 <= r)%Z); [| lia].
  repeat constructor; discriminate.
Qed.

Lemma job_multiplier_positive (k : string) :
  positive_finite (get JOB_TYPE_MULTIPLIERS k (lit 1.0)).
Proof.
  apply (get_Forall positive_finite); [| vm_compute; reflexivity].
  vm_compute. repeat constructor.
Qed.

Lemma urgency_multiplier_positive (k : string) :
  positive_finite (get URGENCY_MULTIPLIERS k (lit 1.0)).
Proof.
  apply (get_Forall positive_finite); [| vm_compute; reflexivity].
  vm_compute. repeat constructor.
Qed.


(** ** The case mappings on ASCII text *)

Lemma decode_ascii (b : ascii) (s : string) :
  (N_of_ascii b <? 0x80)%N = true ->
  decode (String b s) = (Some (N_of_ascii b), String b "") :: decode s.
Proof. intros H. cbn [decode]. cbv zeta. now rewrite H. Qed.

Lemma upper_item_ascii (b : ascii) :
  (N_of_ascii b <? 0x80)%N = true ->
  upper_item (Some (N_of_ascii b), String b "") = String (upper_ascii b) "".
Proof.
  destruct b as [[] [] [] [] [] [] [] []]; intros H;
    try discriminate H; vm_compute; reflexivity.
Qed.

Lemma lower_item_ascii (before after : bool) (b : ascii) :
  (N_of_ascii b <? 0x80)%N = true ->
  lower_item before after (Some (N_of_ascii b), String b "")
  = String (lower_ascii b) "".
Proof.
  destruct b as [[] [] [] [] [] [] [] []]; intros H;
    try discriminate H; destruct before, after; vm_compute; reflexivity.
Qed.

Lemma upper_ascii_only (s : string) :
  ascii_only s = true -> upper s = map_ascii upper_ascii s.
Proof.
  unfold upper. induction s as [| b s IH]; [reflexivity |].
  cbn [ascii_only map_ascii]. intros H. apply andb_prop in H.
  destruct H as [Hb Hs]. rewrite (decode_ascii b s Hb). cbn [map String.concat].
  rewrite (upper_item_ascii b Hb), <- (IH Hs).
  destruct (map upper_item (decode s)); reflexivity.
Qed.

Lemma lower_items_ascii (before : bool) (s : string) :
  ascii_only s = true ->
  lower_items before (decode s) = map_ascii lower_ascii s.
Proof.
  revert before. induction s as [| b s IH]; intros before; [reflexivity |].
  cbn [ascii_only map_ascii]. intros H. apply andb_prop in H.
  destruct H as [Hb Hs]. rewrite (decode_ascii b s Hb). cbn [lower_items].
  rewrite (lower_item_ascii _ _ b Hb), (IH _ Hs). reflexivity.
Qed.

Lemma lower_ascii_only (s : string) :
  ascii_only s = true -> lower s = map_ascii lower_ascii s.
Proof. apply lower_items_ascii. Qed.

Lemma map_ascii_map_ascii (f g : ascii -> ascii) (s : string) :
  map_ascii f (map_ascii g s) = map_ascii (fun b => f (g b)) s.
Proof. induction s as [| b s IH]; cbn; [reflexivity | now rewrite IH]. Qed.

Lemma map_ascii_ext (f g : ascii -> ascii) (s : string) :
  (forall b, f b = g b) -> map_ascii f s = map_ascii g s.
Proof.
  intros H. induction s as [| b s IH]; cbn; [reflexivity |].
  now rewrite H, IH.
Qed.

Lemma upper_ascii_is_ascii (b : ascii) :
  (N_of_ascii b <? 0x80)%N = true -> (N_of_ascii (upper_ascii b) <? 0x80)%N = true.
Proof.
  destruct b as [[] [] [] [] [] [] [] []]; intros H;
    try discriminate H; reflexivity.
Qed.

Lemma ascii_only_upper (s : string) :
  ascii_only s = true -> ascii_only (map_ascii upper_ascii s) = true.
Proof.
  induction s as [| b s IH]; cbn [ascii_only map_ascii]; [reflexivity |].
  intros H. apply andb_prop in H. destruct H as [Hb Hs].
  now rewrite (upper_ascii_is_ascii b Hb), (IH Hs).
Qed.


Lemma lower_upper_ascii (c : ascii) :
  lower_ascii (upper_ascii c) = lower_ascii c.
Proof. destruct c as [[] [] [] [] [] [] [] []]; reflexivity. Qed.

Lemma lower_upper_ascii_only (s : string) :
  ascii_only s = true -> lower (upper s) = lower s.
Proof.
  intros Hs. rewrite (upper_ascii_only s Hs).
  rewrite (lower_ascii_only _ (ascii_only_upper s Hs)), (lower_ascii_only s Hs).
  rewrite map_ascii_map_ascii. apply map_ascii_ext. apply lower_upper_ascii.
Qed.

(** The case mappings beyond ASCII, on values of CPython: the long s,
    the Kelvin sign, the dotless i, the sharp s, and a capital sigma
    inside and at the end of a word. *)
Example upper_long_s : upper long_s_state = "SC".
Proof. vm_compute. reflexivity. Qed.

Example lower_kelvin : lower kelvin_job_type = "kitchen_remodel".
Proof. vm_compute. reflexivity. Qed.

Example upper_kelvin :
  upper kelvin_state = kelvin_state /\ lower kelvin_state = "ks" /\
  upper "ks" = "KS".
Proof. repeat split; vm_compute; reflexivity. Qed.

Example upper_dotless_i :
  upper dotless_job_type = "PLUMBING" /\
  lower dotless_job_type = dotless_job_type.
Proof. split; vm_compute; reflexivity. Qed.

Example upper_sharp_s : upper (encode [0xDF%N]) = "SS".
Proof. vm_compute. reflexivity. Qed.

Example lower_sigma :
  lower (encode [0x39F; 0x3A3; 0x39F; 0x3A3]%N)
  = encode [0x3BF; 0x3C3; 0x3BF; 0x3C2]%N.
Proof. vm_compute. reflexivity. Qed.

(** ** The three outcomes of the body *)

Lemma locals_invalid_state (j : job_data) :
  mem (region j) STATE_LABOR_RATES = false ->
  calculate_pricing_locals j = Err "Invalid state code".
Proof.
  intros H. unfold calculate_pricing_locals. fold (region j). now rewrite H.
Qed.

Lemma locals_bad_hours (j : job_data) :
  mem (region j) STATE_LABOR_RATES = true ->
  out_of_range (hours j) = true ->
  calculate_pricing_locals j = Err "Labor hours must be between 0.5 and 100".
Proof.
  intros H1 H2. unfold calculate_pricing_locals.
  fold (region j). fold (hours j). fold (out_of_range (hours j)).
  now rewrite H1, H2.
Qed.

Lemma locals_valid (j : job_data) :
  mem (region j) STATE_LABOR_RATES = true ->
  out_of_range (hours j) = false ->
  exists v, calculate_pricing_locals j = Ok v /\ locals_spec j v.
Proof.
  intros H1 H2. unfold calculate_pricing_locals.
  fold (region j). fold (hours j). fold (out_of_range (hours j)).
  fold (category j). fold (distance j). fold (quotes j). 
  rewrite H1, H2. cbn [negb]. fold (level j).
  destruct (select_supplier (quotes j)) as [[name |] price] eqn:Hsel;
    match goal with
    | |- context [bounded_margin ?s] =>
        destruct (bounded_margin_total s) as [[[[[tp amp] adj] cp] pm] E];
        rewrite E
    end;
    cbn [bind]; eexists; (split; [reflexivity |]);
    constructor; cbn [Locals.urgency Locals.state_labor_rate
      Locals.job_multiplier Locals.urgency_multiplier Locals.labor_cost
      Locals.material_source Locals.material_cost Locals.logistics_cost
      Locals.subtotal Locals.technician_payout Locals.target_price
      Locals.actual_margin_percent Locals.adjustment Locals.client_price
      Locals.platform_margin Locals.pricing_confidence
      Locals.approval_required];
    try reflexivity; try assumption; rewrite Hsel; reflexivity.
Qed.

Lemma locals_inv (j : job_data) (v : Locals.t) :
  calculate_pricing_locals j = Ok v ->
  mem (region j) STATE_LABOR_RATES = true /\
  out_of_range (hours j) = false /\
  locals_spec j v.
Proof.
  intros H.
  destruct (mem (region j) STATE_LABOR_RATES) eqn:H1.
  2:{ rewrite (locals_invalid_state j H1) in H. discriminate. }
  destruct (out_of_range (hours j)) eqn:H2.
  1:{ rewrite (locals_bad_hours j H1 H2) in H. discriminate. }
  destruct (locals_valid j H1 H2) as (v' & E & Hs).
  rewrite E in H. injection H as <-. auto.
Qed.

Lemma locals_ext (j j' : job_data) :
  category j = category j' -> level j = level j' -> hours j = hours j' ->
  region j = region j' -> distance j = distance j' -> quotes j = quotes j' ->
  calculate_pricing_locals j = calculate_pricing_locals j'.
Proof.
  intros H1 H2 H3 H4 H5 H6. unfold calculate_pricing_locals.
  fold (region j) (region j') (hours j) (hours j') (category j) (category j')
       (distance j) (distance j') (quotes j) (quotes j').
  fold (level j) (level j').
  now rewrite H1, H2, H3, H4, H5, H6.
Qed.

Lemma pricing_ext (j j' : job_data) :
  category j = category j' -> level j = level j' -> hours j = hours j' ->
  region j = region j' -> distance j = distance j' -> quotes j = quotes j' ->
  calculate_pricing j = calculate_pricing j'.
Proof.
  intros. unfold calculate_pricing. now rewrite (locals_ext j j').
Qed.

Lemma pricing_valid (j : job_data) :
  mem (region j) STATE_LABOR_RATES = true ->
  out_of_range (hours j) = false ->
  exists v, calculate_pricing_locals j = Ok v /\ locals_spec j v /\
            calculate_pricing j = build_response v.
Proof.
  intros H1 H2. destruct (locals_valid j H1 H2) as (v & E & Hs).
  exists v. split; [exact E | split; [exact Hs |]].
  unfold calculate_pricing. now rewrite E.
Qed.

Lemma round0_ok (a : float) : is_ok (round0 a) = is_finite a.
Proof. now destruct a. Qed.

Lemma round0_error (a : float) (msg : string) :
  round0 a = Err msg -> conversion_error msg.
Proof.
  unfold conversion_error.
  destruct a; cbn; intros H; try discriminate; injection H as <-; auto.
Qed.

Lemma build_response_ok (v : Locals.t) :
  is_ok (build_response v) = amounts_finite v.
Proof.
  unfold build_response, amounts_finite.
  destruct (Locals.client_price v), (Locals.technician_payout v),
    (Locals.material_cost v), (Locals.labor_cost v),
    (Locals.logistics_cost v), (Locals.platform_margin v); reflexivity.
Qed.

Lemma build_response_error (v : Locals.t) (msg : string) :
  build_response v = Err msg -> conversion_error msg.
Proof.
  unfold build_response.
  repeat match goal with
  | |- context [round0 ?a] =>
      let E := fresh "E" in
      destruct (round0 a) eqn:E;
      [ cbn [bind]
      | cbn [bind]; intros H; injection H as <-;
        eapply round0_error; eassumption ]
  end.
  discriminate.
Qed.

Lemma pricing_errors (j : job_data) (msg : string) :
  calculate_pricing j = Err msg ->
  msg = "Invalid state code" \/
  msg = "Labor hours must be between 0.5 and 100" \/
  conversion_error msg.
Proof.
  intros H.
  destruct (mem (region j) STATE_LABOR_RATES) eqn:H1.
  - destruct (out_of_range (hours j)) eqn:H2.
    + unfold calculate_pricing in H. rewrite locals_bad_hours in H by assumption.
      injection H as <-. auto.
    + destruct (pricing_valid j H1 H2) as (v & _ & _ & E). rewrite E in H.
      right. right. now apply (build_response_error v).
  - unfold calculate_pricing in H. rewrite locals_invalid_state in H by assumption.
    injection H as <-. auto.
Qed.

Lemma unknown_urgency_is_normal (j : job_data) :
  mem (lower (key_or (urgency j) "normal")) URGENCY_MULTIPLIERS = false ->
  level j = "normal" /\
  calculate_pricing j = calculate_pricing (with_urgency "normal" j).
Proof.
  intros H. assert (level j = "normal") as Hl by (unfold level; now rewrite H).
  split; [exact Hl|]. apply pricing_ext; try reflexivity. now rewrite Hl.
Qed.

(** ** The cost components on positive inputs *)

Lemma logistics_at_least (d : float) :
  positive_finite d -> at_least 49 (calculate_logistics_cost d).
Proof.
  intros Hd. unfold calculate_logistics_cost.
  pose proof eta_small as [He1 He2].
  apply (round2_at_least (4999 # 100)); [lra | flra |].
  apply (fadd_at_least 50 0); [lra | lra | flra | |].
  - vm_compute. discriminate.
  - destruct d as [x | | |]; try contradiction. cbn in Hd.
    apply (fmul_at_least_0 (Fin x) LOGISTICS_RATE_PER_KM).
    + cbn. lra.
    + vm_compute. reflexivity.
Qed.

Lemma material_at_least_0 (j : job_data) (v : Locals.t) :
  locals_spec j v ->
  Forall positive_finite (map snd (quotes j)) ->
  at_least 0 (Locals.material_cost v).
Proof.
  intros Hs Hq. pose proof (ls_material j v Hs) as Hm.
  destruct (select_supplier (quotes j)) as [[n |] p] eqn:E;
    injection Hm as _ ->.
  - apply round2_at_least_0.
    apply select_supplier_In in E. rewrite Forall_forall in Hq.
    assert (positive_finite p) as Hp.
    { apply Hq. change p with (snd (n, p)). now apply in_map. }
    destruct p; try contradiction. cbn in *. lra.
  - vm_compute. discriminate.
Qed.

Lemma labor_at_least_0 (j : job_data) (v : Locals.t) :
  locals_spec j v -> positive_finite (hours j) ->
  at_least 0 (Locals.labor_cost v).
Proof.
  intros Hs Hh. rewrite (ls_labor j v Hs).
  apply round2_at_least_0.
  repeat apply fmul_at_least_0; try assumption.
  - rewrite (ls_rate j v Hs). apply of_Z_at_least_0, rates_nonneg.
  - rewrite (ls_job j v Hs). apply job_multiplier_positive.
  - rewrite (ls_urg j v Hs). apply urgency_multiplier_positive.
Qed.

Lemma subtotal_at_least (j : job_data) (v : Locals.t) :
  locals_spec j v ->
  positive_finite (hours j) -> positive_finite (distance j) ->
  Forall positive_finite (map snd (quotes j)) ->
  at_least 48 (Locals.subtotal v).
Proof.
  intros Hs Hh Hd Hq. rewrite (ls_subtotal j v Hs).
  pose proof eta_small as [He1 He2].
  apply (fadd_at_least 0 49); [lra | lra | flra | |].
  - apply fadd_at_least_0.
    + now apply (labor_at_least_0 j).
    + now apply (material_at_least_0 j).
  - rewrite (ls_logistics j v Hs). now apply logistics_at_least.
Qed.

(** Runs the body on a concrete request and hands the record to [k]. *)

Ltac with_locals j k :=
  let r := eval vm_compute in (calculate_pricing_locals j) in
  match r with Ok ?v => k v end.

(** ** Rounding is monotone *)

Lemma rne_mono (x y : Q) : x <= y -> (rne x <= rne y)%Z.
Proof.
  intros Hxy.
  pose proof (Qfloor_resp_le x y Hxy) as Hf.
  pose proof (Qfloor_le x) as Hx1. pose proof (Qlt_floor x) as Hx2.
  pose proof (Qfloor_le y) as Hy1. pose proof (Qlt_floor y) as Hy2.
  rewrite inject_Z_plus in Hx2, Hy2.
  assert (Qfloor x <= rne x <= Qfloor x + 1)%Z as Hrx.
  { unfold rne. destruct (Qcompare _ _); [destruct (Z.even _) | |]; lia. }
  assert (Qfloor y <= rne y <= Qfloor y + 1)%Z as Hry.
  { unfold rne. destruct (Qcompare _ _); [destruct (Z.even _) | |]; lia. }
  destruct (Z.eq_dec (Qfloor x) (Qfloor y)) as [E | N]; [| lia].
  unfold rne. rewrite <- E. rewrite <- E in Hy1, Hy2. clear Hrx Hry Hf E.
  destruct (Qcompare (x - inject_Z (Qfloor x)) (1 # 2)) eqn:Cx;
  destruct (Qcompare (y - inject_Z (Qfloor x)) (1 # 2)) eqn:Cy;
    try (destruct (Z.even (Qfloor x))); try lia;
    exfalso;
    repeat match goal with
    | H : Qcompare _ _ = Eq |- _ => apply Qeq_alt in H
    | H : Qcompare _ _ = Lt |- _ => apply Qlt_alt in H
    | H : Qcompare _ _ = Gt |- _ => apply Qgt_alt in H
    end;
    generalize dependent (inject_Z (Qfloor x)); intros; lra.
Qed.

Lemma rne_inject (z : Z) : rne (inject_Z z) = z.
Proof.
  unfold rne. rewrite Qfloor_Z.
  assert (Qcompare (inject_Z z - inject_Z z) (1 # 2) = Lt) as ->; [| reflexivity].
  rewrite <- Qlt_alt. generalize (inject_Z z). intros q. lra.
Qed.

Lemma pow2_le (a b : Z) : (a <= b)%Z -> pow2 a <= pow2 b.
Proof. intros H. apply Qpower_le_compat_l; [exact H | discriminate]. Qed.

Lemma ilog2_mono (x y : Q) : 0 < x -> x <= y -> (ilog2 x <= ilog2 y)%Z.
Proof.
  intros Hx Hxy.
  destruct (ilog2_spec x Hx) as [Lx _].
  destruct (ilog2_spec y) as [_ Uy]; [lra|].
  assert (pow2 (ilog2 x) < pow2 (ilog2 y + 1)) as H by lra.
  apply Qpower_lt_compat_l_inv in H; [lia | reflexivity].
Qed.

Lemma Qabs_pos_eq (x : Q) : 0 < x -> Qabs x = x.
Proof.
  destruct x as [n d]. unfold Qlt. cbn. intros H.
  rewrite Z.abs_eq by lia. reflexivity.
Qed.

Lemma scaled_le (x p c : Q) : 0 < p -> x <= c * p -> x * / p <= c.
Proof.
  intros Hp H. apply Qle_shift_div_r; assumption.
Qed.

Lemma pow2_opp (e : Z) : pow2 (- e) == / pow2 e.
Proof. apply Qpower_opp. Qed.

Lemma rnd_mono_pos (x y : Q) : 0 < x -> x <= y -> rnd x <= rnd y.
Proof.
  intros Hx Hxy. assert (0 < y) as Hy by lra.
  pose proof (ilog2_mono x y Hx Hxy) as Hl.
  destruct (ilog2_spec x Hx) as [Lx Ux]. destruct (ilog2_spec y Hy) as [Ly Uy].
  unfold rnd, fexp. rewrite (Qabs_pos_eq x Hx), (Qabs_pos_eq y Hy).
  set (ex := Z.max (ilog2 x - 52) (-1074)).
  set (ey := Z.max (ilog2 y - 52) (-1074)).
  assert (ex <= ey)%Z as He by (unfold ex, ey; lia).
  pose proof (pow2_pos ex) as Px. pose proof (pow2_pos ey) as Py.
  destruct (Z.eq_dec ex ey) as [E | N].
  - rewrite <- E. apply Qmult_le_compat_r; [| lra].
    rewrite <- Zle_Qle. apply rne_mono.
    apply Qmult_le_compat_r; [exact Hxy |].
    apply Qlt_le_weak, pow2_pos.
  - assert (ey = ilog2 y - 52)%Z as Ey by (unfold ex, ey in *; lia).
    assert (ilog2 x + 1 <= ex + 53)%Z as Ex by (unfold ex; lia).
    apply (Qle_trans _ (pow2 (ey + 52))).
    + assert (rne (x * pow2 (- ex)) <= 2 ^ 53)%Z as Hm.
      { rewrite <- (rne_inject (2 ^ 53)). apply rne_mono.
        rewrite pow2_inject by lia. rewrite pow2_opp.
        apply scaled_le; [exact Px |].
        rewrite <- pow2_add.
        apply Qlt_le_weak. eapply Qlt_le_trans; [exact Ux |].
        apply pow2_le. lia. }
      rewrite Zle_Qle in Hm. rewrite pow2_inject in Hm by lia.
      apply (Qle_trans _ (pow2 53 * pow2 ex)).
      * apply Qmult_le_compat_r; [exact Hm | lra].
      * rewrite <- pow2_add. apply pow2_le. lia.
    + assert (2 ^ 52 <= rne (y * pow2 (- ey)))%Z as Hm.
      { rewrite <- (rne_inject (2 ^ 52)). apply rne_mono.
        rewrite pow2_inject by lia. rewrite pow2_opp.
        apply Qle_shift_div_l; [exact Py |].
        rewrite <- pow2_add. eapply Qle_trans; [| exact Ly].
        apply pow2_le. lia. }
      rewrite Zle_Qle in Hm. rewrite pow2_inject in Hm by lia.
      apply (Qle_trans _ (pow2 52 * pow2 ey)).
      * rewrite <- pow2_add. apply pow2_le. lia.
      * apply Qmult_le_compat_r; [exact Hm | lra].
Qed.

Lemma rne_nearest (x : Q) : nearest_even x (rne x).
Proof.
  unfold nearest_even, rne.
  pose proof (Qfloor_le x) as Hlo. pose proof (Qlt_floor x) as Hhi.
  rewrite inject_Z_plus in Hhi. change (inject_Z 1) with 1 in Hhi.
  destruct (Qcompare (x - inject_Z (Qfloor x)) (1 # 2)) eqn:Hc.
  - apply Qeq_alt in Hc. right.
    destruct (Z.even (Qfloor x)) eqn:Ev.
    + split; [| exact Ev].
      generalize dependent (inject_Z (Qfloor x)). intros f Hlo Hhi Hc.
      rewrite Qabs_neg by lra. lra.
    + split.
      * rewrite inject_Z_plus. change (inject_Z 1) with 1.
        generalize dependent (inject_Z (Qfloor x)). intros f Hlo Hhi Hc.
        rewrite Qabs_pos by lra. lra.
      * rewrite Z.even_add, Ev. reflexivity.
  - apply Qlt_alt in Hc. left.
    generalize dependent (inject_Z (Qfloor x)). intros f Hlo Hhi Hc.
    apply Qabs_Qlt_condition. lra.
  - apply Qgt_alt in Hc. left.
    rewrite inject_Z_plus. change (inject_Z 1) with 1.
    generalize dependent (inject_Z (Qfloor x)). intros f Hlo Hhi Hc.
    apply Qabs_Qlt_condition. lra.
Qed.

Lemma nearest_even_unique (x : Q) (n m : Z) :
  nearest_even x n -> nearest_even x m -> n = m.
Proof.
  unfold nearest_even. intros Hn Hm.
  assert (forall a b : Z, inject_Z a < inject_Z b + 1 -> (a <= b)%Z) as Hstep.
  { intros a b H. change 1 with (inject_Z 1) in H.
    rewrite <- inject_Z_plus, <- Zlt_Qlt in H. lia. }
  assert (forall a b : Z, inject_Z a <= inject_Z b + 1 -> (a <= b + 1)%Z) as Hstep'.
  { intros a b H. change 1 with (inject_Z 1) in H.
    rewrite <- inject_Z_plus, <- Zle_Qle in H. lia. }
  destruct Hn as [Hn | [Hn En]], Hm as [Hm | [Hm Em]].
  - apply Qabs_Qlt_condition in Hn, Hm.
    assert (n <= m)%Z by (apply Hstep; generalize dependent (inject_Z n);
      generalize dependent (inject_Z m); intros; lra).
    assert (m <= n)%Z by (apply Hstep; generalize dependent (inject_Z n);
      generalize dependent (inject_Z m); intros; lra).
    lia.
  - apply Qabs_Qlt_condition in Hn.
    assert (Qabs (inject_Z m - x) <= 1 # 2) as Hm' by (rewrite Hm; lra).
    apply Qabs_Qle_condition in Hm'.
    assert (n <= m)%Z by (apply Hstep; generalize dependent (inject_Z n);
      generalize dependent (inject_Z m); intros; lra).
    assert (m <= n)%Z by (apply Hstep; generalize dependent (inject_Z n);
      generalize dependent (inject_Z m); intros; lra).
    lia.
  - apply Qabs_Qlt_condition in Hm.
    assert (Qabs (inject_Z n - x) <= 1 # 2) as Hn' by (rewrite Hn; lra).
    apply Qabs_Qle_condition in Hn'.
    assert (n <= m)%Z by (apply Hstep; generalize dependent (inject_Z n);
      generalize dependent (inject_Z m); intros; lra).
    assert (m <= n)%Z by (apply Hstep; generalize dependent (inject_Z n);
      generalize dependent (inject_Z m); intros; lra).
    lia.
  - assert (Qabs (inject_Z n - x) <= 1 # 2) as Hn' by (rewrite Hn; lra).
    assert (Qabs (inject_Z m - x) <= 1 # 2) as Hm' by (rewrite Hm; lra).
    apply Qabs_Qle_condition in Hn', Hm'.
    assert (n <= m + 1)%Z by (apply Hstep'; generalize dependent (inject_Z n);
      generalize dependent (inject_Z m); intros; lra).
    assert (m <= n + 1)%Z by (apply Hstep'; generalize dependent (inject_Z n);
      generalize dependent (inject_Z m); intros; lra).
    destruct (Z.eq_dec n m) as [E | N]; [exact E | exfalso].
    assert (n = m + 1 \/ m = n + 1)%Z as [-> | ->] by lia.
    + rewrite Z.even_add, Em in En. discriminate.
    + rewrite Z.even_add, En in Em. discriminate.
Qed.

Lemma rne_opp (x : Q) : rne (- x) = (- rne x)%Z.
Proof.
  apply (nearest_even_unique (- x)); [apply rne_nearest |].
  pose proof (rne_nearest x) as H. unfold nearest_even in *.
  assert (inject_Z (- rne x) - - x == - (inject_Z (rne x) - x)) as E.
  { rewrite inject_Z_opp. ring. }
  rewrite E, Qabs_opp, Z.even_opp. exact H.
Qed.

Lemma Qabs_opp_eq (x : Q) : Qabs (- x) = Qabs x.
Proof. destruct x as [n d]. cbn. now rewrite Z.abs_opp. Qed.

Lemma rnd_opp (x : Q) : rnd (- x) == - rnd x.
Proof.
  unfold rnd, fexp. rewrite Qabs_opp_eq.
  generalize (Z.max (ilog2 (Qabs x) - 52) (-1074)). intros e.
  assert (rne (- x * pow2 (- e)) = rne (- (x * pow2 (- e)))) as ->.
  { apply (nearest_even_unique (- x * pow2 (- e))); [apply rne_nearest |].
    pose proof (rne_nearest (- (x * pow2 (- e)))) as H. unfold nearest_even in *.
    assert (- x * pow2 (- e) == - (x * pow2 (- e))) as E by ring.
    rewrite E. exact H. }
  rewrite rne_opp, inject_Z_opp. ring.
Qed.

Lemma rnd_nonpos (x : Q) : x <= 0 -> rnd x <= 0.
Proof.
  intros Hx. pose proof (rnd_nonneg (- x)) as H. rewrite rnd_opp in H. lra.
Qed.

Lemma rnd_mono (x y : Q) : x <= y -> rnd x <= rnd y.
Proof.
  intros Hxy.
  destruct (Qlt_le_dec 0 x) as [Hx | Hx].
  - now apply rnd_mono_pos.
  - destruct (Qlt_le_dec y 0) as [Hy | Hy].
    + pose proof (rnd_mono_pos (- y) (- x)) as H.
      rewrite !rnd_opp in H. lra.
    + pose proof (rnd_nonpos x Hx). pose proof (rnd_nonneg y Hy). lra.
Qed.

(** ** The operations are monotone *)

Lemma b64_mono (x y : Q) : x <= y -> fle (b64 x) (b64 y) = true.
Proof.
  intros Hxy. pose proof (rnd_mono x y Hxy) as H.
  unfold b64. rewrite <- (Qred_correct (rnd x)), <- (Qred_correct (rnd y)) in H.
  pose proof (pow2_pos 1024) as Hh.
  generalize dependent (Qred (rnd x)). generalize dependent (Qred (rnd y)).
  intros ry rx H.
  destruct (Qle_bool (pow2 1024) rx) eqn:X1.
  - apply Qle_bool_iff in X1.
    assert (Qle_bool (pow2 1024) ry = true) as -> by (apply Qle_bool_iff; lra).
    reflexivity.
  - apply Qle_bool_false in X1.
    destruct (Qle_bool rx (- pow2 1024)) eqn:X2.
    + destruct (Qle_bool (pow2 1024) ry); [reflexivity |].
      destruct (Qle_bool ry (- pow2 1024)); reflexivity.
    + apply Qle_bool_false in X2.
      destruct (Qle_bool (pow2 1024) ry); [reflexivity |].
      destruct (Qle_bool ry (- pow2 1024)) eqn:Y2.
      * apply Qle_bool_iff in Y2. lra.
      * cbn. now apply Qle_bool_iff.
Qed.

Lemma b64_not_nan (x : Q) : b64 x <> NaN.
Proof.
  unfold b64. destruct (Qle_bool _ _); [discriminate |].
  destruct (Qle_bool _ _); discriminate.
Qed.

Lemma fle_b64_PInf (x : Q) : fle (b64 x) PInf = true.
Proof. pose proof (b64_not_nan x). now destruct (b64 x). Qed.

Lemma fle_NInf_b64 (x : Q) : fle NInf (b64 x) = true.
Proof. pose proof (b64_not_nan x). now destruct (b64 x). Qed.

Lemma fle_fin (x y : Q) : fle (Fin x) (Fin y) = true <-> x <= y.
Proof. cbn. apply Qle_bool_iff. Qed.

Lemma round2_mono (a b : float) :
  fle a b = true -> fle (round2 a) (round2 b) = true.
Proof.
  destruct a as [x | | |], b as [y | | |]; cbn [round2]; try discriminate;
    try reflexivity; intros H.
  - apply fle_fin in H. apply b64_mono.
    apply Qmult_le_compat_r; [| discriminate].
    rewrite <- Zle_Qle. apply rne_mono. lra.
  - apply fle_b64_PInf.
  - apply fle_NInf_b64.
Qed.

Lemma fmul_pos_mono (c : Q) (a b : float) :
  0 < c -> fle a b = true ->
  fle (fmul a (Fin c)) (fmul b (Fin c)) = true /\
  fle (fmul (Fin c) a) (fmul (Fin c) b) = true.
Proof.
  intros Hc.
  assert (Qcompare c 0 = Gt) as Hg by now apply Qgt_alt.
  destruct a as [x | | |], b as [y | | |]; cbn [fmul]; unfold scale_inf;
    rewrite ?Hg; try discriminate; try (split; reflexivity); intros H;
    try (split; apply fle_b64_PInf); try (split; apply fle_NInf_b64).
  apply fle_fin in H. split; apply b64_mono; nra.
Qed.

Lemma fadd_fin_mono (c : Q) (a b : float) :
  fle a b = true -> fle (fadd (Fin c) a) (fadd (Fin c) b) = true.
Proof.
  destruct a as [x | | |], b as [y | | |]; cbn [fadd]; try discriminate;
    try reflexivity; intros H;
    try apply fle_b64_PInf; try apply fle_NInf_b64.
  apply fle_fin in H. apply b64_mono. lra.
Qed.

Lemma fadd_mono (a a' b b' : float) :
  at_least 0 a -> at_least 0 b ->
  fle a a' = true -> fle b b' = true ->
  fle (fadd a b) (fadd a' b') = true.
Proof.
  destruct a as [x | | |], a' as [x' | | |], b as [y | | |], b' as [y' | | |];
    cbn [at_least fadd]; try contradiction; try discriminate;
    try reflexivity; intros _ _ H1 H2;
    try apply fle_b64_PInf.
  apply fle_fin in H1, H2. apply b64_mono. lra.
Qed.

Lemma fdiv_pos_mono (c : Q) (a b : float) :
  0 < c -> fle a b = true ->
  exists p q, fdiv a (Fin c) = Ok p /\ fdiv b (Fin c) = Ok q /\ fle p q = true.
Proof.
  intros Hc.
  assert (Qcompare c 0 = Gt) as Hg by now apply Qgt_alt.
  assert (Qeq_bool c 0 = false) as Hz.
  { destruct (Qeq_bool c 0) eqn:E; [| reflexivity].
    apply Qeq_bool_iff in E. lra. }
  destruct a as [x | | |], b as [y | | |]; cbn [fdiv]; unfold scale_inf;
    rewrite ?Hz, ?Hg; try discriminate; intros H;
    eexists; eexists; (split; [reflexivity |]); (split; [reflexivity |]);
    try reflexivity; try apply fle_b64_PInf; try apply fle_NInf_b64.
  apply fle_fin in H. apply b64_mono.
  unfold Qdiv. apply Qmult_le_compat_r; [exact H |].
  apply Qlt_le_weak, Qinv_lt_0_compat, Hc.
Qed.

(** ** The numbers of the request *)

Lemma of_Z_below_limit (n : Z) :
  (Z.abs n < int_limit)%Z -> is_finite (of_Z n) = true.
Proof.
  intros H. unfold of_Z.
  assert (fle (b64 (inject_Z n)) (b64 (inject_Z (int_limit - 1))) = true) as Hhi.
  { apply b64_mono. rewrite <- Zle_Qle. lia. }
  assert (fle (b64 (inject_Z (- (int_limit - 1)))) (b64 (inject_Z n)) = true) as Hlo.
  { apply b64_mono. rewrite <- Zle_Qle. lia. }
  assert (is_finite (b64 (inject_Z (int_limit - 1))) = true) as Fhi
    by (vm_compute; reflexivity).
  assert (is_finite (b64 (inject_Z (- (int_limit - 1)))) = true) as Flo
    by (vm_compute; reflexivity).
  destruct (b64 (inject_Z (int_limit - 1))); try discriminate Fhi.
  destruct (b64 (inject_Z (- (int_limit - 1)))); try discriminate Flo.
  destruct (b64 (inject_Z n)); try discriminate Hhi; try discriminate Hlo.
  reflexivity.
Qed.

Lemma of_Z_beyond_limit (n : Z) :
  (int_limit <= Z.abs n)%Z -> is_finite (of_Z n) = false.
Proof.
  intros H. unfold of_Z.
  destruct (Z.abs_spec n) as [[Hn E] | [Hn E]]; rewrite E in H.
  - assert (fle (b64 (inject_Z int_limit)) (b64 (inject_Z n)) = true) as Hhi.
    { apply b64_mono. rewrite <- Zle_Qle. lia. }
    assert (b64 (inject_Z int_limit) = PInf) as Fhi by (vm_compute; reflexivity).
    rewrite Fhi in Hhi. destruct (b64 (inject_Z n)); try discriminate Hhi.
    reflexivity.
  - assert (fle (b64 (inject_Z n)) (b64 (inject_Z (- int_limit))) = true) as Hlo.
    { apply b64_mono. rewrite <- Zle_Qle. lia. }
    assert (b64 (inject_Z (- int_limit)) = NInf) as Flo by (vm_compute; reflexivity).
    rewrite Flo in Hlo. destruct (b64 (inject_Z n)); try discriminate Hlo.
    reflexivity.
Qed.

Lemma to_float_fits (x : number) :
  too_large (Some x) = false ->
  exists y, to_float x = Ok y /\
            match x with Int n => y = of_Z n /\ is_finite y = true
                       | Float x' => y = x' end.
Proof.
  destruct x as [n | x']; cbn [too_large to_float]; intros H.
  - apply Z.leb_gt in H. pose proof (of_Z_below_limit n H) as F.
    destruct (of_Z n) as [q | | |]; try discriminate F.
    exists (Fin q). auto.
  - exists x'. auto.
Qed.

Lemma to_float_too_large (x : number) :
  too_large (Some x) = true ->
  to_float x = Err "int too large to convert to float".
Proof.
  destruct x as [n | x']; cbn [too_large to_float]; intros H;
    [| discriminate].
  apply Z.leb_le in H. pose proof (of_Z_beyond_limit n H) as F.
  destruct (of_Z n); [discriminate F | reflexivity ..].
Qed.

Lemma read_number_fits (field : option number) :
  too_large field = false -> exists y, read_number field = Ok y.
Proof.
  destruct field as [x |]; [| exists None; reflexivity].
  intros H. destruct (to_float_fits x H) as (y & E & _).
  exists (Some y). cbn. now rewrite E.
Qed.

Lemma read_number_too_large (field : option number) :
  too_large field = true ->
  read_number field = Err "int too large to convert to float".
Proof.
  destruct field as [x |]; [| discriminate].
  intros H. cbn. now rewrite (to_float_too_large x H).
Qed.

(** ** The request as parsed *)

Lemma read_request_too_large (r : Request.t) :
  too_large (Request.labor_hours r) || too_large (Request.distance_km r) = true ->
  read_request r = Err "int too large to convert to float".
Proof.
  intros H. unfold read_request.
  destruct (too_large (Request.labor_hours r)) eqn:H1.
  - now rewrite (read_number_too_large _ H1).
  - destruct (read_number_fits _ H1) as (h & ->). cbn [bind].
    cbn in H. now rewrite (read_number_too_large _ H).
Qed.

Lemma read_request_fits (r : Request.t) :
  too_large (Request.labor_hours r) || too_large (Request.distance_km r) = false ->
  exists j, read_request r = Ok j.
Proof.
  intros H. apply orb_false_elim in H. destruct H as [H1 H2].
  unfold read_request.
  destruct (read_number_fits _ H1) as (h & ->).
  destruct (read_number_fits _ H2) as (d & ->).
  cbn [bind]. eauto.
Qed.

Lemma read_request_is_ok (r : Request.t) :
  is_ok (read_request r) =
  negb (too_large (Request.labor_hours r) || too_large (Request.distance_km r)).
Proof.
  destruct (too_large (Request.labor_hours r) || too_large (Request.distance_km r))
    eqn:H.
  - now rewrite (read_request_too_large r H).
  - destruct (read_request_fits r H) as (j & ->). reflexivity.
Qed.

Lemma read_request_error (r : Request.t) (msg : string) :
  read_request r = Err msg -> msg = "int too large to convert to float".
Proof.
  intros H.
  destruct (too_large (Request.labor_hours r) || too_large (Request.distance_km r))
    eqn:T.
  - rewrite (read_request_too_large r T) in H. now injection H.
  - destruct (read_request_fits r T) as (j & E). congruence.
Qed.

(** What [read_request] leaves as it is. *)
Lemma read_request_fields (r : Request.t) (j : job_data) :
  read_request r = Ok j ->
  job_type j = Request.job_type r /\ urgency j = Request.urgency r /\
  state j = Request.state r /\
  material_prices j = Request.material_prices r /\
  read_number (Request.labor_hours r) = Ok (labor_hours j) /\
  read_number (Request.distance_km r) = Ok (distance_km j).
Proof.
  unfold read_request.
  destruct (read_number (Request.labor_hours r)) as [h |]; [| discriminate].
  destruct (read_number (Request.distance_km r)) as [d |]; [| discriminate].
  cbn [bind]. intros H. injection H as <-. cbn. auto 10.
Qed.

Lemma read_request_region (r : Request.t) (j : job_data) :
  read_request r = Ok j ->
  region j = request_region r /\ category j = request_category r.
Proof.
  intros H. apply read_request_fields in H.
  destruct H as (H1 & _ & H3 & _).
  unfold region, request_region, category, request_category.
  now rewrite H1, H3.
Qed.

Lemma read_request_of (j : job_data) : read_request (request_of j) = Ok j.
Proof.
  destruct j as [t ds u [h |] s [d |] m]; reflexivity.
Qed.

Lemma pricing_request_of (j : job_data) :
  calculate_pricing_request (request_of j) = calculate_pricing j.
Proof. unfold calculate_pricing_request. now rewrite read_request_of. Qed.

Lemma pricing_request_ok (r : Request.t) (j : job_data) :
  read_request r = Ok j -> calculate_pricing_request r = calculate_pricing j.
Proof. intros H. unfold calculate_pricing_request. now rewrite H. Qed.

Lemma read_request_with_job_type (t : string) (r : Request.t) :
  read_request (request_with_job_type t r) =
  (j <- read_request r ;; Ok (with_job_type t j)).
Proof.
  unfold read_request. cbn [request_with_job_type Request.labor_hours
    Request.distance_km Request.job_type Request.job_description
    Request.urgency Request.state Request.material_prices].
  destruct (read_number (Request.labor_hours r)); [| reflexivity].
  destruct (read_number (Request.distance_km r)); reflexivity.
Qed.

Lemma read_request_with_urgency (u : string) (r : Request.t) :
  read_request (request_with_urgency u r) =
  (j <- read_request r ;; Ok (with_urgency u j)).
Proof.
  unfold read_request. cbn [request_with_urgency Request.labor_hours
    Request.distance_km Request.job_type Request.job_description
    Request.urgency Request.state Request.material_prices].
  destruct (read_number (Request.labor_hours r)); [| reflexivity].
  destruct (read_number (Request.distance_km r)); reflexivity.
Qed.


(** A change of the request that keeps the result of the engine on
    floats keeps the result on the request as parsed. *)
Lemma pricing_request_ext (f : job_data -> job_data) (r r' : Request.t) :
  read_request r' = (j <- read_request r ;; Ok (f j)) ->
  (forall j, read_request r = Ok j ->
             calculate_pricing (f j) = calculate_pricing j) ->
  calculate_pricing_request r' = calculate_pricing_request r.
Proof.
  intros H Hf. unfold calculate_pricing_request. rewrite H.
  destruct (read_request r) as [j |] eqn:E; cbn [bind]; [| reflexivity].
  now apply Hf.
Qed.

Lemma locals_multiplier_ext (j j' : job_data) :
  get JOB_TYPE_MULTIPLIERS (category j) (lit 1.0)
  = get JOB_TYPE_MULTIPLIERS (category j') (lit 1.0) ->
  level j = level j' -> hours j = hours j' ->
  region j = region j' -> distance j = distance j' -> quotes j = quotes j' ->
  calculate_pricing_locals j = calculate_pricing_locals j'.
Proof.
  intros H1 H2 H3 H4 H5 H6. unfold calculate_pricing_locals.
  fold (region j) (region j') (hours j) (hours j') (category j) (category j')
       (distance j) (distance j') (quotes j) (quotes j').
  fold (level j) (level j').
  now rewrite H1, H2, H3, H4, H5, H6.
Qed.

Lemma unknown_job_type_is_general_repair (j : job_data) :
  mem (category j) JOB_TYPE_MULTIPLIERS = false ->
  calculate_pricing j = calculate_pricing (with_job_type "general_repair" j).
Proof.
  intros H. unfold calculate_pricing. f_equal.
  apply locals_multiplier_ext; try reflexivity.
  rewrite (get_absent _ _ _ H). vm_compute. reflexivity.
Qed.

Lemma invalid_state_iff (j : job_data) :
  calculate_pricing j = Err "Invalid state code" <->
  mem (region j) STATE_LABOR_RATES = false.
Proof.
  split.
  - intros H. destruct (mem (region j) STATE_LABOR_RATES) eqn:Hm; [| reflexivity].
    exfalso. destruct (out_of_range (hours j)) eqn:H2.
    + unfold calculate_pricing in H.
      rewrite locals_bad_hours in H by assumption. discriminate.
    + destruct (pricing_valid j Hm H2) as (v & _ & _ & E). rewrite E in H.
      apply build_response_error in H. destruct H; discriminate.
  - intros H. unfold calculate_pricing. now rewrite locals_invalid_state.
Qed.

Lemma invalid_state_request (r : Request.t) :
  calculate_pricing_request r = Err "Invalid state code" <->
  is_ok (read_request r) = true /\
  mem (request_region r) STATE_LABOR_RATES = false.
Proof.
  unfold calculate_pricing_request.
  destruct (read_request r) as [j | msg] eqn:E; cbn [bind is_ok].
  - destruct (read_request_region r j E) as [<- _].
    rewrite invalid_state_iff. tauto.
  - apply read_request_error in E. subst msg.
    split; [discriminate | intros [H _]; discriminate].
Qed.

(** * The claims *)

(** ** C1: the margin share *)

(** On [one_cent_job] validation passes and the subtotal is positive
    (one cent), yet the final platform margin is zero: its share of the
    client price is not in [[0.20, 0.35]]. *)

Lemma one_cent_job_outside_bounds :
  exists v s,
    calculate_pricing_locals one_cent_job = Ok v /\
    Locals.subtotal v = Fin s /\ 0 < s /\
    ~ margin_share_within_bounds v.
Proof.
  eexists. eexists. split; [vm_compute; reflexivity|].
  split; [reflexivity|]. split; [reflexivity|].
  intros (c & p & Hc & Hp & Hlo & _).
  cbn in Hc, Hp. injection Hc as <-. injection Hp as <-.
  vm_compute in Hlo. apply Hlo. reflexivity.
Qed.

(** C1 (amended).  For every request that passes validation, whose
    subtotal is at least 0.10 and whose final client price is finite, no
    adjustment is made, the client price is positive and the ratio
    platform_margin / client_price lies in the closed interval
    [[0.20, 0.35]]. *)
Theorem margin_share_bounded (j : job_data) (v : Locals.t) (s c : Q) :
  calculate_pricing_locals j = Ok v ->
  Locals.subtotal v = Fin s -> (1 # 10) <= s ->
  Locals.client_price v = Fin c ->
  Locals.adjustment v = Unadjusted /\
  0 < c /\ margin_share_within_bounds v.
Proof.
  intros Hv Hsub Hs Hc.
  apply locals_inv in Hv. destruct Hv as (_ & _ & Hspec).
  pose proof (ls_margin j v Hspec) as Hb. rewrite Hsub in Hb.
  destruct (bounded_margin_regular s Hs)
    as (tp & amp & pm & E & _ & _ & [[-> ->] | (c' & p & -> & -> & H1 & H2 & H3 & H4)]);
    rewrite E in Hb; injection Hb as _ _ Hadj Hcp Hpm.
  - congruence.
  - rewrite Hc in Hcp. injection Hcp as ->.
    assert (0 < c) as Hpos by lra.
    repeat split; auto.
    exists c, p. repeat split; auto.
    + apply Qle_shift_div_l; lra.
    + apply Qle_shift_div_r; lra.
Qed.

Lemma margin_share_bounded_witness :
  exists v s c,
    calculate_pricing_locals spec_example = Ok v /\
    Locals.subtotal v = Fin s /\ (1 # 10) <= s /\
    Locals.client_price v = Fin c /\
    (Locals.adjustment v = Unadjusted /\ 0 < c /\ margin_share_within_bounds v).
Proof.
  let r := eval vm_compute in (calculate_pricing_locals spec_example) in
  match r with
  | Ok ?v =>
      let s := eval vm_compute in (Locals.subtotal v) in
      let c := eval vm_compute in (Locals.client_price v) in
      match s with
      | Fin ?qs => match c with Fin ?qc => exists v, qs, qc end
      end
  end.
  match goal with
  | |- ?A /\ ?B /\ ?C /\ ?D /\ _ =>
      assert A as H1 by (vm_compute; reflexivity);
      assert B as H2 by reflexivity;
      assert C as H3 by (vm_compute; discriminate);
      assert D as H4 by reflexivity
  end.
  exact (conj H1 (conj H2 (conj H3 (conj H4
    (margin_share_bounded spec_example _ _ _ H1 H2 H3 H4))))).
Defined.

(** ** C2: the price covers the subtotal *)

(** On [refund_job] validation passes and a quote is returned, with a
    client price below the (negative) subtotal and a negative margin. *)




(** ** C3: the worked example *)

(** C3.  On the example of the specification [calculate_pricing]
    succeeds with labor_cost 91.20, logistics_cost 55.00, material_cost
    0, subtotal 146.20, client_price 200.27 without adjustment,
    technician_payout 62.02, confidence "medium" and no approval; the
    response holds 200, 62, 0, 91, 55 and a platform margin of 54. *)
Theorem spec_example_quote :
  exists v,
    calculate_pricing_locals spec_example = Ok v /\
    Locals.labor_cost v = lit 91.20 /\
    Locals.logistics_cost v = lit 55.00 /\
    Locals.material_cost v = of_Z 0 /\
    Locals.subtotal v = lit 146.20 /\
    Locals.client_price v = lit 200.27 /\
    Locals.adjustment v = Unadjusted /\
    Locals.technician_payout v = lit 62.02 /\
    Locals.pricing_confidence v = "medium" /\
    Locals.approval_required v = false /\
    calculate_pricing spec_example =
      Ok {| Response.client_price := 200;
            Response.technician_payout := 62;
            Response.material_source := "Standard Materials";
            Response.material_cost := 0;
            Response.labor_cost := 91;
            Response.logistics_cost := 55;
            Response.platform_margin := 54;
            Response.pricing_confidence := "medium";
            Response.approval_required := false |}.
Proof.
  eexists. split; [vm_compute; reflexivity|].
  repeat split; vm_compute; reflexivity.
Qed.

(** ** C4: validation and errors *)

(** On [overflow_job] the region is known, the hours are in range and
    every number of the request is finite, yet an error is returned: the
    client price overflows and [round] raises on it. *)

Lemma overflow_job_rejected :
  mem (region overflow_job) STATE_LABOR_RATES = true /\
  out_of_range (hours overflow_job) = false /\
  Forall (fun e => is_finite (snd e) = true) (quotes overflow_job) /\
  is_finite (distance overflow_job) = true /\
  calculate_pricing overflow_job =
    Err "cannot convert float infinity to integer".
Proof. repeat split; try (vm_compute; reflexivity). repeat constructor. Qed.

(** C4 (amended).  For every request whose job_type, urgency and state
    are strings, whose labor_hours and distance_km are numbers and whose
    material prices are floats.  If one of the two numbers is an int of
    magnitude [2^1024 - 2^970] or more, [float] rejects it with "int too
    large to convert to float", whatever the region.  Otherwise both are
    converted and, with the region upper-cased: an unknown region is
    rejected with "Invalid state code"; a known region with labor hours
    below 0.5 or above 100 is rejected with "Labor hours must be between
    0.5 and 100"; otherwise the body runs to the end and, no price being
    [NaN], a quote is returned exactly when the six amounts of the
    response are finite, the error being otherwise the message of the
    failed conversion to an integer.  The hours 0.5 and 100 are in
    range, the int 100 being converted to the float, and 0.49 and 100.01
    are not.  An unrecognized urgency gives the result of "normal". *)
Theorem validation_outcomes (r : Request.t) :
  (too_large (Request.labor_hours r) || too_large (Request.distance_km r) = true ->
   calculate_pricing_request r = Err "int too large to convert to float") /\
  (too_large (Request.labor_hours r) || too_large (Request.distance_km r) = false ->
   exists j, read_request r = Ok j) /\
  (forall j, read_request r = Ok j ->
     (mem (region j) STATE_LABOR_RATES = false ->
      calculate_pricing_request r = Err "Invalid state code") /\
     (mem (region j) STATE_LABOR_RATES = true ->
      out_of_range (hours j) = true ->
      calculate_pricing_request r
      = Err "Labor hours must be between 0.5 and 100") /\
     (mem (region j) STATE_LABOR_RATES = true ->
      out_of_range (hours j) = false ->
      nan_free (quotes j) ->
      exists v,
        calculate_pricing_locals j = Ok v /\
        is_ok (calculate_pricing_request r) = amounts_finite v /\
        forall msg, calculate_pricing_request r = Err msg ->
                    conversion_error msg)) /\
  (out_of_range (lit 0.5) = false /\ out_of_range (of_Z 100) = false /\
   out_of_range (lit 0.49) = true /\ out_of_range (lit 100.01) = true /\
   to_float (Int 100) = Ok (of_Z 100)) /\
  (mem (lower (key_or (Request.urgency r) "normal")) URGENCY_MULTIPLIERS = false ->
   calculate_pricing_request r
   = calculate_pricing_request (request_with_urgency "normal" r)).
Proof.
  split; [| split; [| split; [| split]]].
  - intros H. unfold calculate_pricing_request.
    now rewrite (read_request_too_large r H).
  - apply read_request_fits.
  - intros j Hj. rewrite (pricing_request_ok r j Hj). split; [| split].
    + intros H. unfold calculate_pricing. now rewrite locals_invalid_state.
    + intros H1 H2. unfold calculate_pricing. now rewrite locals_bad_hours.
    + intros H1 H2 _. destruct (pricing_valid j H1 H2) as (v & E & _ & ->).
      exists v. split; [exact E | split].
      * apply build_response_ok.
      * apply build_response_error.
  - repeat split; vm_compute; reflexivity.
  - intros H. symmetry.
    apply (pricing_request_ext (with_urgency "normal"));
      [apply read_request_with_urgency |].
    intros j Hj. symmetry. apply unknown_urgency_is_normal.
    apply read_request_fields in Hj. destruct Hj as (_ & -> & _). exact H.
Qed.

Lemma validation_outcomes_witness :
  (too_large (Request.labor_hours huge_hours_request)
   || too_large (Request.distance_km huge_hours_request) = true /\
   mem (request_region huge_hours_request) STATE_LABOR_RATES = false /\
   calculate_pricing_request huge_hours_request
   = Err "int too large to convert to float") /\
  (mem (region unknown_region_job) STATE_LABOR_RATES = false /\
   calculate_pricing_request (request_of unknown_region_job)
   = Err "Invalid state code") /\
  (mem (region short_job) STATE_LABOR_RATES = true /\
   out_of_range (hours short_job) = true /\
   calculate_pricing_request (request_of short_job)
   = Err "Labor hours must be between 0.5 and 100") /\
  (mem (region spec_example) STATE_LABOR_RATES = true /\
   out_of_range (hours spec_example) = false /\
   nan_free (quotes spec_example) /\
   is_ok (calculate_pricing_request (request_of spec_example)) = true) /\
  (mem (lower (key_or (Request.urgency (request_of odd_job)) "normal"))
     URGENCY_MULTIPLIERS = false /\
   calculate_pricing_request (request_of odd_job)
   = calculate_pricing_request
       (request_with_urgency "normal" (request_of odd_job))).
Proof.
  assert (too_large (Request.labor_hours huge_hours_request)
          || too_large (Request.distance_km huge_hours_request) = true) as H0
    by (vm_compute; reflexivity).
  assert (mem (request_region huge_hours_request) STATE_LABOR_RATES = false)
    as H0' by (vm_compute; reflexivity).
  assert (mem (region unknown_region_job) STATE_LABOR_RATES = false) as H1
    by (vm_compute; reflexivity).
  assert (mem (region short_job) STATE_LABOR_RATES = true) as H2
    by (vm_compute; reflexivity).
  assert (out_of_range (hours short_job) = true) as H3
    by (vm_compute; reflexivity).
  assert (mem (region spec_example) STATE_LABOR_RATES = true) as H4
    by (vm_compute; reflexivity).
  assert (out_of_range (hours spec_example) = false) as H5
    by (vm_compute; reflexivity).
  assert (nan_free (quotes spec_example)) as H6 by constructor.
  assert (mem (lower (key_or (Request.urgency (request_of odd_job)) "normal"))
            URGENCY_MULTIPLIERS = false) as H7 by (vm_compute; reflexivity).
  pose proof (proj1 (validation_outcomes huge_hours_request) H0) as A.
  pose proof (proj1 (proj1 (proj2 (proj2
    (validation_outcomes (request_of unknown_region_job)))) _
    (read_request_of unknown_region_job)) H1) as B.
  pose proof (proj1 (proj2 (proj1 (proj2 (proj2
    (validation_outcomes (request_of short_job)))) _
    (read_request_of short_job))) H2 H3) as C.
  pose proof (proj2 (proj2 (proj1 (proj2 (proj2
    (validation_outcomes (request_of spec_example)))) _
    (read_request_of spec_example))) H4 H5 H6) as (v & Hv & D & _).
  assert (amounts_finite v = true) as Hf.
  { revert Hv. vm_compute. intros Hv. injection Hv as <-. reflexivity. }
  rewrite Hf in D.
  pose proof (proj2 (proj2 (proj2 (proj2
    (validation_outcomes (request_of odd_job))))) H7) as E.
  exact (conj (conj H0 (conj H0' A)) (conj (conj H1 B)
    (conj (conj H2 (conj H3 C)) (conj (conj H4 (conj H5 (conj H6 D)))
       (conj H7 E))))).
Defined.

(** ** C5: supplier selection *)

(** With a [NaN] quote first, the sort leaves it first: the price chosen
    is not the minimum, and the reversed mapping selects another price. *)

Lemma nan_quote_selected :
  select_supplier nan_quotes = (Some "A", NaN) /\
  select_supplier (rev nan_quotes) = (Some "B", of_Z 1) /\
  ~ cheapest_selected nan_quotes.
Proof.
  repeat split; try (vm_compute; reflexivity).
  intros (n & p & Hsel & _ & Hmin).
  vm_compute in Hsel. injection Hsel as <- <-.
  specialize (Hmin ("B", of_Z 1) (or_intror (or_introl eq_refl))).
  discriminate.
Qed.

(** C5 (amended).  For every mapping without a [NaN] price: if it is
    not empty, [select_supplier] returns an entry of the mapping whose
    price is at most every quoted price, it is the first such entry in
    insertion order, and the price chosen on any permutation of the
    mapping is equal to it; if it is empty, [select_supplier] returns
    [(None, 0)] and [calculate_pricing] uses "Standard Materials" at
    cost 0. *)
Theorem select_supplier_cheapest (mp : dict float) :
  nan_free mp ->
  (mp <> [] ->
   exists name price,
     select_supplier mp = (Some name, price) /\
     In (name, price) mp /\
     (forall e, In e mp -> fle price (snd e) = true) /\
     first_cheapest mp name price /\
     (forall mp', Permutation mp mp' ->
                  feq price (snd (select_supplier mp')) = true)) /\
  (mp = [] ->
   select_supplier mp = (None, of_Z 0) /\
   forall j v,
     quotes j = mp -> calculate_pricing_locals j = Ok v ->
     Locals.material_source v = "Standard Materials" /\
     Locals.material_cost v = of_Z 0).
Proof.
  intros Hn. split.
  - intros Hne.
    destruct (select_supplier_first_cheapest mp Hn Hne) as (n & p & E & Hc).
    exists n, p. repeat apply conj; auto.
    + now apply first_cheapest_In.
    + now apply (first_cheapest_min mp n).
    + intros mp' Hp.
      pose proof (select_supplier_permutation mp mp' Hn Hne Hp) as H.
      now rewrite E in H.
  - intros ->. split; [reflexivity|].
    intros j v Hq Hv. apply locals_inv in Hv. destruct Hv as (_ & _ & Hs).
    pose proof (ls_material j v Hs) as Hm. rewrite Hq in Hm.
    cbn in Hm. now injection Hm as -> ->.
Qed.

Lemma select_supplier_cheapest_witness :
  nan_free three_quotes /\ three_quotes <> [] /\
  exists name price,
    select_supplier three_quotes = (Some name, price) /\
    In (name, price) three_quotes /\
    (forall e, In e three_quotes -> fle price (snd e) = true) /\
    first_cheapest three_quotes name price /\
    (forall mp', Permutation three_quotes mp' ->
                 feq price (snd (select_supplier mp')) = true).
Proof.
  assert (nan_free three_quotes) as H1
    by (vm_compute; repeat constructor; discriminate).
  assert (three_quotes <> []) as H2 by discriminate.
  exact (conj H1 (conj H2 (proj1 (select_supplier_cheapest three_quotes H1) H2))).
Defined.

(** ** C6: the technician payout *)

(** C6.  Whenever the body of [calculate_pricing] succeeds,
    [technician_payout = round(labor_cost * 0.68, 2)], and every request
    with the same job type, urgency, labor hours and state succeeds with
    the same labor cost and the same payout, whatever its material
    prices, distance and description. *)
Theorem technician_payout_from_labor (j : job_data) (v : Locals.t) :
  calculate_pricing_locals j = Ok v ->
  Locals.technician_payout v = round2 (fmul (Locals.labor_cost v) (lit 0.68)) /\
  forall j',
    job_type j' = job_type j -> urgency j' = urgency j ->
    labor_hours j' = labor_hours j -> state j' = state j ->
    exists v',
      calculate_pricing_locals j' = Ok v' /\
      Locals.labor_cost v' = Locals.labor_cost v /\
      Locals.technician_payout v' = Locals.technician_payout v.
Proof.
  intros Hv. apply locals_inv in Hv. destruct Hv as (Hm & Hr & Hs).
  split; [apply (ls_payout j v Hs)|].
  intros j' Ht Hu Hh Hst.
  assert (region j' = region j) as E1 by (unfold region; now rewrite Hst).
  assert (hours j' = hours j) as E2 by (unfold hours; now rewrite Hh).
  assert (category j' = category j) as E3 by (unfold category; now rewrite Ht).
  assert (level j' = level j) as E4 by (unfold level; now rewrite Hu).
  rewrite <- E1 in Hm. rewrite <- E2 in Hr.
  destruct (locals_valid j' Hm Hr) as (v' & Hv' & Hs').
  exists v'. split; [exact Hv'|].
  assert (Locals.labor_cost v' = Locals.labor_cost v) as El.
  { rewrite (ls_labor j' v' Hs'), (ls_labor j v Hs).
    rewrite (ls_rate j' v' Hs'), (ls_rate j v Hs).
    rewrite (ls_job j' v' Hs'), (ls_job j v Hs).
    rewrite (ls_urg j' v' Hs'), (ls_urg j v Hs).
    now rewrite E1, E2, E3, E4. }
  split; [exact El|].
  now rewrite (ls_payout j' v' Hs'), (ls_payout j v Hs), El.
Qed.

Lemma technician_payout_from_labor_witness :
  exists v,
    calculate_pricing_locals quoted_job = Ok v /\
    Locals.technician_payout v = round2 (fmul (Locals.labor_cost v) (lit 0.68)) /\
    forall j',
      job_type j' = job_type quoted_job -> urgency j' = urgency quoted_job ->
      labor_hours j' = labor_hours quoted_job -> state j' = state quoted_job ->
      exists v',
        calculate_pricing_locals j' = Ok v' /\
        Locals.labor_cost v' = Locals.labor_cost v /\
        Locals.technician_payout v' = Locals.technician_payout v.
Proof.
  with_locals quoted_job ltac:(fun v => exists v).
  match goal with
  | |- ?A /\ _ => assert A as H1 by (vm_compute; reflexivity)
  end.
  exact (conj H1 (technician_payout_from_labor quoted_job _ H1)).
Defined.

(** ** C7: unknown job types and urgencies *)

(** C7.  A job type that, lower-cased, is not in the table has
    multiplier 1.0 and gives the result of the known type
    "general_repair" (multiplier 1.0); an urgency that, lower-cased, is
    not in the table is replaced by "normal", with multiplier 1.0, and
    gives the result of "normal".  Neither decides whether the body
    runs to the end: that happens exactly when [float] accepts
    labor_hours and distance_km, the region is known and the labor hours
    are in range. *)
Theorem unknown_job_type_and_urgency_are_neutral (r : Request.t) :
  (mem (request_category r) JOB_TYPE_MULTIPLIERS = false ->
   get JOB_TYPE_MULTIPLIERS (request_category r) (lit 1.0) = lit 1.0 /\
   (forall j v, read_request r = Ok j -> calculate_pricing_locals j = Ok v ->
                Locals.job_multiplier v = lit 1.0) /\
   calculate_pricing_request r
   = calculate_pricing_request (request_with_job_type "general_repair" r)) /\
  (mem (lower (key_or (Request.urgency r) "normal")) URGENCY_MULTIPLIERS = false ->
   (forall j v, read_request r = Ok j -> calculate_pricing_locals j = Ok v ->
                Locals.urgency v = "normal" /\
                Locals.urgency_multiplier v = lit 1.0) /\
   calculate_pricing_request r
   = calculate_pricing_request (request_with_urgency "normal" r)) /\
  is_ok (read_request r)
  = negb (too_large (Request.labor_hours r) || too_large (Request.distance_km r)) /\
  (forall j, read_request r = Ok j ->
     is_ok (calculate_pricing_locals j)
     = mem (region j) STATE_LABOR_RATES && negb (out_of_range (hours j))).
Proof.
  split; [| split; [| split]].
  - intros H. split; [| split].
    + now apply get_absent.
    + intros j v Hj Hv. apply locals_inv in Hv. destruct Hv as (_ & _ & Hs).
      rewrite (ls_job j v Hs). apply get_absent.
      destruct (read_request_region r j Hj) as [_ ->]. exact H.
    + symmetry.
      apply (pricing_request_ext (with_job_type "general_repair"));
        [apply read_request_with_job_type |].
      intros j Hj. symmetry. apply unknown_job_type_is_general_repair.
      destruct (read_request_region r j Hj) as [_ ->]. exact H.
  - intros H. split.
    + intros j v Hj Hv.
      assert (mem (lower (key_or (urgency j) "normal")) URGENCY_MULTIPLIERS
              = false) as H'.
      { apply read_request_fields in Hj. destruct Hj as (_ & -> & _). exact H. }
      destruct (unknown_urgency_is_normal j H') as [Hl _].
      apply locals_inv in Hv. destruct Hv as (_ & _ & Hs).
      rewrite (ls_urgency j v Hs), (ls_urg j v Hs), Hl. split; reflexivity.
    + symmetry.
      apply (pricing_request_ext (with_urgency "normal"));
        [apply read_request_with_urgency |].
      intros j Hj. symmetry. apply unknown_urgency_is_normal.
      apply read_request_fields in Hj. destruct Hj as (_ & -> & _). exact H.
  - apply read_request_is_ok.
  - intros j _. destruct (mem (region j) STATE_LABOR_RATES) eqn:H1.
    + destruct (out_of_range (hours j)) eqn:H2.
      * now rewrite locals_bad_hours.
      * destruct (locals_valid j H1 H2) as (v & -> & _). reflexivity.
    + now rewrite locals_invalid_state.
Qed.

Lemma unknown_job_type_and_urgency_are_neutral_witness :
  mem (request_category (request_of odd_job)) JOB_TYPE_MULTIPLIERS = false /\
  mem (lower (key_or (Request.urgency (request_of odd_job)) "normal"))
    URGENCY_MULTIPLIERS = false /\
  calculate_pricing_request (request_of odd_job)
  = calculate_pricing_request
      (request_with_job_type "general_repair" (request_of odd_job)) /\
  calculate_pricing_request (request_of odd_job)
  = calculate_pricing_request
      (request_with_urgency "normal" (request_of odd_job)) /\
  is_ok (calculate_pricing_locals odd_job)
  = mem (region odd_job) STATE_LABOR_RATES && negb (out_of_range (hours odd_job)) /\
  exists v,
    calculate_pricing_locals odd_job = Ok v /\
    Locals.job_multiplier v = lit 1.0 /\
    Locals.urgency v = "normal" /\ Locals.urgency_multiplier v = lit 1.0.
Proof.
  assert (mem (request_category (request_of odd_job)) JOB_TYPE_MULTIPLIERS
          = false) as H1 by (vm_compute; reflexivity).
  assert (mem (lower (key_or (Request.urgency (request_of odd_job)) "normal"))
            URGENCY_MULTIPLIERS = false) as H2 by (vm_compute; reflexivity).
  pose proof (unknown_job_type_and_urgency_are_neutral (request_of odd_job))
    as (A & B & _ & C).
  destruct (A H1) as (_ & A2 & A3). destruct (B H2) as (B1 & B2).
  split; [exact H1 | split; [exact H2 | split; [exact A3 | split; [exact B2 |]]]].
  split; [exact (C _ (read_request_of odd_job)) |].
  with_locals odd_job ltac:(fun v => exists v).
  match goal with
  | |- ?X /\ _ => assert X as Hv by (vm_compute; reflexivity)
  end.
  split; [exact Hv |].
  exact (conj (A2 _ _ (read_request_of odd_job) Hv)
              (B1 _ _ (read_request_of odd_job) Hv)).
Defined.

(** ** C8: the adjustment is dead code on positive inputs *)

(** C8.  For every request that passes validation and whose labor
    hours, distance and material prices are positive and finite, the
    body succeeds without taking either arm of the adjustment:
    [actual_margin_percent < 0.20] and [actual_margin_percent > 0.35]
    are both false. *)
Theorem clamp_unreachable_on_positive_inputs (j : job_data) :
  mem (region j) STATE_LABOR_RATES = true ->
  out_of_range (hours j) = false ->
  positive_finite (hours j) ->
  positive_finite (distance j) ->
  Forall positive_finite (map snd (quotes j)) ->
  exists v,
    calculate_pricing_locals j = Ok v /\
    Locals.adjustment v = Unadjusted /\
    flt (Locals.actual_margin_percent v) (lit 0.20) = false /\
    fgt (Locals.actual_margin_percent v) (lit 0.35) = false.
Proof.
  intros Hm Hr Hh Hd Hq.
  destruct (locals_valid j Hm Hr) as (v & Hv & Hs).
  exists v. split; [exact Hv|].
  pose proof (subtotal_at_least j v Hs Hh Hd Hq) as Hsub.
  pose proof (ls_margin j v Hs) as Hb.
  destruct (Locals.subtotal v) as [s | | |]; cbn in Hsub; try contradiction.
  - destruct (bounded_margin_regular s) as (tp & amp & pm & E & Hlo & Hhi & _);
      [lra|].
    rewrite E in Hb. injection Hb as _ <- <- _ _. auto.
  - rewrite bounded_margin_overflow in Hb. injection Hb as _ <- <- _ _. auto.
Qed.

Lemma clamp_unreachable_on_positive_inputs_witness :
  mem (region quoted_job) STATE_LABOR_RATES = true /\
  out_of_range (hours quoted_job) = false /\
  positive_finite (hours quoted_job) /\
  positive_finite (distance quoted_job) /\
  Forall positive_finite (map snd (quotes quoted_job)) /\
  exists v,
    calculate_pricing_locals quoted_job = Ok v /\
    Locals.adjustment v = Unadjusted /\
    flt (Locals.actual_margin_percent v) (lit 0.20) = false /\
    fgt (Locals.actual_margin_percent v) (lit 0.35) = false.
Proof.
  assert (mem (region quoted_job) STATE_LABOR_RATES = true) as H1
    by (vm_compute; reflexivity).
  assert (out_of_range (hours quoted_job) = false) as H2
    by (vm_compute; reflexivity).
  assert (positive_finite (hours quoted_job)) as H3 by (vm_compute; reflexivity).
  assert (positive_finite (distance quoted_job)) as H4
    by (vm_compute; reflexivity).
  assert (Forall positive_finite (map snd (quotes quoted_job))) as H5
    by (vm_compute; repeat constructor).
  exact (conj H1 (conj H2 (conj H3 (conj H4 (conj H5
    (clamp_unreachable_on_positive_inputs quoted_job H1 H2 H3 H4 H5)))))).
Defined.

(** ** C9: the guarded division *)

(** C9.  [calculate_pricing] never fails with a division by zero;
    the price at the target margin is [round(subtotal / (1 - 0.27), 2)],
    and whenever it is not strictly positive the margin percent is taken
    to be 0 without dividing, the low-margin arm runs, and
    [client_price = round(subtotal / 0.80, 2)] with the margin recomputed
    from it. *)
Theorem margin_division_guarded (j : job_data) :
  calculate_pricing j <> Err "float division by zero" /\
  calculate_pricing_locals j <> Err "float division by zero" /\
  forall v,
    calculate_pricing_locals j = Ok v ->
    (exists q,
       fdiv (Locals.subtotal v) (fsub (of_Z 1) (lit 0.27)) = Ok q /\
       Locals.target_price v = round2 q) /\
    (fgt (Locals.target_price v) (of_Z 0) = false ->
     Locals.actual_margin_percent v = of_Z 0 /\
     Locals.adjustment v = Increased /\
     exists q,
       fdiv (Locals.subtotal v) (lit 0.80) = Ok q /\
       Locals.client_price v = round2 q /\
       Locals.platform_margin v =
         round2 (fsub (Locals.client_price v) (Locals.subtotal v))).
Proof.
  repeat apply conj.
  - intros H. apply pricing_errors in H.
    unfold conversion_error in H. intuition discriminate.
  - intros H.
    destruct (mem (region j) STATE_LABOR_RATES) eqn:H1.
    + destruct (out_of_range (hours j)) eqn:H2.
      * rewrite locals_bad_hours in H by assumption. discriminate.
      * destruct (locals_valid j H1 H2) as (v & E & _). congruence.
    + rewrite locals_invalid_state in H by assumption. discriminate.
  - intros v Hv. apply locals_inv in Hv. destruct Hv as (_ & _ & Hs).
    pose proof (bounded_margin_guard _ _ (ls_margin j v Hs)) as Hb.
    cbn in Hb. destruct Hb as (q & Hq & Ht & Hb). split; eauto.
Qed.

Lemma margin_division_guarded_witness :
  exists v,
    calculate_pricing_locals refund_job = Ok v /\
    fgt (Locals.target_price v) (of_Z 0) = false /\
    Locals.actual_margin_percent v = of_Z 0 /\
    Locals.adjustment v = Increased /\
    exists q,
      fdiv (Locals.subtotal v) (lit 0.80) = Ok q /\
      Locals.client_price v = round2 q /\
      Locals.platform_margin v =
        round2 (fsub (Locals.client_price v) (Locals.subtotal v)).
Proof.
  with_locals refund_job ltac:(fun v => exists v).
  match goal with
  | |- ?A /\ ?B /\ _ =>
      assert A as H1 by (vm_compute; reflexivity);
      assert B as H2 by (vm_compute; reflexivity)
  end.
  exact (conj H1 (conj H2
    (proj2 (proj2 (proj2 (margin_division_guarded refund_job)) _ H1) H2))).
Defined.

(** ** C10: the default region and its case *)



(** * Further properties *)

(** ** The logistics cost *)

Lemma logistics_rate_value : LOGISTICS_RATE_PER_KM = Fin (1 # 2).
Proof. vm_compute. reflexivity. Qed.

Lemma of_Z_50 : of_Z 50 = Fin 50.
Proof. vm_compute. reflexivity. Qed.

Lemma logistics_mono (d d' : float) :
  fle d d' = true ->
  fle (calculate_logistics_cost d) (calculate_logistics_cost d') = true.
Proof.
  intros H. unfold calculate_logistics_cost.
  rewrite logistics_rate_value, of_Z_50.
  apply round2_mono, fadd_fin_mono.
  now apply (fmul_pos_mono (1 # 2)).
Qed.

Lemma logistics_base (d : Q) :
  calculate_logistics_cost (Fin 0) = Fin 50 /\
  (0 <= d -> fle (Fin 50) (calculate_logistics_cost (Fin d)) = true) /\
  (d <= 0 -> fle (calculate_logistics_cost (Fin d)) (Fin 50) = true).
Proof.
  assert (calculate_logistics_cost (Fin 0) = Fin 50) as E
    by (vm_compute; reflexivity).
  split; [exact E | split]; intros H; rewrite <- E;
    apply logistics_mono; now apply fle_fin.
Qed.

(** ** Labor cost *)

Lemma fmul_mono (a a' : float) (y y' : Q) :
  at_least 0 a -> fle a a' = true -> 0 < y -> y <= y' ->
  fle (fmul a (Fin y)) (fmul a' (Fin y')) = true.
Proof.
  intros Ha Hle Hy Hyy.
  assert (Qcompare y 0 = Gt) as Hg by now apply Qgt_alt.
  assert (Qcompare y' 0 = Gt) as Hg' by (apply Qgt_alt; lra).
  destruct a as [x | | |], a' as [x' | | |]; cbn [at_least] in Ha;
    try contradiction; try discriminate; cbn [fmul]; unfold scale_inf;
    rewrite ?Hg, ?Hg'; try reflexivity; try apply fle_b64_PInf.
  apply fle_fin in Hle. apply b64_mono. nra.
Qed.

Lemma in_range_finite (h : float) :
  out_of_range h = false -> h <> NaN ->
  exists q, h = Fin q /\ (1 # 2) <= q /\ q <= 100.
Proof.
  unfold out_of_range.
  assert (lit 0.5 = Fin (1 # 2)) as -> by (vm_compute; reflexivity).
  assert (of_Z 100 = Fin 100) as -> by (vm_compute; reflexivity).
  destruct h as [q | | |]; cbn; try discriminate; try congruence.
  intros H _. apply orb_false_elim in H. destruct H as [H1 H2].
  apply negb_false_iff in H1, H2. apply Qle_bool_iff in H1, H2. eauto.
Qed.

Lemma get_within_rates (k : string) :
  (25 <= get STATE_LABOR_RATES k 30 <= 42)%Z.
Proof.
  apply (get_Forall (fun r => 25 <= r <= 42)%Z); [| lia].
  repeat constructor; cbn; lia.
Qed.

Lemma job_multiplier_within (k : string) :
  within c09 c14 (get JOB_TYPE_MULTIPLIERS k (lit 1.0)).
Proof.
  apply (get_Forall (within c09 c14)).
  - vm_compute. repeat constructor; discriminate.
  - vm_compute. split; discriminate.
Qed.

Lemma urgency_multiplier_within (k : string) :
  within 1 (3 # 2) (get URGENCY_MULTIPLIERS k (lit 1.0)).
Proof.
  apply (get_Forall (within 1 (3 # 2))).
  - vm_compute. repeat constructor; discriminate.
  - vm_compute. split; discriminate.
Qed.

Lemma of_Z_mono (n m : Z) : (n <= m)%Z -> fle (of_Z n) (of_Z m) = true.
Proof. intros H. apply b64_mono. now rewrite <- Zle_Qle. Qed.

Lemma fle_at_least (c : Q) (x : float) :
  fle (Fin c) x = true <-> at_least c x.
Proof.
  destruct x as [q | | |]; cbn; try (split; [discriminate | contradiction]).
  - apply Qle_bool_iff.
  - split; auto.
Qed.

Lemma at_least_weaken (c c' : Q) (x : float) :
  c' <= c -> at_least c x -> at_least c' x.
Proof. destruct x; cbn; auto. intros. lra. Qed.

Lemma at_least_fle (c : Q) (x y : float) :
  at_least c x -> fle x y = true -> at_least c y.
Proof.
  intros Hx Hxy. apply fle_at_least. apply fle_at_least in Hx.
  eapply fle_trans; eassumption.
Qed.

Lemma at_least_not_nan (c : Q) (x : float) : at_least c x -> not_nan x.
Proof. destruct x; cbn; try contradiction; discriminate. Qed.

Lemma lit_068 : lit 0.68 = Fin c68.
Proof. vm_compute. reflexivity. Qed.

Lemma labor_of_mono (r r' : Z) (j j' h h' u u' : Q) :
  (0 <= r <= r')%Z -> 0 < j -> j <= j' -> 0 < h -> h <= h' ->
  0 < u -> u <= u' ->
  fle (labor_of r (Fin j) (Fin h) (Fin u))
      (labor_of r' (Fin j') (Fin h') (Fin u')) = true.
Proof.
  intros Hr Hj Hjj Hh Hhh Hu Huu. unfold labor_of.
  apply round2_mono.
  apply fmul_mono; try assumption.
  - apply (fmul_at_least_0 _ (Fin h)); [| exact Hh].
    apply (fmul_at_least_0 _ (Fin j)); [| exact Hj].
    apply of_Z_at_least_0. lia.
  - apply fmul_mono; try assumption.
    + apply (fmul_at_least_0 _ (Fin j)); [| exact Hj].
      apply of_Z_at_least_0. lia.
    + apply fmul_mono; try assumption.
      * apply of_Z_at_least_0. lia.
      * apply of_Z_mono. lia.
Qed.

Lemma labor_cost_is_labor_of (j : job_data) (v : Locals.t) :
  locals_spec j v ->
  Locals.labor_cost v =
    labor_of (get STATE_LABOR_RATES (region j) 30%Z)
             (get JOB_TYPE_MULTIPLIERS (category j) (lit 1.0))
             (hours j)
             (get URGENCY_MULTIPLIERS (level j) (lit 1.0)).
Proof.
  intros Hs. unfold labor_of.
  rewrite (ls_labor j v Hs). f_equal. f_equal; [| apply (ls_urg j v Hs)].
  f_equal. f_equal; [| apply (ls_job j v Hs)].
  f_equal. apply (ls_rate j v Hs).
Qed.

Lemma labor_cost_range (j : job_data) (v : Locals.t) :
  calculate_pricing_locals j = Ok v -> hours j <> NaN ->
  fle (lit 11.25) (Locals.labor_cost v) = true /\
  fle (Locals.labor_cost v) (of_Z 8820) = true.
Proof.
  intros Hv Hn. apply locals_inv in Hv. destruct Hv as (_ & Hr & Hs).
  destruct (in_range_finite _ Hr Hn) as (h & Eh & Hh1 & Hh2).
  rewrite (labor_cost_is_labor_of j v Hs), Eh.
  pose proof (get_within_rates (region j)) as Hrate.
  pose proof (job_multiplier_within (category j)) as Hjm.
  pose proof (urgency_multiplier_within (level j)) as Hum.
  destruct (get JOB_TYPE_MULTIPLIERS (category j) (lit 1.0)) as [jm | | |];
    try contradiction.
  destruct (get URGENCY_MULTIPLIERS (level j) (lit 1.0)) as [um | | |];
    try contradiction.
  cbn in Hjm, Hum. unfold c09, c14 in Hjm.
  split.
  - assert (lit 11.25 = labor_of 25 (Fin c09) (Fin (1 # 2)) (Fin 1)) as ->
      by (vm_compute; reflexivity).
    apply labor_of_mono; unfold c09; try lra; lia.
  - assert (of_Z 8820 = labor_of 42 (Fin c14) (Fin 100) (Fin (3 # 2))) as ->
      by (vm_compute; reflexivity).
    apply labor_of_mono; unfold c14; try lra; lia.
Qed.

(** ** The price on non-negative inputs *)

Lemma regular_client_price (s : float) :
  at_least (1 # 10) s ->
  exists q amp pm,
    fdiv s (Fin c73) = Ok q /\
    bounded_margin s = Ok (round2 q, amp, Unadjusted, round2 q, pm).
Proof.
  destruct s as [x | | |]; cbn [at_least]; try contradiction; intros Hx.
  - destruct (bounded_margin_regular x Hx) as (tp & amp & pm & E & _).
    pose proof (bounded_margin_guard _ _ E) as G. cbn in G.
    destruct G as (q & Hq & -> & _). rewrite target_share in Hq.
    exists q, amp, pm. split; assumption.
  - exists PInf, NaN, NaN. split; [vm_compute; reflexivity |].
    apply bounded_margin_overflow.
Qed.

Lemma c73_pos : 0 < c73.
Proof. reflexivity. Qed.

Lemma regular_price_mono (s s' : float) r r' :
  at_least (1 # 10) s -> fle s s' = true ->
  bounded_margin s = Ok r -> bounded_margin s' = Ok r' ->
  let '(_, _, adj, cp, _) := r in
  let '(_, _, adj', cp', _) := r' in
  adj = Unadjusted /\ adj' = Unadjusted /\ fle cp cp' = true.
Proof.
  intros Hs Hle E E'.
  pose proof (at_least_fle _ _ _ Hs Hle) as Hs'.
  destruct (regular_client_price s Hs) as (q & amp & pm & Hq & Hb).
  destruct (regular_client_price s' Hs') as (q' & amp' & pm' & Hq' & Hb').
  rewrite Hb in E. rewrite Hb' in E'.
  injection E as <-. injection E' as <-.
  destruct (fdiv_pos_mono c73 s s' c73_pos Hle) as (p & p' & Hp & Hp' & Hpp).
  rewrite Hq in Hp. rewrite Hq' in Hp'.
  injection Hp as <-. injection Hp' as <-.
  repeat split. now apply round2_mono.
Qed.

Lemma material_nonneg (j : job_data) (v : Locals.t) :
  locals_spec j v ->
  Forall nonneg_finite (map snd (quotes j)) ->
  at_least 0 (Locals.material_cost v).
Proof.
  intros Hs Hq. pose proof (ls_material j v Hs) as Hm.
  destruct (select_supplier (quotes j)) as [[n |] p] eqn:E;
    injection Hm as _ ->.
  - apply round2_at_least_0.
    apply select_supplier_In in E. rewrite Forall_forall in Hq.
    assert (nonneg_finite p) as Hp.
    { apply Hq. change p with (snd (n, p)). now apply in_map. }
    destruct p; try contradiction. exact Hp.
  - vm_compute. discriminate.
Qed.

Lemma logistics_nonneg (d : float) :
  nonneg_finite d -> at_least 50 (calculate_logistics_cost d).
Proof.
  destruct d as [q | | |]; cbn; try contradiction. intros Hq.
  apply fle_at_least.
  now apply (proj1 (proj2 (logistics_base q))).
Qed.

Lemma in_range_positive (h : float) :
  out_of_range h = false -> h <> NaN -> positive_finite h.
Proof.
  intros H1 H2. destruct (in_range_finite h H1 H2) as (q & -> & Hq & _).
  cbn. lra.
Qed.

Lemma amounts_mono (j j' : job_data) (v v' : Locals.t) :
  locals_spec j v -> locals_spec j' v' ->
  out_of_range (hours j) = false -> out_of_range (hours j') = false ->
  region j = region j' -> category j = category j' -> level j = level j' ->
  fle (hours j) (hours j') = true ->
  fle (distance j) (distance j') = true ->
  nonneg_finite (distance j) ->
  at_least 0 (Locals.material_cost v) ->
  fle (Locals.material_cost v) (Locals.material_cost v') = true ->
  fle (Locals.labor_cost v) (Locals.labor_cost v') = true /\
  fle (Locals.technician_payout v) (Locals.technician_payout v') = true /\
  fle (Locals.logistics_cost v) (Locals.logistics_cost v') = true /\
  fle (Locals.subtotal v) (Locals.subtotal v') = true /\
  Locals.adjustment v = Unadjusted /\ Locals.adjustment v' = Unadjusted /\
  fle (Locals.client_price v) (Locals.client_price v') = true.
Proof.
  intros Hs Hs' Hr Hr' Eg Ec El Hh Hd Hd0 Hm0 Hm.
  assert (hours j <> NaN) as Hn by (intros E; rewrite E in Hh; discriminate).
  assert (hours j' <> NaN) as Hn'.
  { intros E; rewrite E in Hh. destruct (hours j); discriminate. }
  assert (fle (Locals.labor_cost v) (Locals.labor_cost v') = true) as Hl.
  { rewrite (labor_cost_is_labor_of j v Hs), (labor_cost_is_labor_of j' v' Hs').
    rewrite <- Eg, <- Ec, <- El.
    destruct (in_range_finite _ Hr Hn) as (h & Eh & Hh1 & _).
    destruct (in_range_finite _ Hr' Hn') as (h' & Eh' & _).
    rewrite Eh, Eh' in *. apply fle_fin in Hh.
    pose proof (get_within_rates (region j)) as Hrate.
    pose proof (job_multiplier_within (category j)) as Hjm.
    pose proof (urgency_multiplier_within (level j)) as Hum.
    destruct (get JOB_TYPE_MULTIPLIERS (category j) (lit 1.0)) as [jm | | |];
      try contradiction.
    destruct (get URGENCY_MULTIPLIERS (level j) (lit 1.0)) as [um | | |];
      try contradiction.
    cbn in Hjm, Hum. unfold c09 in Hjm.
    apply labor_of_mono; try lra; lia. }
  assert (at_least 0 (Locals.labor_cost v)) as Hl0.
  { apply (labor_at_least_0 j v Hs). now apply in_range_positive. }
  assert (fle (Locals.logistics_cost v) (Locals.logistics_cost v') = true) as Hg.
  { rewrite (ls_logistics j v Hs), (ls_logistics j' v' Hs').
    now apply logistics_mono. }
  assert (at_least 50 (Locals.logistics_cost v)) as Hg0.
  { rewrite (ls_logistics j v Hs). now apply logistics_nonneg. }
  assert (fle (Locals.subtotal v) (Locals.subtotal v') = true) as Hsub.
  { rewrite (ls_subtotal j v Hs), (ls_subtotal j' v' Hs').
    apply fadd_mono; auto.
    - now apply fadd_at_least_0.
    - eapply at_least_weaken; [| exact Hg0]. lra.
    - apply fadd_mono; auto. }
  assert (at_least (1 # 10) (Locals.subtotal v)) as Hsub0.
  { rewrite (ls_subtotal j v Hs).
    pose proof eta_small as [He1 He2].
    apply (fadd_at_least 0 50); try lra; [unfold eps; lra | | exact Hg0].
    now apply fadd_at_least_0. }
  pose proof (regular_price_mono _ _ _ _ Hsub0 Hsub
                (ls_margin j v Hs) (ls_margin j' v' Hs')) as Hp.
  cbn in Hp. destruct Hp as (A1 & A2 & A3).
  repeat split; auto.
  rewrite (ls_payout j v Hs), (ls_payout j' v' Hs'), lit_068.
  apply round2_mono. apply (fmul_pos_mono c68); [reflexivity | exact Hl].
Qed.

Lemma select_supplier_incl (mp mp' : dict float) :
  nan_free mp -> mp' <> [] -> incl mp' mp ->
  fle (snd (select_supplier mp)) (snd (select_supplier mp')) = true.
Proof.
  intros Hn Hne Hi.
  assert (nan_free mp') as Hn'.
  { unfold nan_free in *. rewrite Forall_forall in *. auto. }
  assert (mp <> []) as Hne'.
  { destruct mp' as [| e t]; [congruence |].
    intros ->. apply (Hi e). now left. }
  destruct (select_supplier_first_cheapest mp Hn Hne') as (n & p & -> & Hc).
  destruct (select_supplier_first_cheapest mp' Hn' Hne) as (n' & p' & -> & Hc').
  cbn [snd]. apply (first_cheapest_min mp n p Hn Hc (n', p')).
  apply Hi. now apply first_cheapest_In.
Qed.

Lemma nonneg_nan_free (mp : dict float) :
  Forall nonneg_finite (map snd mp) -> nan_free mp.
Proof.
  unfold nan_free. rewrite !Forall_forall. intros H e He.
  specialize (H (snd e) (in_map snd _ _ He)).
  destruct (snd e); try contradiction. discriminate.
Qed.

Lemma build_response_fields (v : Locals.t) (r : Response.t) :
  build_response v = Ok r ->
  round0 (Locals.client_price v) = Ok (Response.client_price r) /\
  round0 (Locals.technician_payout v) = Ok (Response.technician_payout r) /\
  round0 (Locals.material_cost v) = Ok (Response.material_cost r) /\
  round0 (Locals.labor_cost v) = Ok (Response.labor_cost r) /\
  round0 (Locals.logistics_cost v) = Ok (Response.logistics_cost r) /\
  round0 (Locals.platform_margin v) = Ok (Response.platform_margin r) /\
  Response.material_source r = Locals.material_source v /\
  Response.pricing_confidence r = Locals.pricing_confidence v /\
  Response.approval_required r = Locals.approval_required v.
Proof.
  unfold build_response.
  destruct (round0 (Locals.client_price v)); [| discriminate].
  destruct (round0 (Locals.technician_payout v)); [| discriminate].
  destruct (round0 (Locals.material_cost v)); [| discriminate].
  destruct (round0 (Locals.labor_cost v)); [| discriminate].
  destruct (round0 (Locals.logistics_cost v)); [| discriminate].
  destruct (round0 (Locals.platform_margin v)); [| discriminate].
  cbn [bind]. intros H. injection H as <-. cbn. repeat split.
Qed.

Lemma pricing_inv (j : job_data) (r : Response.t) :
  calculate_pricing j = Ok r ->
  exists v, calculate_pricing_locals j = Ok v /\ locals_spec j v /\
            build_response v = Ok r.
Proof.
  unfold calculate_pricing.
  destruct (calculate_pricing_locals j) as [v |] eqn:E; [| discriminate].
  cbn [bind]. intros H. exists v.
  apply locals_inv in E. destruct E as (_ & _ & Hs). auto.
Qed.

(** ** The margin after the adjustment *)

Lemma bounded_margin_shape (s : float) r :
  bounded_margin s = Ok r ->
  let '(tp, amp, adj, cp, pm) := r in
  pm = round2 (fsub cp s) /\
  exists q, fdiv s (divisor adj) = Ok q /\ cp = round2 q.
Proof.
  unfold bounded_margin.
  destruct (fdiv s (fsub (of_Z 1) (lit 0.27))) as [q |] eqn:Eq; [| discriminate].
  cbn [bind].
  destruct (if fgt (round2 q) (of_Z 0)
            then fdiv (round2 (fsub (round2 q) s)) (round2 q)
            else Ok (of_Z 0)) as [a |]; [| discriminate].
  cbn [bind].
  destruct (flt a (lit 0.20)).
  - destruct (fdiv s (lit 0.80)) as [q' |] eqn:Eq'; [| discriminate].
    cbn [bind]. intros H. injection H as <-. split; [reflexivity |].
    exists q'. split; [exact Eq' | reflexivity].
  - destruct (fgt a (lit 0.35)).
    + destruct (fdiv s (lit 0.65)) as [q' |] eqn:Eq'; [| discriminate].
      cbn [bind]. intros H. injection H as <-. split; [reflexivity |].
      exists q'. split; [exact Eq' | reflexivity].
    + intros H. injection H as <-. split; [reflexivity |].
      exists q. split; [exact Eq | reflexivity].
Qed.

(** ** Errors *)

Lemma error_messages (j : job_data) (msg : string) :
  calculate_pricing j = Err msg ->
  (msg = "Invalid state code" \/
   msg = "Labor hours must be between 0.5 and 100" \/
   msg = "cannot convert float infinity to integer" \/
   msg = "cannot convert float NaN to integer") /\
  msg <> "".
Proof.
  intros H. apply pricing_errors in H. unfold conversion_error in H.
  split; [tauto |].
  destruct H as [-> | [-> | [-> | ->]]]; discriminate.
Qed.

Lemma bounded_margin_nan :
  exists tp amp adj pm, bounded_margin NaN = Ok (tp, amp, adj, NaN, pm).
Proof. do 4 eexists. vm_compute. reflexivity. Qed.

(** ** Rounding of the response *)

Lemma round0_half_unit (x : float) (n : Z) : round0 x = Ok n -> half_unit x n.
Proof.
  destruct x as [q | | |]; cbn; try discriminate.
  intros H. injection H as <-. exists q. split; [reflexivity | apply rne_error].
Qed.

(** ** The endpoints and the sorted keys *)

Lemma not_data_object (other_keys : bool) (data : job_data) :
  not_data (JsonObject other_keys data) = true ->
  other_keys = false /\ data = empty_request.
Proof.
  destruct data as [[] [] [] [] [] [] []], other_keys; cbn;
    try discriminate. split; reflexivity.
Qed.

Lemma In_insert_string (x e : string) (l : list string) :
  In e (insert_string x l) <-> e = x \/ In e l.
Proof.
  induction l as [| y t IH]; cbn.
  - intuition.
  - destruct (String.ltb y x); cbn; rewrite ?IH; intuition.
Qed.

Lemma In_sorted_strings (e : string) (l : list string) :
  In e (sorted_strings l) <-> In e l.
Proof.
  induction l as [| x t IH]; cbn; [reflexivity |].
  rewrite In_insert_string, IH. intuition.
Qed.

Lemma mem_keys {V : Type} (k : string) (d : dict V) :
  mem k d = true <-> In k (keys d).
Proof.
  unfold mem, keys. induction d as [| [k' v] t IH]; cbn.
  - split; [discriminate | contradiction].
  - destruct (String.eqb_spec k k') as [-> | N].
    + split; auto.
    + rewrite IH. split; [auto | intros [E | H]; congruence].
Qed.

Lemma get_lookup {V : Type} (k : string) (d : dict V) (v : V) :
  mem k d = true -> lookup k d = Some (get d k v).
Proof. unfold mem, get. destruct (lookup k d); [reflexivity | discriminate]. Qed.

Lemma ascending_sorted (l : list string) :
  ascending l = true -> StronglySorted (fun a b => String.ltb a b = true) l.
Proof.
  induction l as [| a t IH]; cbn; intros H; constructor.
  - apply IH. now apply andb_prop in H.
  - apply andb_prop in H. rewrite Forall_forall.
    now apply forallb_forall.
Qed.

Lemma fixed_points (f : string -> string) (l : list string) :
  forallb (fun k => String.eqb (f k) k) l = true ->
  forall k, In k l -> f k = k.
Proof.
  intros H k Hk. rewrite forallb_forall in H.
  now apply String.eqb_eq, H.
Qed.

(** ** The sample requests *)

Lemma two_quotes_incl : incl two_quotes three_quotes.
Proof. intros e [<- | [<- | []]]; cbn; auto. Defined.

Lemma fewer_quotes_incl : incl (quotes fewer_quotes_job) (quotes quoted_job).
Proof. exact two_quotes_incl. Defined.

Lemma spec_example_hours : hours spec_example <> NaN.
Proof. vm_compute. discriminate. Defined.

Lemma quoted_job_hours : hours quoted_job <> NaN.
Proof. vm_compute. discriminate. Defined.

Lemma quoted_job_distance : nonneg_finite (distance quoted_job).
Proof. vm_compute. discriminate. Defined.

Lemma quoted_job_quotes : Forall nonneg_finite (map snd (quotes quoted_job)).
Proof. vm_compute. repeat constructor; discriminate. Defined.

(** * The helpers, the engine and the endpoints *)

(** ** [calculate_logistics_cost] *)

(** X1.  calculate_logistics_cost is monotone, rounding included: of two
    distances, numbers or infinities, the one that is not smaller never
    has the smaller cost. *)
Theorem logistics_cost_monotone (d d' : float) :
  fle d d' = true ->
  fle (calculate_logistics_cost d) (calculate_logistics_cost d') = true.
Proof. apply logistics_mono. Qed.

Lemma logistics_cost_monotone_witness :
  fle (of_Z 10) (of_Z 25) = true /\
  fle (calculate_logistics_cost (of_Z 10))
      (calculate_logistics_cost (of_Z 25)) = true.
Proof.
  assert (fle (of_Z 10) (of_Z 25) = true) as H by (vm_compute; reflexivity).
  exact (conj H (logistics_cost_monotone _ _ H)).
Defined.

(** X2.  calculate_logistics_cost returns exactly the base fee 50 at
    distance 0, at least 50 at every non-negative distance and at most
    50 at every non-positive one. *)
Theorem logistics_cost_base_fee (d : Q) :
  calculate_logistics_cost (Fin 0) = Fin 50 /\
  (0 <= d -> fle (Fin 50) (calculate_logistics_cost (Fin d)) = true) /\
  (d <= 0 -> fle (calculate_logistics_cost (Fin d)) (Fin 50) = true).
Proof. apply logistics_base. Qed.

Lemma logistics_cost_base_fee_witness :
  0 <= 10 /\ fle (Fin 50) (calculate_logistics_cost (Fin 10)) = true /\
  - (4) <= 0 /\ fle (calculate_logistics_cost (Fin (- (4)))) (Fin 50) = true.
Proof.
  assert (0 <= 10) as H1 by discriminate.
  assert (- (4) <= 0) as H2 by discriminate.
  exact (conj H1 (conj (proj1 (proj2 (logistics_cost_base_fee 10)) H1)
        (conj H2 (proj2 (proj2 (logistics_cost_base_fee (- (4)))) H2)))).
Defined.

(** X3.  For a distance between 0 and 1,000,000 km,
    calculate_logistics_cost returns a finite number within 0.00501 of
    50 + 0.5 * distance. *)
Theorem logistics_cost_accuracy (d : Q) :
  0 <= d -> d <= 1000000 ->
  exists c, calculate_logistics_cost (Fin d) = Fin c /\
            Qabs (c - (50 + d * (1 # 2))) <= 501 # 100000.
Proof.
  intros H0 H1. unfold calculate_logistics_cost.
  rewrite logistics_rate_value, of_Z_50. cbn [fmul].
  pose proof eta_small as [He1 He2]. pose proof huge_big as Hh.
  assert (0 <= d * (1 # 2)) as Hx by lra.
  pose proof (b64_nonneg _ Hx) as Hb.
  destruct (b64 (d * (1 # 2))) as [x | | |]; try contradiction;
    [| unfold eps in *; lra].
  destruct Hb as (Hx0 & _ & Hx1 & Hx2). cbn [fadd].
  assert (0 <= 50 + x) as Hy by lra.
  pose proof (b64_nonneg _ Hy) as Hb.
  destruct (b64 (50 + x)) as [y | | |]; try contradiction;
    [| unfold eps in *; lra].
  destruct Hb as (Hy0 & _ & Hy1 & Hy2).
  pose proof (round2_nonneg y Hy0) as Hr.
  destruct (round2 (Fin y)) as [c | | |]; try contradiction;
    [| unfold eps in *; lra].
  destruct Hr as (Hc0 & _ & Hc1 & Hc2).
  exists c. split; [reflexivity |].
  apply Qabs_Qle_condition. unfold eps in *. split; lra.
Qed.

Lemma logistics_cost_accuracy_witness :
  0 <= 10 /\ 10 <= 1000000 /\
  exists c, calculate_logistics_cost (Fin 10) = Fin c /\
            Qabs (c - (50 + 10 * (1 # 2))) <= 501 # 100000.
Proof.
  assert (0 <= 10) as H1 by discriminate.
  assert (10 <= 1000000) as H2 by discriminate.
  exact (conj H1 (conj H2 (logistics_cost_accuracy 10 H1 H2))).
Defined.

(** ** [select_supplier] *)

(** X4.  select_supplier returns the name None exactly on the empty
    mapping, and every (name, price) it returns is an entry of the
    mapping, whatever the prices (NaN included). *)
Theorem select_supplier_returns_an_entry (mp : dict float) :
  (fst (select_supplier mp) = None <-> mp = []) /\
  forall name price,
    select_supplier mp = (Some name, price) -> In (name, price) mp.
Proof.
  split; [| intros n p; apply select_supplier_In].
  unfold select_supplier. destruct mp as [| x t]; [split; reflexivity |].
  destruct (sorted (x :: t)) as [| [n p] s] eqn:E.
  - exfalso. cbn in E. destruct (sorted t); cbn in E; [discriminate |].
    destruct (flt _ _); discriminate.
  - cbn. split; discriminate.
Qed.

Lemma select_supplier_returns_an_entry_witness :
  select_supplier three_quotes = (Some "Bolt", lit 9.99) /\
  In ("Bolt", lit 9.99) three_quotes.
Proof.
  assert (select_supplier three_quotes = (Some "Bolt", lit 9.99)) as H
    by (vm_compute; reflexivity).
  exact (conj H (proj2 (select_supplier_returns_an_entry three_quotes) _ _ H)).
Defined.

(** X5.  On a mapping without a NaN price, the price that
    select_supplier returns is at most the price it returns on any
    non-empty mapping made of some of its entries: a further quote never
    raises the selected price. *)
Theorem further_quote_never_raises_selection (mp mp' : dict float) :
  nan_free mp -> mp' <> [] -> incl mp' mp ->
  fle (snd (select_supplier mp)) (snd (select_supplier mp')) = true.
Proof. apply select_supplier_incl. Qed.

Lemma further_quote_never_raises_selection_witness :
  nan_free three_quotes /\ two_quotes <> [] /\ incl two_quotes three_quotes /\
  fle (snd (select_supplier three_quotes)) (snd (select_supplier two_quotes))
    = true.
Proof.
  assert (nan_free three_quotes) as H1
    by (vm_compute; repeat constructor; discriminate).
  assert (two_quotes <> []) as H2 by discriminate.
  exact (conj H1 (conj H2 (conj two_quotes_incl
    (further_quote_never_raises_selection _ _ H1 H2 two_quotes_incl)))).
Defined.

(** ** [calculate_pricing] *)

(** X6.  Whenever the body of calculate_pricing reaches "Build response"
    on labor hours that are not NaN, labor_cost lies between 11.25 (rate
    25, multiplier 0.9, half an hour, normal urgency) and 8820 (rate 42,
    multiplier 1.4, 100 hours, emergency). *)
Theorem labor_cost_bounds (j : job_data) (v : Locals.t) :
  calculate_pricing_locals j = Ok v -> hours j <> NaN ->
  fle (lit 11.25) (Locals.labor_cost v) = true /\
  fle (Locals.labor_cost v) (of_Z 8820) = true.
Proof. apply labor_cost_range. Qed.

Lemma labor_cost_bounds_witness :
  exists v,
    calculate_pricing_locals spec_example = Ok v /\
    hours spec_example <> NaN /\
    fle (lit 11.25) (Locals.labor_cost v) = true /\
    fle (Locals.labor_cost v) (of_Z 8820) = true.
Proof.
  with_locals spec_example ltac:(fun v => exists v).
  match goal with
  | |- ?A /\ _ => assert A as H1 by (vm_compute; reflexivity)
  end.
  exact (conj H1 (conj spec_example_hours
    (labor_cost_bounds spec_example _ H1 spec_example_hours))).
Defined.

(** X7.  Whenever the body of calculate_pricing reaches "Build response"
    on labor hours that are not NaN, labor_cost and technician_payout
    are finite and the payout lies between 67% and 69% of the labor
    cost. *)
Theorem technician_payout_share (j : job_data) (v : Locals.t) :
  calculate_pricing_locals j = Ok v -> hours j <> NaN ->
  exists l p,
    Locals.labor_cost v = Fin l /\ Locals.technician_payout v = Fin p /\
    (67 # 100) * l <= p /\ p <= (69 # 100) * l.
Proof.
  intros Hv Hn.
  destruct (labor_cost_range j v Hv Hn) as [Hlo Hhi].
  apply locals_inv in Hv. destruct Hv as (_ & _ & Hs).
  rewrite (ls_payout j v Hs), lit_068.
  assert (lit 11.25 = Fin (45 # 4)) as E1 by (vm_compute; reflexivity).
  assert (of_Z 8820 = Fin 8820) as E2 by (vm_compute; reflexivity).
  rewrite E1 in Hlo. rewrite E2 in Hhi.
  clear E1 E2.
  destruct (Locals.labor_cost v) as [l | | |];
    try discriminate Hlo; try discriminate Hhi.
  apply fle_fin in Hlo, Hhi.
  exists l. cbn [fmul].
  assert (0 <= l * c68) as H0 by (unfold c68; nra).
  pose proof (b64_nonneg _ H0) as Hb.
  pose proof eta_small as [He1 He2]. pose proof huge_big as Hh.
  assert ((6799 # 10000) * l <= l * c68 /\ l * c68 <= (6801 # 10000) * l)
    as [Hx1 Hx2] by (unfold c68; split; lra).
  generalize dependent (l * c68). intros x H0 Hb Hx1 Hx2.
  destruct (b64 x) as [y | | |]; try contradiction; [| unfold eps in *; lra].
  destruct Hb as (Hy0 & Hy1 & Hy2 & Hy3).
  pose proof (round2_nonneg y Hy0) as Hr.
  destruct (round2 (Fin y)) as [p | | |]; try contradiction;
    [| unfold eps in *; lra].
  destruct Hr as (Hp0 & Hp1 & Hp2 & Hp3).
  exists p. repeat split; unfold eps in *; lra.
Qed.

Lemma technician_payout_share_witness :
  exists v,
    calculate_pricing_locals spec_example = Ok v /\
    hours spec_example <> NaN /\
    exists l p,
      Locals.labor_cost v = Fin l /\ Locals.technician_payout v = Fin p /\
      (67 # 100) * l <= p /\ p <= (69 # 100) * l.
Proof.
  with_locals spec_example ltac:(fun v => exists v).
  match goal with
  | |- ?A /\ _ => assert A as H1 by (vm_compute; reflexivity)
  end.
  exact (conj H1 (conj spec_example_hours
    (technician_payout_share spec_example _ H1 spec_example_hours))).
Defined.

(** X8.  Of two accepted requests with the same state, job type, urgency
    and material prices, the latter non-negative and finite, the one
    with at least as many labor hours and at least as long a
    non-negative distance has labor cost, technician payout, logistics
    cost, subtotal and client price that are not smaller. *)
Theorem quote_monotone_in_hours_and_distance
  (j j' : job_data) (v v' : Locals.t) :
  calculate_pricing_locals j = Ok v -> calculate_pricing_locals j' = Ok v' ->
  state j = state j' -> job_type j = job_type j' -> urgency j = urgency j' ->
  material_prices j = material_prices j' ->
  fle (hours j) (hours j') = true ->
  fle (distance j) (distance j') = true ->
  nonneg_finite (distance j) ->
  Forall nonneg_finite (map snd (quotes j)) ->
  fle (Locals.labor_cost v) (Locals.labor_cost v') = true /\
  fle (Locals.technician_payout v) (Locals.technician_payout v') = true /\
  fle (Locals.logistics_cost v) (Locals.logistics_cost v') = true /\
  fle (Locals.subtotal v) (Locals.subtotal v') = true /\
  fle (Locals.client_price v) (Locals.client_price v') = true.
Proof.
  intros Hv Hv' Es Et Eu Em Hh Hd Hd0 Hq.
  apply locals_inv in Hv, Hv'.
  destruct Hv as (_ & Hr & Hs). destruct Hv' as (_ & Hr' & Hs').
  assert (Locals.material_cost v = Locals.material_cost v') as Emc.
  { pose proof (ls_material j v Hs) as M. pose proof (ls_material j' v' Hs') as M'.
    unfold quotes in M, M'. rewrite <- Em in M'. rewrite <- M' in M.
    now injection M. }
  pose proof (material_nonneg j v Hs Hq) as Hm0.
  assert (region j = region j') as Eg by (unfold region; now rewrite Es).
  assert (category j = category j') as Ec by (unfold category; now rewrite Et).
  assert (level j = level j') as El by (unfold level; now rewrite Eu).
  assert (fle (Locals.material_cost v) (Locals.material_cost v') = true) as Hm.
  { rewrite <- Emc. apply fle_refl. eapply at_least_not_nan; eassumption. }
  destruct (amounts_mono j j' v v' Hs Hs' Hr Hr' Eg Ec El Hh Hd Hd0 Hm0 Hm)
    as (A & B & C & D & _ & _ & E).
  repeat split; assumption.
Qed.

Lemma quote_monotone_in_hours_and_distance_witness :
  exists v v',
    calculate_pricing_locals quoted_job = Ok v /\
    calculate_pricing_locals longer_job = Ok v' /\
    fle (hours quoted_job) (hours longer_job) = true /\
    fle (distance quoted_job) (distance longer_job) = true /\
    fle (Locals.labor_cost v) (Locals.labor_cost v') = true /\
    fle (Locals.technician_payout v) (Locals.technician_payout v') = true /\
    fle (Locals.logistics_cost v) (Locals.logistics_cost v') = true /\
    fle (Locals.subtotal v) (Locals.subtotal v') = true /\
    fle (Locals.client_price v) (Locals.client_price v') = true.
Proof.
  with_locals quoted_job ltac:(fun v => exists v).
  with_locals longer_job ltac:(fun v => exists v).
  match goal with
  | |- ?A /\ ?B /\ ?C /\ ?D /\ _ =>
      assert A as H1 by (vm_compute; reflexivity);
      assert B as H2 by (vm_compute; reflexivity);
      assert C as H3 by (vm_compute; reflexivity);
      assert D as H4 by (vm_compute; reflexivity)
  end.
  exact (conj H1 (conj H2 (conj H3 (conj H4
    (quote_monotone_in_hours_and_distance quoted_job longer_job _ _ H1 H2
       eq_refl eq_refl eq_refl eq_refl H3 H4
       quoted_job_distance quoted_job_quotes))))).
Defined.

(** X9.  Of two accepted requests that differ in the material prices
    only, non-negative and finite, the one whose quotes include all the
    quotes of the other (which has at least one) has material cost,
    subtotal and client price that are not greater. *)
Theorem further_quote_never_raises_price
  (j j' : job_data) (v v' : Locals.t) :
  calculate_pricing_locals j = Ok v -> calculate_pricing_locals j' = Ok v' ->
  state j = state j' -> job_type j = job_type j' -> urgency j = urgency j' ->
  labor_hours j = labor_hours j' -> distance_km j = distance_km j' ->
  hours j <> NaN -> nonneg_finite (distance j) ->
  Forall nonneg_finite (map snd (quotes j)) ->
  quotes j' <> [] -> incl (quotes j') (quotes j) ->
  fle (Locals.material_cost v) (Locals.material_cost v') = true /\
  fle (Locals.subtotal v) (Locals.subtotal v') = true /\
  fle (Locals.client_price v) (Locals.client_price v') = true.
Proof.
  intros Hv Hv' Es Et Eu Eh Ed Hn Hd0 Hq Hne Hi.
  apply locals_inv in Hv, Hv'.
  destruct Hv as (_ & Hr & Hs). destruct Hv' as (_ & Hr' & Hs').
  pose proof (material_nonneg j v Hs Hq) as Hm0.
  assert (fle (Locals.material_cost v) (Locals.material_cost v') = true) as Hm.
  { pose proof (select_supplier_incl _ _ (nonneg_nan_free _ Hq) Hne Hi) as H.
    pose proof (ls_material j v Hs) as M. pose proof (ls_material j' v' Hs') as M'.
    assert (quotes j <> []) as Hne'.
    { destruct (quotes j') as [| e t]; [congruence |].
      intros E. rewrite E in Hi. apply (Hi e). now left. }
    destruct (select_supplier_first_cheapest (quotes j)
                (nonneg_nan_free _ Hq) Hne') as (n & p & E1 & _).
    assert (nan_free (quotes j')) as Hn'.
    { pose proof (nonneg_nan_free _ Hq) as F. unfold nan_free in *.
      rewrite Forall_forall in *. auto. }
    destruct (select_supplier_first_cheapest (quotes j') Hn' Hne)
      as (n' & p' & E2 & _).
    rewrite E1 in M, H. rewrite E2 in M', H. cbn [snd] in H.
    injection M as _ ->. injection M' as _ ->. now apply round2_mono. }
  assert (hours j = hours j') as Eh' by (unfold hours; now rewrite Eh).
  assert (distance j = distance j') as Ed' by (unfold distance; now rewrite Ed).
  assert (region j = region j') as Eg by (unfold region; now rewrite Es).
  assert (category j = category j') as Ec by (unfold category; now rewrite Et).
  assert (level j = level j') as El by (unfold level; now rewrite Eu).
  assert (fle (hours j) (hours j') = true) as Hh.
  { rewrite <- Eh'. apply fle_refl. exact Hn. }
  assert (fle (distance j) (distance j') = true) as Hd.
  { rewrite <- Ed'. destruct (distance j); try contradiction.
    apply fle_fin. lra. }
  destruct (amounts_mono j j' v v' Hs Hs' Hr Hr' Eg Ec El Hh Hd Hd0 Hm0 Hm)
    as (_ & _ & _ & D & _ & _ & E).
  repeat split; assumption.
Qed.

Lemma further_quote_never_raises_price_witness :
  exists v v',
    calculate_pricing_locals quoted_job = Ok v /\
    calculate_pricing_locals fewer_quotes_job = Ok v' /\
    quotes fewer_quotes_job <> [] /\
    fle (Locals.material_cost v) (Locals.material_cost v') = true /\
    fle (Locals.subtotal v) (Locals.subtotal v') = true /\
    fle (Locals.client_price v) (Locals.client_price v') = true.
Proof.
  with_locals quoted_job ltac:(fun v => exists v).
  with_locals fewer_quotes_job ltac:(fun v => exists v).
  match goal with
  | |- ?A /\ ?B /\ ?C /\ _ =>
      assert A as H1 by (vm_compute; reflexivity);
      assert B as H2 by (vm_compute; reflexivity);
      assert C as H3 by discriminate
  end.
  exact (conj H1 (conj H2 (conj H3
    (further_quote_never_raises_price quoted_job fewer_quotes_job _ _ H1 H2
       eq_refl eq_refl eq_refl eq_refl eq_refl
       quoted_job_hours quoted_job_distance quoted_job_quotes
       H3 fewer_quotes_incl)))).
Defined.

(** X10.  On every accepted request whose labor hours are not NaN and
    whose distance and material prices are non-negative and finite, the
    subtotal is at least 61.25, no arm of the adjustment runs, the
    client price is at least 83.90, and a returned response has
    client_price at least 84. *)
Theorem price_floor (j : job_data) (v : Locals.t) :
  calculate_pricing_locals j = Ok v -> hours j <> NaN ->
  nonneg_finite (distance j) ->
  Forall nonneg_finite (map snd (quotes j)) ->
  fle (lit 61.25) (Locals.subtotal v) = true /\
  Locals.adjustment v = Unadjusted /\
  fle (lit 83.9) (Locals.client_price v) = true /\
  forall r, calculate_pricing j = Ok r -> (84 <= Response.client_price r)%Z.
Proof.
  intros Hv Hn Hd Hq.
  destruct (labor_cost_range j v Hv Hn) as [Hl _].
  pose proof Hv as Hv0.
  apply locals_inv in Hv. destruct Hv as (_ & Hr & Hs).
  pose proof (material_nonneg j v Hs Hq) as Hm.
  pose proof (logistics_nonneg _ Hd) as Hg. rewrite <- (ls_logistics j v Hs) in Hg.
  assert (fle (lit 61.25) (Locals.subtotal v) = true) as Hsub.
  { rewrite (ls_subtotal j v Hs).
    assert (lit 61.25 = fadd (fadd (lit 11.25) (Fin 0)) (Fin 50)) as ->
      by (vm_compute; reflexivity).
    apply fadd_mono.
    - vm_compute. discriminate.
    - cbn. lra.
    - apply fadd_mono; auto.
      + vm_compute. discriminate.
      + cbn. lra.
      + now apply fle_at_least.
    - now apply fle_at_least. }
  assert (at_least (1 # 10) (lit 61.25)) as H0 by (vm_compute; discriminate).
  assert (exists amp pm, bounded_margin (lit 61.25) =
            Ok (lit 83.9, amp, Unadjusted, lit 83.9, pm)) as (amp0 & pm0 & E0)
    by (eexists; eexists; vm_compute; reflexivity).
  pose proof (regular_price_mono _ _ _ _ H0 Hsub E0 (ls_margin j v Hs)) as Hp.
  destruct Hp as (_ & A & B).
  split; [exact Hsub | split; [exact A | split; [exact B |]]].
  intros r Hr'. unfold calculate_pricing in Hr'. rewrite Hv0 in Hr'.
  cbn [bind] in Hr'. apply build_response_fields in Hr'.
  destruct Hr' as (Hc & _).
  assert (exists q, lit 83.9 = Fin q /\ rne q = 84%Z) as (q & E & <-)
    by (eexists; split; vm_compute; reflexivity).
  rewrite E in B.
  destruct (Locals.client_price v) as [c | | |]; try discriminate Hc.
  cbn in Hc. injection Hc as <-.
  apply fle_fin in B. clear E. apply rne_mono. exact B.
Qed.

Lemma price_floor_witness :
  exists v,
    calculate_pricing_locals quoted_job = Ok v /\
    fle (lit 61.25) (Locals.subtotal v) = true /\
    Locals.adjustment v = Unadjusted /\
    fle (lit 83.9) (Locals.client_price v) = true /\
    forall r, calculate_pricing quoted_job = Ok r ->
              (84 <= Response.client_price r)%Z.
Proof.
  with_locals quoted_job ltac:(fun v => exists v).
  match goal with
  | |- ?A /\ _ => assert A as H1 by (vm_compute; reflexivity)
  end.
  exact (conj H1 (price_floor quoted_job _ H1 quoted_job_hours
                    quoted_job_distance quoted_job_quotes)).
Defined.

(** X11.  pricing_confidence is "high" or "medium" and never "low"; it
    is "high" exactly when material prices are given, labor hours are
    not above 50 and the client price is not above 2000;
    approval_required is true exactly when the lower-cased urgency is
    "emergency" or the client price is above 3000. *)
Theorem confidence_and_approval (j : job_data) (v : Locals.t) :
  calculate_pricing_locals j = Ok v ->
  (Locals.pricing_confidence v = "high" \/
   Locals.pricing_confidence v = "medium") /\
  (Locals.pricing_confidence v = "high" <->
   quotes j <> [] /\ fgt (hours j) (of_Z 50) = false /\
   fgt (Locals.client_price v) (of_Z 2000) = false) /\
  Locals.approval_required v =
    (String.eqb (level j) "emergency"
     || fgt (Locals.client_price v) (of_Z 3000)).
Proof.
  intros Hv. apply locals_inv in Hv. destruct Hv as (_ & _ & Hs).
  pose proof (ls_confidence j v Hs) as Hc.
  pose proof (ls_approval j v Hs) as Ha.
  rewrite (ls_urgency j v Hs) in Ha.
  destruct (fgt (hours j) (of_Z 50)) eqn:E1;
  destruct (fgt (Locals.client_price v) (of_Z 2000)) eqn:E2;
  destruct (quotes j) as [| e t] eqn:E3; cbn [orb] in Hc;
    rewrite Hc in *; cbn in Ha;
    (split; [auto | split;
       [ split; [intros H; try discriminate H; repeat split; discriminate
                | intros (H1 & H2 & H3); congruence]
       | rewrite Ha;
         destruct (fgt (Locals.client_price v) (of_Z 3000));
         destruct (String.eqb (level j) "emergency"); reflexivity ]]).
Qed.

Lemma confidence_and_approval_witness :
  exists v,
    calculate_pricing_locals quoted_job = Ok v /\
    Locals.pricing_confidence v = "high" /\
    Locals.approval_required v = false.
Proof.
  with_locals quoted_job ltac:(fun v => exists v).
  match goal with
  | |- ?A /\ _ => assert A as H1 by (vm_compute; reflexivity)
  end.
  pose proof (confidence_and_approval quoted_job _ H1) as (_ & _ & H).
  split; [exact H1 | split; [reflexivity | exact H]].
Defined.

(** X12.  In all three arms of the adjustment the final client price is
    round(subtotal / divisor, 2) for the divisor of the arm that ran
    (0.80, 0.65, or 1-0.27 when none ran), the division does not fail,
    and the final platform margin is round(client_price - subtotal, 2)
    of the final client price. *)
Theorem margin_is_price_minus_subtotal (j : job_data) (v : Locals.t) :
  calculate_pricing_locals j = Ok v ->
  Locals.platform_margin v =
    round2 (fsub (Locals.client_price v) (Locals.subtotal v)) /\
  exists q,
    fdiv (Locals.subtotal v) (divisor (Locals.adjustment v)) = Ok q /\
    Locals.client_price v = round2 q.
Proof.
  intros Hv. apply locals_inv in Hv. destruct Hv as (_ & _ & Hs).
  exact (bounded_margin_shape _ _ (ls_margin j v Hs)).
Qed.

Lemma margin_is_price_minus_subtotal_witness :
  exists v,
    calculate_pricing_locals refund_job = Ok v /\
    Locals.platform_margin v =
      round2 (fsub (Locals.client_price v) (Locals.subtotal v)) /\
    exists q,
      fdiv (Locals.subtotal v) (divisor (Locals.adjustment v)) = Ok q /\
      Locals.client_price v = round2 q.
Proof.
  with_locals refund_job ltac:(fun v => exists v).
  match goal with
  | |- ?A /\ _ => assert A as H1 by (vm_compute; reflexivity)
  end.
  exact (conj H1 (margin_is_price_minus_subtotal refund_job _ H1)).
Defined.

(** X13.  On a request whose job_type, urgency and state are strings,
    whose labor_hours and distance_km are numbers and whose material
    prices are floats, calculate_pricing reports one of five messages
    only: "int too large to convert to float", "Invalid state code",
    "Labor hours must be between 0.5 and 100", and the two messages of
    round() on an infinity or a NaN.  The message is never empty, and
    each of the five is reported on some request. *)
Theorem pricing_error_messages (r : Request.t) (msg : string) :
  (calculate_pricing_request r = Err msg ->
   (msg = "int too large to convert to float" \/
    msg = "Invalid state code" \/
    msg = "Labor hours must be between 0.5 and 100" \/
    msg = "cannot convert float infinity to integer" \/
    msg = "cannot convert float NaN to integer") /\
   msg <> "") /\
  (msg = "int too large to convert to float" \/
   msg = "Invalid state code" \/
   msg = "Labor hours must be between 0.5 and 100" \/
   msg = "cannot convert float infinity to integer" \/
   msg = "cannot convert float NaN to integer" ->
   exists r', calculate_pricing_request r' = Err msg).
Proof.
  split.
  - unfold calculate_pricing_request.
    destruct (read_request r) as [j | e] eqn:E; cbn [bind]; intros H.
    + destruct (error_messages j msg H) as [Hm Hne]. split; [tauto | exact Hne].
    + injection H as <-. apply read_request_error in E. subst e.
      split; [now left | discriminate].
  - intros [-> | [-> | [-> | [-> | ->]]]].
    + exists huge_hours_request. vm_compute. reflexivity.
    + exists (request_of unknown_region_job). vm_compute. reflexivity.
    + exists (request_of short_job). vm_compute. reflexivity.
    + exists (request_of overflow_job). vm_compute. reflexivity.
    + exists (request_of nan_hours_job). vm_compute. reflexivity.
Qed.

Lemma pricing_error_messages_witness :
  calculate_pricing_request huge_hours_request
  = Err "int too large to convert to float" /\
  "int too large to convert to float" <> "" /\
  exists r, calculate_pricing_request r
            = Err "cannot convert float NaN to integer".
Proof.
  assert (calculate_pricing_request huge_hours_request
          = Err "int too large to convert to float") as H
    by (vm_compute; reflexivity).
  exact (conj H (conj
    (proj2 (proj1 (pricing_error_messages huge_hours_request _) H))
    (proj2 (pricing_error_messages huge_hours_request
              "cannot convert float NaN to integer")
       (or_intror (or_intror (or_intror (or_intror eq_refl))))))).
Defined.

(** X14.  NaN labor hours in a known state pass the range check, both
    comparisons being false, and the request fails at "Build response"
    with "cannot convert float NaN to integer". *)
Theorem nan_hours_pass_validation (j : job_data) :
  mem (region j) STATE_LABOR_RATES = true -> hours j = NaN ->
  out_of_range (hours j) = false /\
  calculate_pricing j = Err "cannot convert float NaN to integer".
Proof.
  intros Hm Hn.
  assert (out_of_range (hours j) = false) as Hr by (rewrite Hn; reflexivity).
  split; [exact Hr |].
  destruct (pricing_valid j Hm Hr) as (v & _ & Hs & ->).
  assert (Locals.labor_cost v = NaN) as El.
  { rewrite (ls_labor j v Hs), Hn.
    destruct (fmul (of_Z (Locals.state_labor_rate v)) (Locals.job_multiplier v));
      cbn [fmul]; destruct (Locals.urgency_multiplier v); reflexivity. }
  assert (Locals.subtotal v = NaN) as Es.
  { rewrite (ls_subtotal j v Hs), El. reflexivity. }
  pose proof (ls_margin j v Hs) as Hb. rewrite Es in Hb.
  destruct bounded_margin_nan as (tp & amp & adj & pm & E).
  rewrite E in Hb. injection Hb as _ _ _ Hc _.
  unfold build_response. rewrite <- Hc. reflexivity.
Qed.

Lemma nan_hours_pass_validation_witness :
  mem (region nan_hours_job) STATE_LABOR_RATES = true /\
  hours nan_hours_job = NaN /\
  out_of_range (hours nan_hours_job) = false /\
  calculate_pricing nan_hours_job = Err "cannot convert float NaN to integer".
Proof.
  assert (mem (region nan_hours_job) STATE_LABOR_RATES = true) as H1
    by (vm_compute; reflexivity).
  assert (hours nan_hours_job = NaN) as H2 by reflexivity.
  exact (conj H1 (conj H2 (nan_hours_pass_validation nan_hours_job H1 H2))).
Defined.

(** X15.  A request gives the result of the request that spells out the
    defaults of the source for its missing keys (an empty job type,
    "normal", 2, "CA", 10, no material prices), and two requests that
    agree on the six keys other than job_description give the same
    result. *)
Theorem missing_keys_take_defaults (j : job_data) :
  calculate_pricing j = calculate_pricing (with_defaults j) /\
  forall j',
    job_type j' = job_type j -> urgency j' = urgency j ->
    labor_hours j' = labor_hours j -> state j' = state j ->
    distance_km j' = distance_km j -> material_prices j' = material_prices j ->
    calculate_pricing j' = calculate_pricing j.
Proof.
  split.
  - apply pricing_ext; reflexivity.
  - intros j' H1 H2 H3 H4 H5 H6.
    apply pricing_ext; unfold category, level, hours, region, distance, quotes;
      rewrite ?H1, ?H2, ?H3, ?H4, ?H5, ?H6; reflexivity.
Qed.

Lemma missing_keys_take_defaults_witness :
  calculate_pricing stateless_job = calculate_pricing (with_defaults stateless_job) /\
  calculate_pricing (with_job_description "leaking tap" quoted_job) =
  calculate_pricing quoted_job.
Proof.
  exact (conj (proj1 (missing_keys_take_defaults stateless_job))
          (proj2 (missing_keys_take_defaults quoted_job)
             (with_job_description "leaking tap" quoted_job)
             eq_refl eq_refl eq_refl eq_refl eq_refl eq_refl)).
Defined.

(** X16.  Job types with the same lower-casing, and urgencies with the
    same lower-casing, give the same result; in particular a job type
    and an urgency in ASCII give the result of their upper-casings. *)
Theorem job_type_and_urgency_ignore_case (j : job_data) (t t' u u' : string) :
  (lower t = lower t' -> lower u = lower u' ->
   calculate_pricing (with_job_type t (with_urgency u j)) =
   calculate_pricing (with_job_type t' (with_urgency u' j))) /\
  (ascii_only t = true -> ascii_only u = true ->
   calculate_pricing (with_job_type (upper t) (with_urgency (upper u) j)) =
   calculate_pricing (with_job_type t (with_urgency u j))).
Proof.
  split.
  - intros Ht Hu. apply pricing_ext; try reflexivity;
      unfold category, level;
      cbn [job_type urgency with_job_type with_urgency key_or];
      rewrite ?Ht, ?Hu; reflexivity.
  - intros Ht Hu. apply pricing_ext; try reflexivity;
      unfold category, level;
      cbn [job_type urgency with_job_type with_urgency key_or];
      rewrite ?(lower_upper_ascii_only t Ht), ?(lower_upper_ascii_only u Hu);
      reflexivity.
Qed.

Lemma job_type_and_urgency_ignore_case_witness :
  (lower "Plumbing" = lower "PLUMBING" /\
   lower "Emergency" = lower "emergency" /\
   calculate_pricing
     (with_job_type "Plumbing" (with_urgency "Emergency" spec_example)) =
   calculate_pricing
     (with_job_type "PLUMBING" (with_urgency "emergency" spec_example))) /\
  (lower kelvin_job_type = lower "Kitchen_Remodel" /\
   calculate_pricing
     (with_job_type kelvin_job_type (with_urgency "normal" spec_example)) =
   calculate_pricing
     (with_job_type "Kitchen_Remodel" (with_urgency "normal" spec_example))) /\
  (ascii_only "Plumbing" = true /\ ascii_only "Emergency" = true /\
   calculate_pricing
     (with_job_type (upper "Plumbing")
        (with_urgency (upper "Emergency") spec_example)) =
   calculate_pricing
     (with_job_type "Plumbing" (with_urgency "Emergency" spec_example))).
Proof.
  assert (lower "Plumbing" = lower "PLUMBING") as H1
    by (vm_compute; reflexivity).
  assert (lower "Emergency" = lower "emergency") as H2
    by (vm_compute; reflexivity).
  assert (lower kelvin_job_type = lower "Kitchen_Remodel") as H3
    by (vm_compute; reflexivity).
  assert (ascii_only "Plumbing" = true) as H4 by reflexivity.
  assert (ascii_only "Emergency" = true) as H5 by reflexivity.
  exact (conj
    (conj H1 (conj H2
       (proj1 (job_type_and_urgency_ignore_case spec_example _ _ _ _) H1 H2)))
    (conj
       (conj H3
          (proj1 (job_type_and_urgency_ignore_case spec_example
                    kelvin_job_type "Kitchen_Remodel" "normal" "normal")
             H3 eq_refl))
       (conj H4 (conj H5
          (proj2 (job_type_and_urgency_ignore_case spec_example
                    "Plumbing" "Plumbing" "Emergency" "Emergency") H4 H5))))).
Defined.

(** X17.  Every response comes from a run of the body that reached
    "Build response": its six amounts are finite and each integer of the
    response is within 0.5 of the amount it rounds, and material_source,
    pricing_confidence and approval_required are passed on unchanged. *)
Theorem response_within_half_a_unit (j : job_data) (r : Response.t) :
  calculate_pricing j = Ok r ->
  exists v,
    calculate_pricing_locals j = Ok v /\
    half_unit (Locals.client_price v) (Response.client_price r) /\
    half_unit (Locals.technician_payout v) (Response.technician_payout r) /\
    half_unit (Locals.material_cost v) (Response.material_cost r) /\
    half_unit (Locals.labor_cost v) (Response.labor_cost r) /\
    half_unit (Locals.logistics_cost v) (Response.logistics_cost r) /\
    half_unit (Locals.platform_margin v) (Response.platform_margin r) /\
    Response.material_source r = Locals.material_source v /\
    Response.pricing_confidence r = Locals.pricing_confidence v /\
    Response.approval_required r = Locals.approval_required v.
Proof.
  intros H. destruct (pricing_inv j r H) as (v & Hv & _ & Hb).
  exists v. split; [exact Hv |].
  apply build_response_fields in Hb.
  destruct Hb as (H1 & H2 & H3 & H4 & H5 & H6 & H7 & H8 & H9).
  repeat split; auto using round0_half_unit.
Qed.

Lemma response_within_half_a_unit_witness :
  exists r,
    calculate_pricing spec_example = Ok r /\
    exists v,
      calculate_pricing_locals spec_example = Ok v /\
      half_unit (Locals.client_price v) (Response.client_price r) /\
      half_unit (Locals.platform_margin v) (Response.platform_margin r).
Proof.
  let r := eval vm_compute in (calculate_pricing spec_example) in
  match r with Ok ?x => exists x end.
  match goal with
  | |- ?A /\ _ => assert A as H1 by (vm_compute; reflexivity)
  end.
  split; [exact H1 |].
  destruct (response_within_half_a_unit spec_example _ H1)
    as (v & Hv & A & _ & _ & _ & _ & B & _).
  exists v. auto.
Defined.

(** ** [calculate_quote] *)

(** X18.  Once the body is parsed as null or an object, calculate_quote
    answers 400 "No data provided" when the body is falsy; otherwise 200
    with the response of calculate_pricing, or 400 with its error
    message; the reply is never jsonify(None), the status is 200 exactly
    on a quote and 400 exactly on an error with a non-empty message. *)
Theorem calculate_quote_replies (body : json_body) :
  (not_data body = true ->
   calculate_quote body = (ErrorReply "No data provided", 400%Z)) /\
  (forall other_keys data,
     body = JsonObject other_keys data -> not_data body = false ->
     (forall result, calculate_pricing data = Ok result ->
        calculate_quote body = (QuoteReply result, 200%Z)) /\
     (forall error, calculate_pricing data = Err error ->
        calculate_quote body = (ErrorReply error, 400%Z))) /\
  fst (calculate_quote body) <> NullReply /\
  (snd (calculate_quote body) = 200%Z <->
   exists result, fst (calculate_quote body) = QuoteReply result) /\
  (snd (calculate_quote body) = 400%Z <->
   exists error, fst (calculate_quote body) = ErrorReply error /\ error <> "").
Proof.
  assert (forall o d, not_data (JsonObject o d) = false ->
            forall e, calculate_pricing d = Err e ->
            calculate_quote (JsonObject o d) = (ErrorReply e, 400%Z)) as Herr.
  { intros o d Hn e He. unfold calculate_quote. rewrite Hn, He.
    destruct (error_messages d e He) as [_ Hne].
    apply String.eqb_neq in Hne. now rewrite Hne. }
  split; [| split].
  - intros H. unfold calculate_quote. now rewrite H.
  - intros o d -> Hn. split.
    + intros r Hr. unfold calculate_quote. now rewrite Hn, Hr.
    + now apply Herr.
  - destruct (not_data body) eqn:Hn.
    + unfold calculate_quote. rewrite Hn. cbn.
      repeat split; try discriminate.
      * intros [r Hr]. discriminate.
      * intros _. exists "No data provided". split; [reflexivity | discriminate].
    + destruct body as [| o d]; [discriminate |].
      destruct (calculate_pricing d) as [r | e] eqn:E.
      * unfold calculate_quote. rewrite Hn, E. cbn.
        repeat split; try discriminate; eauto.
        intros (e & He & _). discriminate.
      * rewrite (Herr o d Hn e E). cbn.
        destruct (error_messages d e E) as [_ Hne].
        repeat split; try discriminate; eauto.
        intros (r & Hr). discriminate.
Qed.

Lemma calculate_quote_replies_witness :
  not_data (JsonObject false short_job) = false /\
  calculate_pricing short_job = Err "Labor hours must be between 0.5 and 100" /\
  calculate_quote (JsonObject false short_job) =
    (ErrorReply "Labor hours must be between 0.5 and 100", 400%Z) /\
  not_data (JsonObject false empty_request) = true /\
  calculate_quote (JsonObject false empty_request) =
    (ErrorReply "No data provided", 400%Z).
Proof.
  assert (not_data (JsonObject false short_job) = false) as H1 by reflexivity.
  assert (calculate_pricing short_job =
          Err "Labor hours must be between 0.5 and 100") as H2
    by (vm_compute; reflexivity).
  assert (not_data (JsonObject false empty_request) = true) as H3 by reflexivity.
  exact (conj H1 (conj H2 (conj
    (proj2 (proj1 (proj2 (calculate_quote_replies (JsonObject false short_job)))
              false short_job eq_refl H1) _ H2)
    (conj H3
       (proj1 (calculate_quote_replies (JsonObject false empty_request)) H3))))).
Defined.

(** X19.  An object that calculate_quote rejects with 400 "No data
    provided" is one that calculate_pricing prices, with the default
    quote (client price 179), and the same object with one more key that
    the engine ignores is answered 200 with that quote. *)
Theorem rejected_object_would_be_priced (other_keys : bool) (data : job_data) :
  not_data (JsonObject other_keys data) = true ->
  calculate_quote (JsonObject other_keys data) =
    (ErrorReply "No data provided", 400%Z) /\
  calculate_pricing data = Ok default_quote /\
  calculate_quote (JsonObject true data) = (QuoteReply default_quote, 200%Z).
Proof.
  intros H. split.
  - unfold calculate_quote. now rewrite H.
  - apply not_data_object in H. destruct H as [_ ->].
    split; vm_compute; reflexivity.
Qed.

Lemma rejected_object_would_be_priced_witness :
  not_data (JsonObject false empty_request) = true /\
  calculate_quote (JsonObject false empty_request) =
    (ErrorReply "No data provided", 400%Z) /\
  calculate_pricing empty_request = Ok default_quote /\
  calculate_quote (JsonObject true empty_request) =
    (QuoteReply default_quote, 200%Z).
Proof.
  assert (not_data (JsonObject false empty_request) = true) as H by reflexivity.
  exact (conj H (rejected_object_would_be_priced false empty_request H)).
Defined.

(** ** [get_states] and [get_job_types] *)

(** X20.  get_states answers 200 with the 50 state codes in strictly
    increasing order, all in upper case, and the table of rates.  On a
    request whose state is a string and whose labor_hours and
    distance_km are numbers, calculate_pricing reports "Invalid state
    code" exactly when float() accepts the two numbers and the
    upper-cased state is not in the list, and a body that runs to the
    end uses the rate that the reply shows for the upper-cased state. *)
Theorem states_listed_are_accepted :
  let states := fst (fst get_states) in
  let rates := snd (fst get_states) in
  snd get_states = 200%Z /\
  List.length states = 50%nat /\
  StronglySorted (fun a b => String.ltb a b = true) states /\
  (forall s, In s states -> upper s = s) /\
  (forall r, calculate_pricing_request r = Err "Invalid state code" <->
             is_ok (read_request r) = true /\
             ~ In (request_region r) states) /\
  (forall r j v,
     read_request r = Ok j -> calculate_pricing_locals j = Ok v ->
     In (request_region r) states /\
     lookup (request_region r) rates = Some (Locals.state_labor_rate v)).
Proof.
  cbn zeta. unfold get_states. cbn [fst snd].
  split; [reflexivity |]. split; [vm_compute; reflexivity |].
  split; [apply ascending_sorted; vm_compute; reflexivity |].
  split.
  { intros s Hs. rewrite In_sorted_strings in Hs. revert s Hs.
    apply fixed_points. vm_compute. reflexivity. }
  split.
  - intros r. rewrite invalid_state_request, In_sorted_strings, <- mem_keys.
    destruct (mem (request_region r) STATE_LABOR_RATES);
      split; intros [H1 H2]; split; congruence.
  - intros r j v Hj Hv. apply locals_inv in Hv. destruct Hv as (Hm & _ & Hs).
    destruct (read_request_region r j Hj) as [E _]. rewrite E in *.
    split.
    + now rewrite In_sorted_strings, <- mem_keys.
    + rewrite (ls_rate j v Hs), E. now apply get_lookup.
Qed.

Lemma states_listed_are_accepted_witness :
  (is_ok (read_request (request_of unknown_region_job)) = true /\
   ~ In (request_region (request_of unknown_region_job))
        (fst (fst get_states)) /\
   calculate_pricing_request (request_of unknown_region_job)
   = Err "Invalid state code") /\
  exists v,
    calculate_pricing_locals spec_example = Ok v /\
    In (request_region (request_of spec_example)) (fst (fst get_states)) /\
    lookup (request_region (request_of spec_example)) (snd (fst get_states)) =
      Some (Locals.state_labor_rate v).
Proof.
  pose proof states_listed_are_accepted as (_ & _ & _ & _ & A & B).
  assert (is_ok (read_request (request_of unknown_region_job)) = true) as H1
    by (vm_compute; reflexivity).
  assert (~ In (request_region (request_of unknown_region_job))
            (fst (fst get_states))) as H2.
  { intros H. apply In_sorted_strings, mem_keys in H. vm_compute in H.
    discriminate H. }
  split; [exact (conj H1 (conj H2 (proj2 (A _) (conj H1 H2)))) |].
  with_locals spec_example ltac:(fun v => exists v).
  match goal with
  | |- ?X /\ _ => assert X as H3 by (vm_compute; reflexivity)
  end.
  exact (conj H3 (B _ _ _ (read_request_of spec_example) H3)).
Defined.

(** X21.  get_job_types answers 200 with the 15 job types in strictly
    increasing order, all in lower case; an accepted request whose
    lower-cased job type is in the list is priced with the multiplier of
    the table, any other with 1.0. *)
Theorem job_types_listed_are_recognised :
  let types := fst get_job_types in
  snd get_job_types = 200%Z /\
  List.length types = 15%nat /\
  StronglySorted (fun a b => String.ltb a b = true) types /\
  (forall t, In t types -> lower t = t) /\
  (forall j v, calculate_pricing_locals j = Ok v ->
     (In (category j) types ->
      lookup (category j) JOB_TYPE_MULTIPLIERS = Some (Locals.job_multiplier v)) /\
     (~ In (category j) types -> Locals.job_multiplier v = lit 1.0)).
Proof.
  cbn zeta. unfold get_job_types. cbn [fst snd].
  split; [reflexivity |]. split; [vm_compute; reflexivity |].
  split; [apply ascending_sorted; vm_compute; reflexivity |].
  split.
  { intros t Ht. rewrite In_sorted_strings in Ht. revert t Ht.
    apply fixed_points. vm_compute. reflexivity. }
  intros j v Hv. apply locals_inv in Hv. destruct Hv as (_ & _ & Hs).
  rewrite (ls_job j v Hs). split.
  - intros H. rewrite In_sorted_strings, <- mem_keys in H. now apply get_lookup.
  - intros H. apply get_absent.
    destruct (mem (category j) JOB_TYPE_MULTIPLIERS) eqn:E; [| reflexivity].
    exfalso. apply H. now rewrite In_sorted_strings, <- mem_keys.
Qed.

Lemma job_types_listed_are_recognised_witness :
  exists v,
    calculate_pricing_locals spec_example = Ok v /\
    In (category spec_example) (fst get_job_types) /\
    lookup (category spec_example) JOB_TYPE_MULTIPLIERS =
      Some (Locals.job_multiplier v).
Proof.
  with_locals spec_example ltac:(fun v => exists v).
  match goal with
  | |- ?A /\ _ => assert A as H1 by (vm_compute; reflexivity)
  end.
  assert (In (category spec_example) (fst get_job_types)) as H2
    by (vm_compute; tauto).
  exact (conj H1 (conj H2
    (proj1 (proj2 (proj2 (proj2 (proj2 job_types_listed_are_recognised)))
              spec_example _ H1) H2))).
Defined.

(** ** The conversions of [calculate_pricing] *)

(** X22.  On a request whose job_type, urgency and state are strings,
    whose labor_hours and distance_km are numbers and whose material
    prices are floats, calculate_pricing reports "int too large to
    convert to float" exactly when labor_hours or distance_km is an int
    of magnitude [2^1024 - 2^970] or more, whatever the other fields. *)
Theorem int_too_large_exactly (r : Request.t) :
  calculate_pricing_request r = Err "int too large to convert to float" <->
  too_large (Request.labor_hours r) || too_large (Request.distance_km r) = true.
Proof.
  split.
  - intros H.
    destruct (too_large (Request.labor_hours r)
              || too_large (Request.distance_km r)) eqn:T; [reflexivity |].
    destruct (read_request_fits r T) as (j & Hj).
    rewrite (pricing_request_ok r j Hj) in H.
    destruct (error_messages j _ H) as [[E | [E | [E | E]]] _];
      discriminate E.
  - intros H. unfold calculate_pricing_request.
    now rewrite (read_request_too_large r H).
Qed.

Lemma int_too_large_exactly_witness :
  too_large (Request.labor_hours huge_hours_request)
  || too_large (Request.distance_km huge_hours_request) = true /\
  calculate_pricing_request huge_hours_request
  = Err "int too large to convert to float" /\
  too_large (Request.labor_hours (request_of overflow_job))
  || too_large (Request.distance_km (request_of overflow_job)) = false /\
  calculate_pricing_request (request_of overflow_job)
  <> Err "int too large to convert to float".
Proof.
  assert (too_large (Request.labor_hours huge_hours_request)
          || too_large (Request.distance_km huge_hours_request) = true) as H1
    by (vm_compute; reflexivity).
  assert (too_large (Request.labor_hours (request_of overflow_job))
          || too_large (Request.distance_km (request_of overflow_job)) = false)
    as H2 by (vm_compute; reflexivity).
  split; [exact H1 | split].
  - exact (proj2 (int_too_large_exactly huge_hours_request) H1).
  - split; [exact H2 |]. intros H.
    apply (proj1 (int_too_large_exactly (request_of overflow_job))) in H.
    rewrite H2 in H. discriminate H.
Defined.
